(** * Verification of [verify_label_standardization.py]

    A shallow embedding of the label-standardization audit script and the
    properties of its Markdown table parser, API client, entity finders,
    comment scanner and nine-step pipeline.

    Text is modelled as [string]: a sequence of code points below 256
    (Latin-1), with Python's [str.lower], [str.strip] and [str.isspace]
    restricted to that range. *)

From Stdlib Require Import Ascii String ZArith Lia.
From stdpp Require Import base tactics option list strings pretty gmap.

Local Open Scope Z_scope.
Local Open Scope stdpp_scope.

#[local] Arguments Ascii.eqb : simpl never.
#[local] Arguments String.eqb : simpl never.

(** ** Python string operations *)

Module Py.

(** [str.isspace] on one code point below 256: TAB..CR, FS..US, SPACE,
    NEL (0x85) and NBSP (0xA0). *)
Definition isspace (c : ascii) : bool :=
  let n := N_of_ascii c in
  ((9 <=? n) && (n <=? 13) || (28 <=? n) && (n <=? 32)
   || (n =? 133) || (n =? 160))%N.

(** [str.lower] on one code point below 256: A..Z and the Latin-1
    capitals 0xC0..0xDE except the multiplication sign 0xD7. *)
Definition lower_char (c : ascii) : ascii :=
  let n := N_of_ascii c in
  if ((65 <=? n) && (n <=? 90)
      || (192 <=? n) && (n <=? 222) && negb (n =? 215))%N
  then ascii_of_N (n + 32) else c.

Fixpoint lower (s : string) : string :=
  match s with
  | "" => ""
  | String c s' => String (lower_char c) (lower s')
  end.

(** [s.startswith(p)] *)
Fixpoint startswith (s p : string) {struct p} : bool :=
  match p with
  | "" => true
  | String a p' =>
      match s with
      | "" => false
      | String b s' => Ascii.eqb a b && startswith s' p'
      end
  end.

(** [needle in hay] for two strings *)
Fixpoint contains (needle hay : string) : bool :=
  startswith hay needle ||
  match hay with
  | "" => false
  | String _ hay' => contains needle hay'
  end.

(** truthiness of a string: [bool(s)] *)
Definition nonempty (s : string) : bool :=
  match s with "" => false | _ => true end.

(** [s.split(sep)] for a one-character separator *)
Fixpoint split (sep : ascii) (s : string) : list string :=
  match s with
  | "" => [""]
  | String c s' =>
      if Ascii.eqb c sep then "" :: split sep s'
      else match split sep s' with
           | [] => [String c ""]
           | w :: ws => String c w :: ws
           end
  end.

Fixpoint lstrip (s : string) : string :=
  match s with
  | "" => ""
  | String c s' => if isspace c then lstrip s' else s
  end.

Fixpoint rstrip (s : string) : string :=
  match s with
  | "" => ""
  | String c s' =>
      match rstrip s' with
      | "" => if isspace c then "" else String c ""
      | r => String c r
      end
  end.

(** [s.strip()] *)
Definition strip (s : string) : string := rstrip (lstrip s).

(** [s.replace(old, new)] for a non-empty [old]: [skip] counts the
    characters of a matched [old] still to be dropped. *)
Fixpoint replace_go (old new : string) (skip : nat) (s : string) : string :=
  match s with
  | "" => ""
  | String c s' =>
      match skip with
      | S k => replace_go old new k s'
      | O =>
          if startswith s old
          then new +:+ replace_go old new (Nat.pred (String.length old)) s'
          else String c (replace_go old new O s')
      end
  end.

Definition replace (s old new : string) : string := replace_go old new O s.

(** [str(n)] for an integer *)
Definition str (n : Z) : string := pretty n.

(** The text of a value that is a string or [None], as an f-string
    or [str] renders it. *)
Definition fmt (s : option string) : string := default "None" s.

(** A value that a truthiness test has already shown to be a non-empty
    string, read as that string. *)
Definition narrowed (s : option string) : string := default "" s.

(** [x in xs] for a string and a list of strings *)
Definition elem (x : string) (xs : list string) : bool :=
  existsb (String.eqb x) xs.

End Py.

(** ** The table parser, [_parse_label_table] *)

(** The two locals the loop mutates. *)
Record parse_state := ParseState {
  in_table : bool;
  documented_labels : list string
}.

(** How an iteration of the [for] loop ends: it falls through or runs
    [continue] ([Next]), or it runs [break] ([Break]). *)
Inductive flow := Next | Break.

(** The cells of a table row: [[p.strip() for p in line.split("|")]]. *)
Definition row_cells (line : string) : list string :=
  Py.strip <$> Py.split "|" line.

(** The row branch of the loop body (source lines 83-87). *)
Definition parse_row (labels : list string) (line : string) : list string :=
  let parts := row_cells line in
  if (4 <=? length parts)%nat then
    let label_name := nth 1 parts "" in
    if Py.nonempty label_name && negb (String.eqb label_name "Label Name")
    then labels ++ [label_name]
    else labels
  else labels.

(** One iteration of the loop body (source lines 73-90). *)
Definition parse_line (table_header : string) (st : parse_state)
    (line : string) : parse_state * flow :=
  if Py.contains table_header line then
    (ParseState true (documented_labels st), Next)
  else if in_table st && Py.startswith line "|---" then
    (st, Next)
  else
    let st' :=
      if in_table st && Py.startswith line "|"
      then ParseState (in_table st) (parse_row (documented_labels st) line)
      else st in
    if in_table st' && Py.nonempty line && negb (Py.startswith line "|")
    then (st', Break)
    else (st', Next).

(** The [for line in lines] loop from a given state: the state at the end,
    and whether the loop was left by [break]. *)
Fixpoint parse_lines (table_header : string) (st : parse_state)
    (lines : list string) : parse_state * flow :=
  match lines with
  | [] => (st, Next)
  | line :: rest =>
      match parse_line table_header st line with
      | (st', Break) => (st', Break)
      | (st', Next) => parse_lines table_header st' rest
      end
  end.

Definition parse_init : parse_state := ParseState false [].

Definition _parse_label_table (content table_header : string) : list string :=
  documented_labels
    (parse_lines table_header parse_init (Py.split "010" content)).1.

(** ** Console output and exceptions *)

Inductive stream := Stdout | Stderr.

(** The exceptions the script can meet.  [KeyboardInterrupt] is the one
    that is not an instance of [Exception]. *)
Inductive exn :=
  | KeyboardInterrupt
  | TypeError
  | AttributeError
  | KeyError
  | JSONDecodeError
  | RequestException (what : string).

(** [isinstance(e, Exception)] *)
Definition is_Exception (e : exn) : bool :=
  match e with KeyboardInterrupt => false | _ => true end.

(** One constructor for each [print] statement of the script, with the
    values the line is formatted from. *)
Inductive message :=
  (* _get_github_api, source lines 28, 31, 34 *)
  | ApiNotFound (endpoint : string)
  | ApiStatus (endpoint : string) (status : Z)
  | ApiException (endpoint : string) (e : exn)
  (* _get_file_content, line 62 *)
  | FileDecodeError (file_path : string)
  (* environment, lines 200, 203 *)
  | EnvMissingToken
  | EnvMissingOrg
  (* opening banner, lines 212-215 *)
  | BannerTop
  | StartBanner
  | TargetRepo (org repo : string)
  | BannerBottom
  (* 1/9, lines 220-230 *)
  | Step1Start
  | ErrHeaderFormat
  | OkEnv
  | OkHeaders
  (* 2/9, lines 235-241 *)
  | Step2Start (branch : string)
  | ErrBranchNotFound (branch : string)
  | OkBranch (branch : string)
  (* 3/9, lines 246-266 *)
  | Step3Start (doc_file : string)
  | ErrDocNotFound (doc_file : string)
  | ErrDocLabelCount (actual required : nat)
  | OkDoc (count : nat)
  (* 4/9, lines 271-312 *)
  | Step4Start (keywords : list string)
  | ErrIssueNotFound
  | ErrIssueSections (missing : list string)
  | ErrIssueKeywords (missing : list string)
  | ErrIssueLabels (missing : list string)
  | OkIssue (number : Z) (title : option string)
  (* 5/9, lines 317-360 *)
  | Step5Start (keywords : list string)
  | ErrPrNotFound
  | ErrPrIssueRef (expected : string)
  | ErrPrSections (missing : list string)
  | ErrPrKeywords (missing : list string)
  | ErrPrLabelCount (actual required : nat)
  | OkPr (number : Z) (title : option string)
  (* 6/9, lines 365-373 *)
  | Step6Start (expected : nat)
  | ErrIssueExpectedLabels (count : nat) (first : list string)
  | OkIssueAllLabels (number : Z)
  (* 7/9, lines 378-409 *)
  | Step7Start (pr_number : Z)
  | ErrNoCompliantComment (issue_number pr_number : Z)
  | OkComment (issue_number pr_number : Z)
  (* 8/9, lines 414-432 *)
  | Step8Start
  | ErrMissingInDoc (first : list string) (count : nat)
  | WarnUnexpectedInDoc (first : list string)
  | OkDocConsistent (expected : nat)
  (* 9/9, lines 437-450 *)
  | Step9Start
  | ErrPrCoreLabels (pr_number : Z) (first : list string)
  | OkPrCore (pr_number : Z) (missing : nat)
  (* closing summary, lines 455-462 *)
  | AllStepsDone
  | SummaryTop
  | SummaryPassed
  | SummaryTarget (org repo : string)
  | SummaryBranch (branch : string)
  | SummaryIssue (number : Z)
  | SummaryPr (number : Z)
  | SummaryBottom
  (* script entry, lines 474, 477 *)
  | UserInterrupt
  | UnexpectedError (e : exn).

Definition event : Type := stream * message.

(** ** Computations that print and may raise *)

Inductive result (A : Type) :=
  | Val (a : A)
  | Exn (e : exn).
Arguments Val {A} a.
Arguments Exn {A} e.

(** A computation is the list of lines it printed and how it ended. *)
Definition M (A : Type) : Type := list event * result A.

Definition ret {A} (a : A) : M A := ([], Val a).
Definition raise {A} (e : exn) : M A := ([], Exn e).
Definition bind {A B} (m : M A) (k : A → M B) : M B :=
  match m with
  | (tr, Val a) => let '(tr', r) := k a in (tr ++ tr', r)
  | (tr, Exn e) => (tr, Exn e)
  end.
Definition print (s : stream) (msg : message) : M unit := ([(s, msg)], Val tt).

Declare Scope py_scope.
Delimit Scope py_scope with py.
Notation "x <- m ;; k" := (bind m (λ x, k))
  (at level 20, m at level 99, k at level 200, only parsing) : py_scope.
Notation "' p <- m ;; k" := (bind m (λ x, match x with p => k end))
  (at level 20, p pattern, m at level 99, k at level 200, only parsing) : py_scope.
Notation "m ;; k" := (bind m (λ _, k))
  (at level 100, k at level 200, right associativity, only parsing) : py_scope.
Local Open Scope py_scope.

(** A function body with early [return]: each statement either goes on
    with a value ([Go]) or leaves the function with its result ([Return]). *)
Inductive early (R A : Type) :=
  | Go (a : A)
  | Return (r : R).
Arguments Go {R A} a.
Arguments Return {R A} r.

Definition Body (R A : Type) : Type := M (early R A).

Definition go {R A} (a : A) : Body R A := ret (Go a).
Definition return_ {R A} (r : R) : Body R A := ret (Return r).
Definition lift {R A} (m : M A) : Body R A := a <- m ;; go a.
Definition bindB {R A B} (m : Body R A) (k : A → Body R B) : Body R B :=
  x <- m ;;
  match x with
  | Go a => k a
  | Return r => return_ r
  end.

Notation "x <~ m ;; k" := (bindB m (λ x, k))
  (at level 20, m at level 99, k at level 200, only parsing) : py_scope.
Notation "' p <~ m ;; k" := (bindB m (λ x, match x with p => k end))
  (at level 20, p pattern, m at level 99, k at level 200, only parsing) : py_scope.
Notation "m ;;; k" := (bindB m (λ _, k))
  (at level 100, k at level 200, right associativity, only parsing) : py_scope.

(** [if failed: print(msg, file=sys.stderr); return False] *)
Definition fail_if (failed : bool) (msg : message) : Body bool unit :=
  if failed then lift (print Stderr msg) ;;; return_ false else go tt.

(** ** API payloads *)

(** A key of a JSON mapping: missing, present with [null], or present
    with a value. *)
Inductive field (A : Type) :=
  | Absent
  | Null
  | Present (a : A).
Arguments Absent {A}.
Arguments Null {A}.
Arguments Present {A} a.

(** [d.get(key, default)]; the result [None] is Python's [None]. *)
Definition dict_get {A} (f : field A) (default : A) : option A :=
  match f with
  | Absent => Some default
  | Null => None
  | Present a => Some a
  end.

(** [d.get(key)] *)
Definition dict_get_none {A} (f : field A) : option A :=
  match f with
  | Present a => Some a
  | _ => None
  end.

(** [d[key]] *)
Definition dict_item {A} (f : field A) : M (option A) :=
  match f with
  | Absent => raise KeyError
  | Null => ret None
  | Present a => ret (Some a)
  end.

(** [key in d] *)
Definition dict_has {A} (f : field A) : bool :=
  match f with Absent => false | _ => true end.

(** An entry of a label list: a mapping with a [name]. *)
Record label := Label { name : string }.

(** An entry of the issues or pulls listing. *)
Record item := Item {
  number : Z;
  title : field string;
  body : field string;
  labels : field (list label);
  pull_request : field unit
}.

(** An issue comment. *)
Record comment := Comment { comment_body : field string }.

(** The payload of the contents endpoint: a mapping for a file, read
    through its "content" key, and an array of entries (here their
    names) for a directory. *)
Inductive contents :=
  | Contents (content : field string)
  | Entries (names : list string).

(** The request headers, a [dict] from header name to value. *)
Abbreviation headers := (gmap string string).

(** What [requests.get] gives back: the status code, and the decoded body
    ([None] when [response.json()] raises its decoding error). *)
Record response (A : Type) := Response {
  status_code : Z;
  json : option A
}.
Arguments Response {A}.
Arguments status_code {A}.
Arguments json {A}.

Inductive get_outcome (A : Type) :=
  | Responds (r : response A)
  | Throws (e : exn).
Arguments Responds {A} r.
Arguments Throws {A} e.

(** Everything outside the script: the environment after [load_dotenv],
    [requests.get] at the four kinds of resource the script reads (each
    typed by the payload the platform documents for it), and
    [base64.b64decode(..).decode("utf-8")] ([None] when it raises). *)
Record world := World {
  environ_GITHUB_TOKEN : option string;
  environ_GITHUB_ORG : option string;
  get_branch : string → headers → get_outcome unit;
  get_contents : string → headers → get_outcome contents;
  get_listing : string → headers → get_outcome (list item);
  get_comments : string → headers → get_outcome (list comment);
  b64decode_utf8 : string → option string
}.

(** Truthiness of a value that is [None] or a string, a list, a
    contents payload.  A decoded mapping counts as non-empty: an empty
    one has no "content" key, and [_get_file_content] returns [None] for
    it either way.  An array is truthy when it has an entry. *)
Definition truthy_str (s : option string) : bool :=
  match s with Some s => Py.nonempty s | None => false end.
Definition truthy_list {A} (l : option (list A)) : bool :=
  match l with Some (_ :: _) => true | _ => false end.
Definition truthy_contents (d : option contents) : bool :=
  match d with
  | Some (Contents _) => true
  | Some (Entries (_ :: _)) => true
  | Some (Entries []) => false
  | None => false
  end.

(** ** The API client and the helpers built on it *)

(** The request URL (source line 22). *)
Definition api_url (org repo endpoint : string) : string :=
  "https://api.github.com/repos/" +:+ org +:+ "/" +:+ repo +:+ "/" +:+ endpoint.

Definition _get_github_api {A} (requests_get : string → headers → get_outcome A)
    (endpoint : string) (hdrs : headers) (org repo : string)
    : M (bool * option A) :=
  let url := api_url org repo endpoint in
  match requests_get url hdrs with
  | Responds r =>
      if status_code r =? 200 then
        match json r with
        | Some data => ret (true, Some data)
        | None =>
            print Stderr (ApiException endpoint JSONDecodeError) ;;
            ret (false, None)
        end
      else if status_code r =? 404 then
        print Stderr (ApiNotFound endpoint) ;;
        ret (false, None)
      else
        print Stderr (ApiStatus endpoint (status_code r)) ;;
        ret (false, None)
  | Throws e =>
      if is_Exception e then
        print Stderr (ApiException endpoint e) ;;
        ret (false, None)
      else raise e
  end.

Definition _check_branch_exists (w : world) (branch_name : string)
    (hdrs : headers) (org repo : string) : M bool :=
  '(success, _) <- _get_github_api (get_branch w)
                     ("branches/" +:+ branch_name) hdrs org repo ;;
  ret success.

(** Source lines 46-64.  The [try] of lines 59-63 covers the decoding
    only: [result.get] of line 58 is outside it, and on an array it
    raises AttributeError. *)
Definition _get_file_content (w : world) (branch file_path : string)
    (hdrs : headers) (org repo : string) : M (option string) :=
  '(success, result) <- _get_github_api (get_contents w)
       ("contents/" +:+ file_path +:+ "?ref=" +:+ branch) hdrs org repo ;;
  if negb success || negb (truthy_contents result) then ret None
  else
    match result with
    | Some (Contents content) =>
        let c := dict_get_none content in
        if truthy_str c then
          match b64decode_utf8 w (Py.narrowed c) with
          | Some text => ret (Some text)
          | None => print Stderr (FileDecodeError file_path) ;; ret None
          end
        else ret None
    | Some (Entries _) => raise AttributeError
    | None => ret None
    end.

(** [all(kw.lower() in text for kw in keywords)] *)
Definition all_keywords_in (keywords : list string) (text : string) : bool :=
  forallb (λ kw, Py.contains (Py.lower kw) text) keywords.

(** [s.lower()] where [s] may be [None] *)
Definition lower_of (s : option string) : M string :=
  match s with
  | Some s => ret (Py.lower s)
  | None => raise AttributeError
  end.

(** [needle in hay] where [hay] may be [None] *)
Definition contains_in (needle : string) (hay : option string) : M bool :=
  match hay with
  | Some h => ret (Py.contains needle h)
  | None => raise TypeError
  end.

(** [[x for x in xs if keep(x)]] with a test that may raise *)
Fixpoint comprehension {A} (keep : A → M bool) (xs : list A) : M (list A) :=
  match xs with
  | [] => ret []
  | x :: rest =>
      b <- keep x ;;
      ys <- comprehension keep rest ;;
      ret (if b then x :: ys else ys)
  end.

(** The inner loop of [_find_issue_by_keywords] (source lines 104-110):
    [Some issue] is [return issue], [None] is the loop running out. *)
Fixpoint scan_issues (title_keywords : list string) (issues : list item)
    : M (option item) :=
  match issues with
  | [] => ret None
  | issue :: rest =>
      if dict_has (pull_request issue) then scan_issues title_keywords rest
      else
        title <- lower_of (dict_get (title issue) "") ;;
        if all_keywords_in title_keywords title then ret (Some issue)
        else scan_issues title_keywords rest
  end.

(** The inner loop of [_find_pr_by_keywords] (source lines 123-126). *)
Fixpoint scan_prs (title_keywords : list string) (prs : list item)
    : M (option item) :=
  match prs with
  | [] => ret None
  | pr :: rest =>
      title <- lower_of (dict_get (title pr) "") ;;
      if all_keywords_in title_keywords title then ret (Some pr)
      else scan_prs title_keywords rest
  end.

(** The outer loop [for state in ["open", "closed"]] of both finders. *)
Fixpoint find_in_states (w : world) (resource : string)
    (scan : list item → M (option item))
    (hdrs : headers) (org repo : string) (states : list string)
    : M (option item) :=
  match states with
  | [] => ret None
  | state :: rest =>
      '(success, items) <- _get_github_api (get_listing w)
          (resource +:+ "?state=" +:+ state +:+ "&per_page=30") hdrs org repo ;;
      if success && truthy_list items then
        found <- scan (default [] items) ;;
        match found with
        | Some it => ret (Some it)
        | None => find_in_states w resource scan hdrs org repo rest
        end
      else find_in_states w resource scan hdrs org repo rest
  end.

Definition _find_issue_by_keywords (w : world) (title_keywords : list string)
    (hdrs : headers) (org repo : string) : M (option item) :=
  find_in_states w "issues" (scan_issues title_keywords) hdrs org repo
    ["open"; "closed"].

Definition _find_pr_by_keywords (w : world) (title_keywords : list string)
    (hdrs : headers) (org repo : string) : M (option item) :=
  find_in_states w "pulls" (scan_prs title_keywords) hdrs org repo
    ["open"; "closed"].

Definition _get_issue_comments (w : world) (issue_number : Z)
    (hdrs : headers) (org repo : string) : M (list comment) :=
  '(success, comments) <- _get_github_api (get_comments w)
      ("issues/" +:+ Py.str issue_number +:+ "/comments") hdrs org repo ;;
  ret (if success && truthy_list comments then default [] comments else []).

(** ** The configuration table, [CONFIG] *)

Module CONFIG.
Definition target_repo : string := "team-project-management".

Module feature_branch.
Definition name : string := "feat/label-color-standard".
Definition doc_file : string := "docs/label-color-standardization.md".
End feature_branch.

Module doc_parsing.
Definition table_header : string := "| Label Name | Color Hex | Category |".
Definition min_label_count : nat := 22.
End doc_parsing.

Module issue_requirements.
Definition title_keywords : list string := ["Label"; "standard"; "documentation"].
Definition body_keywords : list string := ["label"; "color"; "standard"].
Definition required_sections : list string :=
  ["## Background"; "## Required Label List"].
Definition initial_labels : list string := ["documentation"; "enhancement"].
End issue_requirements.

Module pr_requirements.
Definition title_keywords : list string := ["Label"; "standard"; "documentation"].
Definition body_keywords : list string := ["label"; "documentation"; "standard"].
Definition required_sections : list string := ["## Summary"; "## Changes"].
Definition min_labels_count : nat := 3.
Definition issue_reference_pattern : string := "Fixes #{issue_number}".
End pr_requirements.

Definition expected_labels : list string :=
  [ "bug"; "enhancement"; "documentation"; "feature"; "bug-critical";
    "bug-major"; "bug-minor"; "task"; "question"; "help-wanted";
    "good-first-issue"; "priority-high"; "priority-medium"; "priority-low";
    "status-in-progress"; "status-review"; "status-done"; "status-blocked";
    "component-frontend"; "component-backend"; "component-db"; "wontfix" ].

Module comment_requirements.
Definition keywords : list string := ["label"; "documentation"; "completed"].
Definition pr_reference_flag : string := "PR #{pr_number}".
Definition content_flags : list string := ["labels"; "verified"; "applied"].
End comment_requirements.
End CONFIG.

(** ** The verification pipeline, [verify_label_standardization] *)

(** [[label["name"] for label in ls]] where [ls] may be [None] *)
Definition label_names (ls : option (list label)) : M (list string) :=
  match ls with
  | Some ls => ret (name <$> ls)
  | None => raise TypeError
  end.

(** [len(ls)] where [ls] may be [None] *)
Definition len_of {A} (ls : option (list A)) : M nat :=
  match ls with
  | Some ls => ret (length ls)
  | None => raise TypeError
  end.

(** [[sec for sec in sections if sec not in text]] *)
Definition missing_sections (sections : list string) (text : option string)
    : M (list string) :=
  comprehension (λ sec, b <- contains_in sec text ;; ret (negb b)) sections.

(** [[kw for kw in keywords if kw.lower() not in text.lower()]] *)
Definition missing_keywords (keywords : list string) (text : option string)
    : M (list string) :=
  comprehension
    (λ kw, t <- lower_of text ;; ret (negb (Py.contains (Py.lower kw) t)))
    keywords.

(** [[lbl for lbl in wanted if lbl not in have]] *)
Definition missing_labels (wanted have : list string) : list string :=
  List.filter (λ lbl, negb (Py.elem lbl have)) wanted.

(** truthiness of a list: [bool(xs)] *)
Definition nonempty_list {A} (xs : list A) : bool :=
  match xs with [] => false | _ => true end.

(** Source lines 194-230: the environment, the headers, the banner and
    check 1/9.  Hands on the organisation and the headers. *)
Definition step1 (w : world) : Body bool (string * headers) :=
  let github_token := environ_GITHUB_TOKEN w in
  let github_org := environ_GITHUB_ORG w in
  fail_if (negb (truthy_str github_token)) EnvMissingToken ;;;
  fail_if (negb (truthy_str github_org)) EnvMissingOrg ;;;
  let hdrs : headers :=
    {[ "Authorization" := "token " +:+ Py.fmt github_token;
       "Accept" := "application/vnd.github.v3+json" ]} in
  lift (print Stdout BannerTop) ;;;
  lift (print Stdout StartBanner) ;;;
  lift (print Stdout (TargetRepo (Py.fmt github_org) CONFIG.target_repo)) ;;;
  lift (print Stdout BannerBottom) ;;;
  lift (print Stdout Step1Start) ;;;
  let expected_headers : headers :=
    {[ "Authorization" := "token " +:+ Py.fmt github_token;
       "Accept" := "application/vnd.github.v3+json" ]} in
  fail_if (bool_decide (hdrs ≠ expected_headers)) ErrHeaderFormat ;;;
  lift (print Stdout OkEnv) ;;;
  lift (print Stdout OkHeaders) ;;;
  go (Py.fmt github_org, hdrs).

(** Source lines 235-241: check 2/9, the feature branch. *)
Definition step2 (w : world) (github_org : string) (hdrs : headers)
    : Body bool unit :=
  lift (print Stdout (Step2Start CONFIG.feature_branch.name)) ;;;
  found <~ lift (_check_branch_exists w CONFIG.feature_branch.name hdrs
                   github_org CONFIG.target_repo) ;;
  fail_if (negb found) (ErrBranchNotFound CONFIG.feature_branch.name) ;;;
  lift (print Stdout (OkBranch CONFIG.feature_branch.name)).

(** Source lines 246-266: check 3/9, the label document.  Hands on the
    documented labels. *)
Definition step3 (w : world) (github_org : string) (hdrs : headers)
    : Body bool (list string) :=
  lift (print Stdout (Step3Start CONFIG.feature_branch.doc_file)) ;;;
  doc_content <~ lift (_get_file_content w CONFIG.feature_branch.name
                         CONFIG.feature_branch.doc_file hdrs
                         github_org CONFIG.target_repo) ;;
  fail_if (negb (truthy_str doc_content))
          (ErrDocNotFound CONFIG.feature_branch.doc_file) ;;;
  let documented_labels :=
    _parse_label_table (Py.narrowed doc_content)
      CONFIG.doc_parsing.table_header in
  fail_if (length documented_labels <? CONFIG.doc_parsing.min_label_count)%nat
          (ErrDocLabelCount (length documented_labels)
             CONFIG.doc_parsing.min_label_count) ;;;
  lift (print Stdout (OkDoc (length documented_labels))) ;;;
  go documented_labels.

(** Source lines 271-312: check 4/9, the tracking issue.  Hands on the
    issue number and the names of the issue's labels. *)
Definition step4 (w : world) (github_org : string) (hdrs : headers)
    : Body bool (Z * list string) :=
  lift (print Stdout (Step4Start CONFIG.issue_requirements.title_keywords)) ;;;
  found <~ lift (_find_issue_by_keywords w
                   CONFIG.issue_requirements.title_keywords hdrs
                   github_org CONFIG.target_repo) ;;
  match found with
  | None => lift (print Stderr ErrIssueNotFound) ;;; return_ false
  | Some issue =>
      let issue_number := number issue in
      let issue_body := dict_get (body issue) "" in
      issue_labels <~ lift (label_names (dict_get (labels issue) [])) ;;
      missing_issue_sections <~ lift (missing_sections
          CONFIG.issue_requirements.required_sections issue_body) ;;
      fail_if (nonempty_list missing_issue_sections)
              (ErrIssueSections missing_issue_sections) ;;;
      missing_issue_keywords <~ lift (missing_keywords
          CONFIG.issue_requirements.body_keywords issue_body) ;;
      fail_if (nonempty_list missing_issue_keywords)
              (ErrIssueKeywords missing_issue_keywords) ;;;
      let missing_issue_labels :=
        missing_labels CONFIG.issue_requirements.initial_labels issue_labels in
      fail_if (nonempty_list missing_issue_labels)
              (ErrIssueLabels missing_issue_labels) ;;;
      issue_title <~ lift (dict_item (title issue)) ;;
      lift (print Stdout (OkIssue issue_number issue_title)) ;;;
      go (issue_number, issue_labels)
  end.

(** Source lines 317-360: check 5/9, the tracking pull request.  Hands on
    the pull request number and its label list. *)
Definition step5 (w : world) (github_org : string) (hdrs : headers)
    (issue_number : Z) : Body bool (Z * option (list label)) :=
  lift (print Stdout (Step5Start CONFIG.pr_requirements.title_keywords)) ;;;
  found <~ lift (_find_pr_by_keywords w
                   CONFIG.pr_requirements.title_keywords hdrs
                   github_org CONFIG.target_repo) ;;
  match found with
  | None => lift (print Stderr ErrPrNotFound) ;;; return_ false
  | Some pr =>
      let pr_number := number pr in
      let pr_body := dict_get (body pr) "" in
      let pr_labels := dict_get (labels pr) [] in
      let expected_issue_ref :=
        Py.replace CONFIG.pr_requirements.issue_reference_pattern
          "{issue_number}" (Py.str issue_number) in
      pr_body_lower <~ lift (lower_of pr_body) ;;
      fail_if (negb (Py.contains (Py.lower expected_issue_ref) pr_body_lower))
              (ErrPrIssueRef expected_issue_ref) ;;;
      missing_pr_sections <~ lift (missing_sections
          CONFIG.pr_requirements.required_sections pr_body) ;;
      fail_if (nonempty_list missing_pr_sections)
              (ErrPrSections missing_pr_sections) ;;;
      missing_pr_keywords <~ lift (missing_keywords
          CONFIG.pr_requirements.body_keywords pr_body) ;;
      fail_if (nonempty_list missing_pr_keywords)
              (ErrPrKeywords missing_pr_keywords) ;;;
      count <~ lift (len_of pr_labels) ;;
      fail_if (count <? CONFIG.pr_requirements.min_labels_count)%nat
              (ErrPrLabelCount count CONFIG.pr_requirements.min_labels_count) ;;;
      pr_title <~ lift (dict_item (title pr)) ;;
      lift (print Stdout (OkPr pr_number pr_title)) ;;;
      go (pr_number, pr_labels)
  end.

(** Source lines 365-373: check 6/9, every expected label on the issue. *)
Definition step6 (issue_number : Z) (issue_labels : list string)
    : Body bool unit :=
  lift (print Stdout (Step6Start (length CONFIG.expected_labels))) ;;;
  let missing_issue_all_labels :=
    missing_labels CONFIG.expected_labels issue_labels in
  fail_if (nonempty_list missing_issue_all_labels)
          (ErrIssueExpectedLabels (length missing_issue_all_labels)
             (take 5 missing_issue_all_labels)) ;;;
  lift (print Stdout (OkIssueAllLabels issue_number)).

(** The three tests of the comment loop on a lower-cased comment body
    (source lines 385-402). *)
Definition has_pr_reference (pr_number : Z) (comment_body : string) : bool :=
  let expected_pr_ref :=
    Py.replace CONFIG.comment_requirements.pr_reference_flag
      "{pr_number}" (Py.str pr_number) in
  Py.contains (Py.lower expected_pr_ref) comment_body.

Definition has_all_keywords (comment_body : string) : bool :=
  all_keywords_in CONFIG.comment_requirements.keywords comment_body.

Definition has_all_flags (comment_body : string) : bool :=
  all_keywords_in CONFIG.comment_requirements.content_flags comment_body.

(** The comment loop (source lines 382-404).  [Some c] is the comment at
    which the loop sets [valid_comment_found = True] and breaks; [None]
    is the loop running out with the flag still [False]. *)
Fixpoint comment_loop (pr_number : Z) (issue_comments : list comment)
    : M (option comment) :=
  match issue_comments with
  | [] => ret None
  | c :: rest =>
      comment_body <- lower_of (dict_get (comment_body c) "") ;;
      if negb (has_pr_reference pr_number comment_body)
      then comment_loop pr_number rest
      else if negb (has_all_keywords comment_body)
      then comment_loop pr_number rest
      else if has_all_flags comment_body
      then ret (Some c)
      else comment_loop pr_number rest
  end.

Definition valid_comment_found (pr_number : Z) (issue_comments : list comment)
    : M bool :=
  found <- comment_loop pr_number issue_comments ;;
  ret (bool_decide (is_Some found)).

(** Source lines 378-409: check 7/9, a compliant issue comment. *)
Definition step7 (w : world) (github_org : string) (hdrs : headers)
    (issue_number pr_number : Z) : Body bool unit :=
  lift (print Stdout (Step7Start pr_number)) ;;;
  issue_comments <~ lift (_get_issue_comments w issue_number hdrs
                            github_org CONFIG.target_repo) ;;
  found <~ lift (valid_comment_found pr_number issue_comments) ;;
  fail_if (negb found) (ErrNoCompliantComment issue_number pr_number) ;;;
  lift (print Stdout (OkComment issue_number pr_number)).

(** Source lines 414-432: check 8/9, the document against the expected
    labels. *)
Definition step8 (documented_labels : list string) : Body bool unit :=
  lift (print Stdout Step8Start) ;;;
  let missing_in_doc :=
    missing_labels CONFIG.expected_labels documented_labels in
  fail_if (nonempty_list missing_in_doc)
          (ErrMissingInDoc (take 5 missing_in_doc) (length missing_in_doc)) ;;;
  let unexpected_in_doc :=
    missing_labels documented_labels CONFIG.expected_labels in
  (if nonempty_list unexpected_in_doc
   then lift (print Stdout (WarnUnexpectedInDoc (take 3 unexpected_in_doc)))
   else go tt) ;;;
  lift (print Stdout (OkDocConsistent (length CONFIG.expected_labels))).

(** The core labels and the ones a pull request lacks (lines 441-445). *)
Definition core_expected_labels : list string := take 10 CONFIG.expected_labels.

Definition missing_pr_core_labels (pr_label_names : list string) : list string :=
  missing_labels core_expected_labels pr_label_names.

(** The test of line 446. *)
Definition too_many_core_missing (pr_label_names : list string) : bool :=
  (length core_expected_labels / 2 <? length (missing_pr_core_labels pr_label_names))%nat.

(** Source lines 437-450: check 9/9, the pull request's core labels. *)
Definition step9 (pr_number : Z) (pr_labels : option (list label))
    : Body bool unit :=
  lift (print Stdout Step9Start) ;;;
  pr_label_names <~ lift (label_names pr_labels) ;;
  fail_if (too_many_core_missing pr_label_names)
          (ErrPrCoreLabels pr_number
             (take 3 (missing_pr_core_labels pr_label_names))) ;;;
  lift (print Stdout
          (OkPrCore pr_number (length (missing_pr_core_labels pr_label_names)))).

(** Source lines 455-463: the closing summary and [return True]. *)
Definition summary (github_org : string) (issue_number pr_number : Z)
    : Body bool Empty_set :=
  lift (print Stdout AllStepsDone) ;;;
  lift (print Stdout SummaryTop) ;;;
  lift (print Stdout SummaryPassed) ;;;
  lift (print Stdout (SummaryTarget github_org CONFIG.target_repo)) ;;;
  lift (print Stdout (SummaryBranch CONFIG.feature_branch.name)) ;;;
  lift (print Stdout (SummaryIssue issue_number)) ;;;
  lift (print Stdout (SummaryPr pr_number)) ;;;
  lift (print Stdout SummaryBottom) ;;;
  return_ true.

Definition pipeline (w : world) : Body bool Empty_set :=
  '(github_org, hdrs) <~ step1 w ;;
  step2 w github_org hdrs ;;;
  documented_labels <~ step3 w github_org hdrs ;;
  '(issue_number, issue_labels) <~ step4 w github_org hdrs ;;
  '(pr_number, pr_labels) <~ step5 w github_org hdrs issue_number ;;
  step6 issue_number issue_labels ;;;
  step7 w github_org hdrs issue_number pr_number ;;;
  step8 documented_labels ;;;
  step9 pr_number pr_labels ;;;
  summary github_org issue_number pr_number.

(** The function's result: [Val b] when it returns [b], [Exn e] when
    [e] escapes it.  The body cannot run off its end: [summary] returns. *)
Definition verify_label_standardization (w : world) : M bool :=
  x <- pipeline w ;;
  match x with
  | Return b => ret b
  | Go nothing => match nothing with end
  end.

(** ** The script entry (source lines 469-478) *)

(** What the process leaves behind: its console output and exit status. *)
Definition main (w : world) : list event * Z :=
  match verify_label_standardization w with
  | (tr, Val verification_result) =>
      (tr, if verification_result then 0 else 1)
  | (tr, Exn KeyboardInterrupt) =>
      (tr ++ [(Stdout, UserInterrupt)], 1)
  | (tr, Exn e) =>
      (tr ++ [(Stdout, UnexpectedError e)], 1)
  end.

(** ** Reading a run's output *)

(** The check a client line belongs to, read off the endpoint it names:
    each check calls its own resource. *)
Definition step_of_endpoint (endpoint : string) : nat :=
  if Py.startswith endpoint "branches/" then 2
  else if Py.startswith endpoint "contents/" then 3
  else if Py.startswith endpoint "issues?" then 4
  else if Py.startswith endpoint "pulls?" then 5
  else if Py.startswith endpoint "issues/" then 7
  else 0.

(** The check ([k] of [k/9]) whose code prints a line; the environment
    test and the banner come under check 1 and the closing summary,
    which the source numbers as a tenth block, under 10.  The two lines
    of the script entry belong to no check. *)
Definition step_of (msg : message) : nat :=
  match msg with
  | ApiNotFound ep | ApiStatus ep _ | ApiException ep _ => step_of_endpoint ep
  | FileDecodeError _ => 3
  | EnvMissingToken | EnvMissingOrg
  | BannerTop | StartBanner | TargetRepo _ _ | BannerBottom
  | Step1Start | ErrHeaderFormat | OkEnv | OkHeaders => 1
  | Step2Start _ | ErrBranchNotFound _ | OkBranch _ => 2
  | Step3Start _ | ErrDocNotFound _ | ErrDocLabelCount _ _ | OkDoc _ => 3
  | Step4Start _ | ErrIssueNotFound | ErrIssueSections _
  | ErrIssueKeywords _ | ErrIssueLabels _ | OkIssue _ _ => 4
  | Step5Start _ | ErrPrNotFound | ErrPrIssueRef _ | ErrPrSections _
  | ErrPrKeywords _ | ErrPrLabelCount _ _ | OkPr _ _ => 5
  | Step6Start _ | ErrIssueExpectedLabels _ _ | OkIssueAllLabels _ => 6
  | Step7Start _ | ErrNoCompliantComment _ _ | OkComment _ _ => 7
  | Step8Start | ErrMissingInDoc _ _ | WarnUnexpectedInDoc _
  | OkDocConsistent _ => 8
  | Step9Start | ErrPrCoreLabels _ _ | OkPrCore _ _ => 9
  | AllStepsDone | SummaryTop | SummaryPassed | SummaryTarget _ _
  | SummaryBranch _ | SummaryIssue _ | SummaryPr _ | SummaryBottom => 10
  | UserInterrupt | UnexpectedError _ => 0
  end.

(** The lines that report a failed check: each is followed in the source
    by [return False]. *)
Definition is_failure (msg : message) : bool :=
  match msg with
  | EnvMissingToken | EnvMissingOrg | ErrHeaderFormat
  | ErrBranchNotFound _ | ErrDocNotFound _ | ErrDocLabelCount _ _
  | ErrIssueNotFound | ErrIssueSections _ | ErrIssueKeywords _
  | ErrIssueLabels _ | ErrPrNotFound | ErrPrIssueRef _ | ErrPrSections _
  | ErrPrKeywords _ | ErrPrLabelCount _ _ | ErrIssueExpectedLabels _ _
  | ErrNoCompliantComment _ _ | ErrMissingInDoc _ _ | ErrPrCoreLabels _ _ => true
  | _ => false
  end.

(** The line that closes a check with success, and the check it closes. *)
Definition completes (msg : message) : option nat :=
  match msg with
  | OkHeaders => Some 1%nat
  | OkBranch _ => Some 2%nat
  | OkDoc _ => Some 3%nat
  | OkIssue _ _ => Some 4%nat
  | OkPr _ _ => Some 5%nat
  | OkIssueAllLabels _ => Some 6%nat
  | OkComment _ _ => Some 7%nat
  | OkDocConsistent _ => Some 8%nat
  | OkPrCore _ _ => Some 9%nat
  | _ => None
  end.

(** Check [k] failed in a run: one of its failure lines is in the output. *)
Definition step_failed (k : nat) (tr : list event) : Prop :=
  ∃ s msg, (s, msg) ∈ tr ∧ is_failure msg = true ∧ step_of msg = k.

(** Check [k] completed in a run: its closing line is in the output. *)
Definition step_completed (k : nat) (tr : list event) : Prop :=
  ∃ msg, (Stdout, msg) ∈ tr ∧ completes msg = Some k.

(** ** Documents for the parser *)

(** A Markdown separator row written with spaces, [columns] cells wide:
    [| --- | --- | --- |] for three columns. *)
Fixpoint spaced_cells (columns : nat) : string :=
  match columns with
  | O => ""
  | S n => " --- |" +:+ spaced_cells n
  end.
Definition spaced_separator (columns : nat) : string :=
  "|" +:+ spaced_cells columns.

(** A document given by its lines: ["\n".join(lines)]. *)
Fixpoint unlines (lines : list string) : string :=
  match lines with
  | [] => ""
  | [l] => l
  | l :: rest => l +:+ String "010" (unlines rest)
  end.

(** ** What the finders and the comment loop look for *)

(** [found] is the first entry of [items], in order, that satisfies [P];
    [None] says that no entry does. *)
Definition first_in_order {A} (P : A → Prop) (items : list A)
    (found : option A) : Prop :=
  match found with
  | Some it =>
      ∃ i, items !! i = Some it ∧ P it ∧
           ∀ j it', (j < i)%nat → items !! j = Some it' → ¬ P it'
  | None => ∀ it, it ∈ items → ¬ P it
  end.


(** [kw] occurs in [text] when case is ignored. *)
Definition icontains (kw text : string) : bool :=
  Py.contains (Py.lower kw) (Py.lower text).

(** The title a listing entry is matched on. *)
Definition title_text (it : item) : string :=
  default "" (dict_get (title it) "").

(** Every keyword occurs in the title, case ignored. *)
Definition title_matches (keywords : list string) (it : item) : bool :=
  forallb (λ kw, icontains kw (title_text it)) keywords.

(** The body a comment is judged on. *)
Definition comment_text (c : comment) : string :=
  default "" (dict_get (comment_body c) "").

(** The three groups a compliant comment has to satisfy. *)
Definition mentions_pr (pr_number : Z) (c : comment) : bool :=
  icontains ("PR #" +:+ Py.str pr_number) (comment_text c).
Definition mentions_keywords (c : comment) : bool :=
  forallb (λ kw, icontains kw (comment_text c))
    CONFIG.comment_requirements.keywords.
Definition mentions_flags (c : comment) : bool :=
  forallb (λ flag, icontains flag (comment_text c))
    CONFIG.comment_requirements.content_flags.
Definition compliant (pr_number : Z) (c : comment) : bool :=
  mentions_pr pr_number c && mentions_keywords c && mentions_flags c.

(** How many of the core labels a list of label names holds. *)
Definition core_present (pr_label_names : list string) : nat :=
  length (List.filter (λ lbl, Py.elem lbl pr_label_names) core_expected_labels).


(** ** The shape of a run's output *)

(** A failure line the script can reach: every failure line but the one
    of the header self-check. *)
Definition reported_failure (msg : message) : bool :=
  is_failure msg && match msg with ErrHeaderFormat => false | _ => true end.

(** An ordinary line of check [k]: neither a failure nor a closing line. *)
Definition plain_at (k : nat) (ev : event) : Prop :=
  step_of ev.2 = k ∧ is_failure ev.2 = false ∧ completes ev.2 = None.

(** Output of check [k] that ends in one of its failure lines, on the
    error stream. *)
Definition fails_at (k : nat) (tr : list event) : Prop :=
  ∃ tr0 msg, tr = tr0 ++ [(Stderr, msg)] ∧ reported_failure msg = true ∧
             step_of msg = k ∧ Forall (plain_at k) tr0.

(** Output of check [k] that ends in its closing line. *)
Definition completes_at (k : nat) (tr : list event) : Prop :=
  ∃ tr0 msg, tr = tr0 ++ [(Stdout, msg)] ∧ completes msg = Some k ∧
             step_of msg = k ∧ is_failure msg = false ∧
             Forall (plain_at k) tr0.

(** Output of [n] checks in a row, the first numbered [k], each one
    completed. *)
Fixpoint completed_from (k n : nat) (tr : list event) : Prop :=
  match n with
  | O => tr = []
  | S n' => ∃ mine rest, tr = mine ++ rest ∧ completes_at k mine ∧
                         completed_from (S k) n' rest
  end.

(** A helper that prints ordinary lines of check [k] only. *)
Definition quiet (k : nat) {A} (m : M A) : Prop := Forall (plain_at k) m.1.

(** Part of the body of check [k]: it goes on or raises after ordinary
    lines, or returns false right after a failure line. *)
Definition part_shape (k : nat) {A} (m : Body bool A) : Prop :=
  match m with
  | (tr, Val (Go _)) => Forall (plain_at k) tr
  | (tr, Val (Return b)) => b = false ∧ fails_at k tr
  | (tr, Exn _) => Forall (plain_at k) tr
  end.

(** The whole body of check [k]: as a part, but it goes on only right
    after its closing line. *)
Definition step_shape (k : nat) {A} (m : Body bool A) : Prop :=
  match m with
  | (tr, Val (Go _)) => completes_at k tr
  | (tr, Val (Return b)) => b = false ∧ fails_at k tr
  | (tr, Exn _) => Forall (plain_at k) tr
  end.

(** The lines of the closing summary. *)
Definition summary_lines (github_org : string) (issue_number pr_number : Z)
    : list event :=
  [ (Stdout, AllStepsDone); (Stdout, SummaryTop); (Stdout, SummaryPassed);
    (Stdout, SummaryTarget github_org CONFIG.target_repo);
    (Stdout, SummaryBranch CONFIG.feature_branch.name);
    (Stdout, SummaryIssue issue_number); (Stdout, SummaryPr pr_number);
    (Stdout, SummaryBottom) ].

(** The body from check [k] on: all of [k] to 9 completed and the
    summary printed before [return True], or some of them completed and
    the next one failed or raised. *)
Definition tail_shape (k : nat) (m : Body bool Empty_set) : Prop :=
  match m with
  | (tr, Val (Go _)) => False
  | (tr, Val (Return true)) =>
      ∃ checks org i p, tr = checks ++ summary_lines org i p ∧
                        completed_from k (10 - k) checks
  | (tr, Val (Return false)) =>
      ∃ n before mine, (k + n ≤ 9)%nat ∧ tr = before ++ mine ∧
        completed_from k n before ∧ fails_at (k + n) mine
  | (tr, Exn _) =>
      ∃ n before mine, (k + n ≤ 9)%nat ∧ tr = before ++ mine ∧
        completed_from k n before ∧ Forall (plain_at (k + n)) mine
  end.

(** How a whole run of the function ends: every check completed and the
    summary printed, or checks 1 to [j - 1] completed and check [j]
    failed, or raised. *)
Definition verdict (run : M bool) : Prop :=
  match run with
  | (tr, Val true) =>
      ∃ checks org i p, tr = checks ++ summary_lines org i p ∧
                        completed_from 1 9 checks
  | (tr, Val false) =>
      ∃ j before mine, (1 ≤ j ≤ 9)%nat ∧ tr = before ++ mine ∧
        completed_from 1 (j - 1) before ∧ fails_at j mine
  | (tr, Exn _) =>
      ∃ j before mine, (1 ≤ j ≤ 9)%nat ∧ tr = before ++ mine ∧
        completed_from 1 (j - 1) before ∧ Forall (plain_at j) mine
  end.

(** What a line of a run is when nothing failed: the check it belongs to
    lies between [lo] and [hi - 1] and it is no failure line. *)
Definition calm (lo hi : nat) (ev : event) : Prop :=
  (lo ≤ step_of ev.2 < hi)%nat ∧ is_failure ev.2 = false.

(** ** Sample worlds *)

(** The decoder the sample worlds use for
    [base64.b64decode(..).decode("utf-8")], and the encoder their
    platform side uses.  Bytes are numbers below 256. *)
Module Base64.
(** The value of a character of the standard alphabet. *)
Definition value (c : ascii) : option N :=
  let n := N_of_ascii c in
  if (65 <=? n)%N && (n <=? 90)%N then Some (n - 65)%N
  else if (97 <=? n)%N && (n <=? 122)%N then Some (n - 71)%N
  else if (48 <=? n)%N && (n <=? 57)%N then Some (n + 4)%N
  else if (n =? 43)%N then Some 62%N
  else if (n =? 47)%N then Some 63%N
  else None.

(** The character of a value below 64. *)
Definition digit (v : N) : ascii :=
  if (v <? 26)%N then ascii_of_N (v + 65)
  else if (v <? 52)%N then ascii_of_N (v + 71)
  else if (v <? 62)%N then ascii_of_N (v - 4)
  else if (v =? 62)%N then "+"%char
  else "/"%char.

(** The library's decoding loop in its default setting: a character
    outside the alphabet is passed over, a complete run of padding
    ends the input, and input that ends inside a group of four is an
    error.  [quad_pos] is the place in the group, [leftchar] the bits
    not yet written, [pads] the padding characters seen. *)
Fixpoint a2b (quad_pos : nat) (leftchar : N) (pads : nat) (s : string)
    : option (list N) :=
  match s with
  | "" => match quad_pos with O => Some [] | _ => None end
  | String c rest =>
      if Ascii.eqb c "=" then
        if (2 <=? quad_pos)%nat then
          if (4 <=? quad_pos + S pads)%nat then Some []
          else a2b quad_pos leftchar (S pads) rest
        else a2b quad_pos leftchar pads rest
      else
        match value c with
        | None => a2b quad_pos leftchar pads rest
        | Some v =>
            match quad_pos with
            | 0%nat => a2b 1 v 0 rest
            | 1%nat =>
                cons (leftchar * 4 + v / 16)%N <$> a2b 2 (v mod 16)%N 0 rest
            | 2%nat =>
                cons (leftchar * 16 + v / 4)%N <$> a2b 3 (v mod 4)%N 0 rest
            | _ => cons (leftchar * 64 + v)%N <$> a2b 0 0%N 0 rest
            end
        end
  end.

(** A text argument has to be ASCII. *)
Definition is_ascii (s : string) : bool :=
  forallb (λ c, (N_of_ascii c <? 128)%N) (list_ascii_of_string s).

Definition b64decode (s : string) : option (list N) :=
  if is_ascii s then a2b 0 0%N 0 s else None.

(** UTF-8 for the code points below 256, the strings of this
    development: one byte below 128, two bytes from 128 on.  Any other
    byte sequence is an error here. *)
Fixpoint utf8_decode (bytes : list N) : option string :=
  match bytes with
  | [] => Some ""
  | b :: rest =>
      if (b <? 128)%N then String (ascii_of_N b) <$> utf8_decode rest
      else if (b =? 194)%N || (b =? 195)%N then
        match rest with
        | b2 :: rest' =>
            if (128 <=? b2)%N && (b2 <? 192)%N
            then String (ascii_of_N ((b - 192) * 64 + (b2 - 128)))
                   <$> utf8_decode rest'
            else None
        | [] => None
        end
      else None
  end.

Fixpoint utf8_encode (s : string) : list N :=
  match s with
  | "" => []
  | String c rest =>
      let n := N_of_ascii c in
      if (n <? 128)%N then n :: utf8_encode rest
      else (192 + n / 64)%N :: (128 + n mod 64)%N :: utf8_encode rest
  end.

Fixpoint b2a (bytes : list N) : string :=
  match bytes with
  | [] => ""
  | [a] =>
      String (digit (a / 4)) (String (digit (a mod 4 * 16)) "==")
  | [a; b] =>
      String (digit (a / 4))
        (String (digit (a mod 4 * 16 + b / 16))
           (String (digit (b mod 16 * 4)) "="))
  | a :: b :: c :: rest =>
      String (digit (a / 4))
        (String (digit (a mod 4 * 16 + b / 16))
           (String (digit (b mod 16 * 4 + c / 64))
              (String (digit (c mod 64)) (b2a rest))))
  end%N.

(** [base64.b64decode(s).decode("utf-8")], [None] when it raises. *)
Definition decode (s : string) : option string :=
  b64decode s ≫= utf8_decode.

(** The "content" the platform sends for a file with this text. *)
Definition encode (text : string) : string := b2a (utf8_encode text).
End Base64.

Module Sample.
(** A label document: the header row, a separator row and one row for
    each expected label. *)
Definition doc : string :=
  unlines (["# Label colors"; ""; CONFIG.doc_parsing.table_header;
            "|---|---|---|"]
           ++ ((λ l, "| " +:+ l +:+ " | #0e8a16 | General |")
                 <$> CONFIG.expected_labels)
           ++ [""; "Maintained by the platform team."]).

(** The same document with rows for the first 18 labels only, three of
    the others written with too few cells. *)
Definition short_doc : string :=
  unlines (["# Label colors"; ""; CONFIG.doc_parsing.table_header;
            "|---|---|---|"]
           ++ ((λ l, "| " +:+ l +:+ " | #0e8a16 | General |")
                 <$> take 18 CONFIG.expected_labels)
           ++ ["| component-backend |"; "| component-db"; "| wontfix | #fff"]).

Definition issue : item :=
  Item 7 (Present "Label color standard: documentation")
    (Present "## Background: label colors differ. ## Required Label List: the standard set.")
    (Present (Label <$> CONFIG.expected_labels)) Absent.

Definition pr : item :=
  Item 8 (Present "Add label standard documentation")
    (Present "## Summary: label documentation for the standard. ## Changes: docs. Fixes #7")
    (Present (Label <$> take 5 CONFIG.expected_labels)) Absent.

Definition note : comment :=
  Comment (Present "Label documentation completed in PR #8: labels verified and applied.").

Definition ok {A} (data : A) : get_outcome A :=
  Responds (Response 200 (Some data)).

(** Everything in place: the open issue listing holds the pull request
    (as the platform lists it) and the issue. *)
Definition passing : world :=
  World (Some "ghp_token") (Some "acme")
    (λ _ _, ok tt)
    (λ _ _, ok (Contents (Present (Base64.encode doc))))
    (λ url _,
       if Py.contains "/pulls?" url then
         if Py.contains "state=open" url then ok [pr] else ok []
       else
         if Py.contains "state=open" url
         then ok [Item 8 (title pr) (body pr) (labels pr) (Present tt); issue]
         else ok [])
    (λ _ _, ok [note])
    Base64.decode.

(** As [passing], but the document is [short_doc]. *)
Definition short : world :=
  World (Some "ghp_token") (Some "acme")
    (get_branch passing)
    (λ _ _, ok (Contents (Present (Base64.encode short_doc))))
    (get_listing passing) (get_comments passing) Base64.decode.

(** As [passing], but the feature branch does not exist. *)
Definition no_branch : world :=
  World (Some "ghp_token") (Some "acme")
    (λ _ _, Responds (Response 404 None))
    (get_contents passing) (get_listing passing) (get_comments passing)
    (b64decode_utf8 passing).

(** As [passing], but the user interrupts the branch request. *)
Definition interrupted : world :=
  World (Some "ghp_token") (Some "acme")
    (λ _ _, Throws KeyboardInterrupt)
    (get_contents passing) (get_listing passing) (get_comments passing)
    (b64decode_utf8 passing).

(** As [passing], but the tracking issue has no description: the
    platform sends its body as null. *)
Definition null_body : world :=
  World (Some "ghp_token") (Some "acme")
    (get_branch passing) (get_contents passing)
    (λ url _,
       if Py.contains "/pulls?" url then get_listing passing url ∅
       else ok [Item 7 (title issue) Null (labels issue) Absent])
    (get_comments passing) (b64decode_utf8 passing).
End Sample.

(** ** Vocabulary for the further properties *)

(** [s.count(c)] for a one-character [c] *)
Fixpoint count_char (c : ascii) (s : string) : nat :=
  match s with
  | "" => O
  | String a s' => (if Ascii.eqb a c then 1 else 0) + count_char c s'
  end.

(** What one line met inside the table adds to the labels (source lines
    75-87): nothing for a header line, a "|---" line or a line that is
    no row, the label of the row otherwise. *)
Definition row_labels (table_header line : string) : list string :=
  if Py.contains table_header line then []
  else if Py.startswith line "|---" then []
  else if Py.startswith line "|" then parse_row [] line
  else [].

(** The lines that end the table (source lines 89-90, reached only by a
    line without the header marker). *)
Definition stops_table (table_header line : string) : bool :=
  negb (Py.contains table_header line) && Py.nonempty line
  && negb (Py.startswith line "|").

(** A reply the client turns into [(False, None)]: a status other than
    200, a 200 whose body does not decode, or an [Exception]. *)
Definition failed_reply {A} (reply : get_outcome A) : Prop :=
  match reply with
  | Responds r => status_code r ≠ 200 ∨ json r = None
  | Throws e => is_Exception e = true
  end.

(** A reply that is not the user's interrupt. *)
Definition not_interrupted {A} (reply : get_outcome A) : Prop :=
  reply ≠ Throws KeyboardInterrupt.


(** A reply of the contents endpoint for a directory that has entries:
    HTTP 200 with a non-empty array. *)
Definition directory_reply (reply : get_outcome contents) : Prop :=
  ∃ name names,
    reply = Responds (Response 200 (Some (Entries (name :: names)))).

(** * Properties *)

(** ** The table parser *)

Section parser.
Variable table_header : string.

Lemma startswith_sep_bar line :
  Py.startswith line "|---" = true → Py.startswith line "|" = true.
Proof.
  destruct line as [|c line]; simpl; [done|].
  by destruct (Ascii.eqb "|" c).
Qed.

Lemma nonempty_true line : line ≠ "" → Py.nonempty line = true.
Proof. by destruct line. Qed.

(** A line holding the header marker switches the table on and is not
    read as a row. *)
Lemma parse_line_header st line :
  Py.contains table_header line = true →
  parse_line table_header st line
  = (ParseState true (documented_labels st), Next).
Proof. unfold parse_line. by intros ->. Qed.

(** Outside the table a line without the marker changes nothing. *)
Lemma parse_line_outside st line :
  in_table st = false →
  Py.contains table_header line = false →
  parse_line table_header st line = (st, Next).
Proof. unfold parse_line. intros Hin ->. rewrite Hin. simpl. by rewrite Hin. Qed.

(** Inside the table a line starting with the separator prefix changes
    nothing. *)
Lemma parse_line_separator st line :
  in_table st = true →
  Py.startswith line "|---" = true →
  parse_line table_header st line = (st, Next).
Proof.
  intros Hin Hsep. unfold parse_line. destruct st as [t ls]; simpl in Hin.
  subst t. rewrite Hsep. by destruct (Py.contains table_header line).
Qed.

(** Inside the table a blank line changes nothing. *)
Lemma parse_line_blank st :
  in_table st = true →
  parse_line table_header st "" = (st, Next).
Proof.
  intros Hin. unfold parse_line. destruct st as [t ls]; simpl in Hin.
  subst t. by destruct (Py.contains table_header "").
Qed.

(** Inside the table a row is handed to [parse_row]. *)
Lemma parse_line_row st line :
  in_table st = true →
  Py.contains table_header line = false →
  Py.startswith line "|---" = false →
  Py.startswith line "|" = true →
  parse_line table_header st line
  = (ParseState true (parse_row (documented_labels st) line), Next).
Proof.
  unfold parse_line. intros Hin -> -> Hbar. rewrite Hin, Hbar. simpl.
  by rewrite ?Hbar, ?andb_false_r.
Qed.

(** Inside the table any other line that is not blank breaks the loop. *)
Lemma parse_line_stop st line :
  in_table st = true →
  Py.contains table_header line = false →
  line ≠ "" →
  Py.startswith line "|" = false →
  parse_line table_header st line = (st, Break).
Proof.
  unfold parse_line. intros Hin -> Hne Hbar.
  destruct (Py.startswith line "|---") eqn:Hsep.
  { apply startswith_sep_bar in Hsep. congruence. }
  rewrite Hin, Hbar. simpl. by rewrite ?Hin, nonempty_true.
Qed.

Lemma parse_lines_app st pre post :
  parse_lines table_header st (pre ++ post)
  = match parse_lines table_header st pre with
    | (st', Break) => (st', Break)
    | (st', Next) => parse_lines table_header st' post
    end.
Proof.
  revert st. induction pre as [|l pre IH]; intros st; simpl.
  - done.
  - destruct (parse_line table_header st l) as [st' []]; [apply IH|done].
Qed.

Lemma parse_lines_before_header st pre :
  in_table st = false →
  Forall (λ l, Py.contains table_header l = false) pre →
  parse_lines table_header st pre = (st, Next).
Proof.
  intros Hout Hpre. induction Hpre as [|l pre Hl _ IH]; simpl; [done|].
  by rewrite parse_line_outside.
Qed.

(** The loop only ever appends to the label list. *)
Lemma parse_row_grows labels line : labels `prefix_of` parse_row labels line.
Proof.
  unfold parse_row. repeat case_match; try done; by apply prefix_app_r.
Qed.

Lemma parse_line_grows st line :
  documented_labels st
    `prefix_of` documented_labels (parse_line table_header st line).1.
Proof.
  unfold parse_line. repeat case_match; simpl; try done; apply parse_row_grows.
Qed.

Lemma parse_lines_grows st lines :
  documented_labels st
    `prefix_of` documented_labels (parse_lines table_header st lines).1.
Proof.
  revert st. induction lines as [|l lines IH]; intros st; simpl; [done|].
  pose proof (parse_line_grows st l) as Hl.
  destruct (parse_line table_header st l) as [st' []]; simpl in *; [|done].
  etrans; [exact Hl|apply IH].
Qed.
End parser.

(** ** Claims about the table parser *)

(** C1, amended.  Inside the table, a line that starts with "|" and
    reaches the row branch (it does not hold the header marker and does
    not start with "|---") is split on "|"; with at least 4 cells, the
    cell at index 1 is appended to the labels unless it is empty or equals
    "Label Name"; with fewer than 4 cells nothing is appended.  The scan
    goes on inside the table. *)
Theorem C1_row_cell_appended table_header pre line st :
  parse_lines table_header parse_init pre = (st, Next) →
  in_table st = true →
  Py.contains table_header line = false →
  Py.startswith line "|---" = false →
  Py.startswith line "|" = true →
  let cells := row_cells line in
  let cell := nth 1 cells "" in
  ∃ st',
    parse_lines table_header parse_init (pre ++ [line]) = (st', Next) ∧
    in_table st' = true ∧
    ((length cells < 4)%nat →
       documented_labels st' = documented_labels st) ∧
    ((4 ≤ length cells)%nat → cell = "" ∨ cell = "Label Name" →
       documented_labels st' = documented_labels st) ∧
    ((4 ≤ length cells)%nat → cell ≠ "" → cell ≠ "Label Name" →
       documented_labels st' = documented_labels st ++ [cell]).
Proof.
  intros Hpre Hin Hhdr Hsep Hbar cells cell.
  exists (ParseState true (parse_row (documented_labels st) line)).
  split.
  { rewrite parse_lines_app, Hpre. simpl. by rewrite parse_line_row. }
  split; [done|]. simpl. unfold parse_row. fold cells. fold cell.
  split; [|split].
  - intros Hlt. by rewrite (proj2 (Nat.leb_gt 4 (length cells)) Hlt).
  - intros Hge Hcell. rewrite (proj2 (Nat.leb_le 4 (length cells)) Hge).
    destruct Hcell as [-> | ->]; done.
  - intros Hge Hne Hnh. rewrite (proj2 (Nat.leb_le 4 (length cells)) Hge).
    rewrite nonempty_true by done.
    by rewrite (proj2 (String.eqb_neq cell "Label Name") Hnh).
Qed.

Lemma C1_row_cell_appended_witness :
  let hdr := CONFIG.doc_parsing.table_header in
  ∃ st',
    parse_lines hdr parse_init
      ([hdr; "|---|---|---|"] ++ ["| bug | #d73a4a | Type |"]) = (st', Next) ∧
    documented_labels st' = [] ++ ["bug"].
Proof.
  intros hdr.
  destruct (C1_row_cell_appended hdr [hdr; "|---|---|---|"]
              "| bug | #d73a4a | Type |" (ParseState true []))
    as (st' & Hrun & _ & _ & _ & Happend); [reflexivity..|].
  exists st'. split; [exact Hrun|].
  apply Happend; [vm_compute; lia|discriminate|discriminate].
Defined.

(** C1 as stated fails: inside the table the row "| | ff0000 | bug |"
    starts with "|", has five cells, and its cell at index 1 (the empty
    string) differs from "Label Name", yet nothing is appended. *)
Lemma C1_counterexample :
  let hdr := CONFIG.doc_parsing.table_header in
  let line := "| | ff0000 | bug |" in
  let st := ParseState true ["enhancement"] in
  Py.startswith line "|" = true ∧
  (4 ≤ length (row_cells line))%nat ∧
  nth 1 (row_cells line) "" ≠ "Label Name" ∧
  documented_labels (parse_line hdr st line).1
    ≠ documented_labels st ++ [nth 1 (row_cells line) ""] ∧
  _parse_label_table (unlines [hdr; "| enhancement | a2eeef | Type |"; line]) hdr
    = ["enhancement"].
Proof. vm_compute. repeat split; try discriminate; lia. Qed.

(** C2, amended.  Once the inside-table flag is set, the first non-empty
    line that does not start with "|" and does not hold the header marker
    stops the scan: the result is the labels collected before it, whatever
    follows.  A blank line inside the table leaves the state as it is and
    the scan goes on.  A document whose first header marker line is
    followed at once by such a stopping line yields no labels. *)
Theorem C2_table_end table_header :
  (∀ content pre line post st,
     Py.split "010" content = pre ++ line :: post →
     parse_lines table_header parse_init pre = (st, Next) →
     in_table st = true →
     Py.contains table_header line = false →
     line ≠ "" →
     Py.startswith line "|" = false →
     parse_lines table_header parse_init (pre ++ line :: post) = (st, Break) ∧
     _parse_label_table content table_header = documented_labels st) ∧
  (∀ content pre post st,
     Py.split "010" content = pre ++ "" :: post →
     parse_lines table_header parse_init pre = (st, Next) →
     in_table st = true →
     parse_lines table_header parse_init (pre ++ [""]) = (st, Next) ∧
     _parse_label_table content table_header
     = documented_labels (parse_lines table_header st post).1) ∧
  (∀ content pre marker line post,
     Py.split "010" content = pre ++ marker :: line :: post →
     Forall (λ l, Py.contains table_header l = false) pre →
     Py.contains table_header marker = true →
     Py.contains table_header line = false →
     line ≠ "" →
     Py.startswith line "|" = false →
     _parse_label_table content table_header = []).
Proof.
  assert (∀ pre line post st,
    parse_lines table_header parse_init pre = (st, Next) →
    in_table st = true →
    Py.contains table_header line = false →
    line ≠ "" →
    Py.startswith line "|" = false →
    parse_lines table_header parse_init (pre ++ line :: post) = (st, Break))
    as Hstop.
  { intros pre line post st Hpre Hin Hhdr Hne Hbar.
    rewrite parse_lines_app, Hpre. simpl. by rewrite parse_line_stop. }
  split; [|split].
  - intros content pre line post st Hsplit Hpre Hin Hhdr Hne Hbar.
    split; [by apply Hstop|].
    unfold _parse_label_table. by rewrite Hsplit, (Hstop pre line post st).
  - intros content pre post st Hsplit Hpre Hin. split.
    + rewrite parse_lines_app, Hpre. simpl. by rewrite parse_line_blank.
    + unfold _parse_label_table. rewrite Hsplit, parse_lines_app, Hpre.
      simpl. by rewrite parse_line_blank.
  - intros content pre marker line post Hsplit Hpre Hmark Hhdr Hne Hbar.
    unfold _parse_label_table. rewrite Hsplit.
    change (pre ++ marker :: line :: post)
      with (pre ++ [marker] ++ line :: post).
    rewrite app_assoc.
    rewrite (Hstop (pre ++ [marker]) line post (ParseState true [])); try done.
    rewrite parse_lines_app, parse_lines_before_header by done.
    simpl. by rewrite parse_line_header.
Qed.

Lemma C2_table_end_witness :
  let hdr := CONFIG.doc_parsing.table_header in
  _parse_label_table
    (unlines [hdr; "|---|---|---|"; "| bug | d73a4a | Type |"; "## Notes";
              hdr; "| task | ffffff | Type |"]) hdr = ["bug"] ∧
  _parse_label_table
    (unlines [hdr; ""; "| bug | d73a4a | Type |"]) hdr = ["bug"] ∧
  _parse_label_table
    (unlines ["# Labels"; hdr; "No labels yet."; "| bug | d73a4a | Type |"]) hdr
  = [].
Proof.
  intros hdr.
  destruct (C2_table_end hdr) as (Hstop & Hblank & Hfirst).
  split; [|split].
  - apply (Hstop _ [hdr; "|---|---|---|"; "| bug | d73a4a | Type |"]
             "## Notes" [hdr; "| task | ffffff | Type |"]
             (ParseState true ["bug"])); by vm_compute.
  - apply (Hblank _ [hdr] ["| bug | d73a4a | Type |"] (ParseState true []));
      by vm_compute.
  - apply (Hfirst _ ["# Labels"] hdr "No labels yet."
             ["| bug | d73a4a | Type |"]); try by vm_compute.
    repeat constructor.
Defined.

(** C2 as stated fails: after the header line has set the flag, the line
    "Columns: | Label Name | Color Hex | Category |" is not empty and
    does not start with "|", yet the scan goes on (the line holds the
    header marker) and the label of the row after it is collected. *)
Lemma C2_counterexample :
  let hdr := CONFIG.doc_parsing.table_header in
  let second := "Columns: | Label Name | Color Hex | Category |" in
  parse_lines hdr parse_init [hdr] = (ParseState true [], Next) ∧
  second ≠ "" ∧
  Py.startswith second "|" = false ∧
  _parse_label_table
    (unlines [hdr; second; "| bug | d73a4a | Type |"]) hdr = ["bug"].
Proof. by vm_compute. Qed.

Lemma split_cons_sep sep s :
  Py.split sep (String sep s) = "" :: Py.split sep s.
Proof. simpl. by rewrite Ascii.eqb_refl. Qed.

Lemma split_cons_other sep c s :
  Ascii.eqb c sep = false →
  Py.split sep (String c s)
  = match Py.split sep s with
    | [] => [String c ""]
    | w :: ws => String c w :: ws
    end.
Proof. simpl. by intros ->. Qed.

(** The cells of a spaced separator row. *)
Lemma split_spaced_cells columns :
  Py.split "|" (spaced_cells columns) = replicate columns " --- " ++ [""].
Proof.
  induction columns as [|n IH]; [done|].
  change (spaced_cells (S n))
    with (String " " (String "-" (String "-" (String "-"
           (String " " (String "|" (spaced_cells n))))))).
  rewrite !split_cons_other, split_cons_sep, IH by done. done.
Qed.

Lemma row_cells_spaced columns :
  row_cells (spaced_separator columns) = "" :: replicate columns "---" ++ [""].
Proof.
  unfold row_cells, spaced_separator.
  change ("|" +:+ spaced_cells columns) with (String "|" (spaced_cells columns)).
  rewrite split_cons_sep, split_spaced_cells.
  rewrite fmap_cons, fmap_app, fmap_replicate. done.
Qed.

Lemma spaced_separator_bar columns :
  Py.startswith (spaced_separator columns) "|" = true ∧
  Py.startswith (spaced_separator columns) "|---" = false.
Proof. by destruct columns. Qed.

Lemma contains_cons needle c hay :
  Py.contains needle (String c hay)
  = Py.startswith (String c hay) needle || Py.contains needle hay.
Proof. done. Qed.

Lemma contains_cons_other a needle c hay :
  Ascii.eqb a c = false →
  Py.contains (String a needle) (String c hay)
  = Py.contains (String a needle) hay.
Proof. intros Hac. rewrite contains_cons. simpl. by rewrite Hac. Qed.

(** The configured header marker occurs in no spaced separator row. *)
Lemma config_header_not_in_spaced_cells columns :
  Py.contains CONFIG.doc_parsing.table_header (spaced_cells columns) = false ∧
  Py.startswith (String "|" (spaced_cells columns))
    CONFIG.doc_parsing.table_header = false.
Proof.
  induction columns as [|n [IH1 IH2]]; [done|].
  change (spaced_cells (S n))
    with (String " " (String "-" (String "-" (String "-"
           (String " " (String "|" (spaced_cells n))))))).
  split; [|done].
  unfold CONFIG.doc_parsing.table_header in *.
  rewrite !contains_cons_other by done.
  by rewrite contains_cons, IH1, IH2.
Qed.

Lemma config_header_not_in_spaced_separator columns :
  Py.contains CONFIG.doc_parsing.table_header (spaced_separator columns) = false.
Proof.
  destruct (config_header_not_in_spaced_cells columns) as [Hin Hstart].
  unfold spaced_separator.
  change ("|" +:+ spaced_cells columns) with (String "|" (spaced_cells columns)).
  by rewrite contains_cons, Hin, Hstart.
Qed.

(** C10, amended.  The separator skip takes exactly the lines that
    start with "|---".  A row met inside the table that starts with "|"
    but not with "|---" (and does not hold the header marker), as every
    separator row written with a space after the first bar does, is
    read as a data row: with at least 4 cells its cell at index 1,
    trimmed, is appended to the labels unless it is empty or "Label
    Name", and with fewer cells nothing is.  So "---" is appended, and is
    among the labels the parser returns, exactly when the row has at
    least 4 cells and the cell at index 1 trims to "---".  The rows
    written as "|" followed by two or more times " --- |", such as
    "| --- | --- | --- |", are of this kind, and the configured header
    marker occurs in none of them. *)
Theorem C10_spaced_separator_becomes_label table_header content
    pre row post st :
  let cell := nth 1 (row_cells row) "" in
  let after := parse_lines table_header parse_init (pre ++ [row]) in
  Py.split "010" content = pre ++ row :: post →
  parse_lines table_header parse_init pre = (st, Next) →
  in_table st = true →
  Py.contains table_header row = false →
  Py.startswith row "|" = true →
  Py.startswith row "|---" = false →
  after = (ParseState true (parse_row (documented_labels st) row), Next) ∧
  (after = (ParseState true (documented_labels st ++ ["---"]), Next) ↔
     (4 ≤ length (row_cells row))%nat ∧ cell = "---") ∧
  ((4 ≤ length (row_cells row))%nat → cell ≠ "" → cell ≠ "Label Name" →
     after = (ParseState true (documented_labels st ++ [cell]), Next) ∧
     cell ∈ _parse_label_table content table_header) ∧
  ((length (row_cells row) < 4)%nat →
     after = (ParseState true (documented_labels st), Next)) ∧
  (∀ line, Py.startswith line "|---" = true →
     parse_lines table_header parse_init (pre ++ [line]) = (st, Next)) ∧
  (∀ columns, (2 ≤ columns)%nat →
     let spaced := spaced_separator columns in
     Py.startswith spaced "|" = true ∧
     Py.startswith spaced "|---" = false ∧
     (4 ≤ length (row_cells spaced))%nat ∧
     nth 1 (row_cells spaced) "" = "---" ∧
     Py.contains CONFIG.doc_parsing.table_header spaced = false).
Proof.
  intros cell after Hsplit Hpre Hin Hhdr Hbar Hsep.
  assert (after
          = (ParseState true (parse_row (documented_labels st) row), Next))
    as Hafter.
  { unfold after. rewrite parse_lines_app, Hpre. simpl.
    by rewrite parse_line_row. }
  assert (∀ c, (4 ≤ length (row_cells row))%nat → cell = c → c ≠ "" →
               c ≠ "Label Name" →
               parse_row (documented_labels st) row
               = documented_labels st ++ [c]) as Hrow.
  { intros c Hlen Hcell Hne Hname. unfold parse_row. cbv zeta. fold cell.
    apply Nat.leb_le in Hlen. rewrite Hlen, Hcell.
    apply String.eqb_neq in Hname. rewrite Hname.
    by destruct c. }
  assert (∀ c, parse_row (documented_labels st) row
               = documented_labels st ++ [c] →
               c ∈ _parse_label_table content table_header) as Hmember.
  { intros c Hc. unfold _parse_label_table. rewrite Hsplit.
    change (pre ++ row :: post) with (pre ++ [row] ++ post).
    rewrite app_assoc, parse_lines_app. fold after. rewrite Hafter, Hc.
    eapply elem_of_prefix; [|apply parse_lines_grows]. simpl.
    apply elem_of_app. right. by apply list_elem_of_singleton. }
  split_and!.
  - exact Hafter.
  - rewrite Hafter. split.
    + intros [= Hparse]. revert Hparse. unfold parse_row. cbv zeta. fold cell.
      destruct (4 <=? length (row_cells row))%nat eqn:Hlen.
      * apply Nat.leb_le in Hlen.
        destruct (Py.nonempty cell && negb (String.eqb cell "Label Name")).
        -- intros [= ->]%app_inv_head. done.
        -- intros Hsame. apply (f_equal length) in Hsame.
           rewrite length_app in Hsame. simpl in Hsame. lia.
      * intros Hsame. apply (f_equal length) in Hsame.
        rewrite length_app in Hsame. simpl in Hsame. lia.
    + intros [Hlen Hcell]. by rewrite (Hrow "---").
  - intros Hlen Hne Hname.
    pose proof (Hrow cell Hlen eq_refl Hne Hname) as Hparse.
    split; [by rewrite Hafter, Hparse|by apply Hmember].
  - intros Hlen. rewrite Hafter. unfold parse_row.
    apply Nat.leb_gt in Hlen. by rewrite Hlen.
  - intros line Hline. rewrite parse_lines_app, Hpre. simpl.
    by rewrite parse_line_separator.
  - intros columns Hcols spaced.
    destruct (spaced_separator_bar columns) as [Hbar' Hsep'].
    assert (row_cells spaced
            = "" :: "---" :: replicate (columns - 1) "---" ++ [""]) as Hcells.
    { unfold spaced. rewrite row_cells_spaced. destruct columns as [|n]; [lia|].
      simpl. by rewrite Nat.sub_0_r. }
    split_and!; try done.
    + rewrite Hcells. simpl. rewrite length_app, length_replicate. simpl. lia.
    + by rewrite Hcells.
    + apply config_header_not_in_spaced_separator.
Qed.

Lemma C10_spaced_separator_becomes_label_witness :
  let hdr := CONFIG.doc_parsing.table_header in
  parse_lines hdr parse_init ([hdr] ++ ["| --- | --- | --- |"])
  = (ParseState true ([] ++ ["---"]), Next) ∧
  "---" ∈ _parse_label_table
            (unlines [hdr; "| --- | --- | --- |"; "| bug | d73a4a | Type |"])
            hdr.
Proof.
  intros hdr.
  destruct (C10_spaced_separator_becomes_label hdr
              (unlines [hdr; "| --- | --- | --- |"; "| bug | d73a4a | Type |"])
              [hdr] "| --- | --- | --- |" ["| bug | d73a4a | Type |"]
              (ParseState true []))
    as (_ & _ & Happend & _); [by vm_compute..|].
  apply Happend; [vm_compute; lia|discriminate|discriminate].
Defined.

(** C10 as stated fails: inside the table the separator row "| --- |",
    written with spaces, starts with "|" and not with "|---", yet it
    splits into 3 cells only and nothing is appended; the row
    "| :--- | :---: | ---: |" has 5 cells, and what is appended is
    ":---", not "---". *)
Lemma C10_counterexample :
  let hdr := CONFIG.doc_parsing.table_header in
  let row := "| --- |" in
  let aligned := "| :--- | :---: | ---: |" in
  Py.startswith row "|" = true ∧
  Py.startswith row "|---" = false ∧
  length (row_cells row) = 3%nat ∧
  _parse_label_table (unlines [hdr; row; "| bug | d73a4a | Type |"]) hdr
  = ["bug"] ∧
  Py.startswith aligned "|" = true ∧
  Py.startswith aligned "|---" = false ∧
  length (row_cells aligned) = 5%nat ∧
  _parse_label_table (unlines [hdr; aligned; "| bug | d73a4a | Type |"]) hdr
  = [":---"; "bug"].
Proof. by vm_compute. Qed.

(** ** Laws of the computations *)

Lemma bind_ret_l {A B} (a : A) (k : A → M B) : bind (ret a) k = k a.
Proof. unfold bind, ret. by destruct (k a). Qed.

Lemma bind_raise {A B} (e : exn) (k : A → M B) : bind (raise e) k = raise e.
Proof. done. Qed.

Lemma bind_val {A B} tr (a : A) (k : A → M B) :
  bind (tr, Val a) k = (tr ++ (k a).1, (k a).2).
Proof. unfold bind. by destruct (k a). Qed.

(** ** The first entry in order *)

Lemma find_first_in_order {A} (p : A → bool) (items : list A) :
  first_in_order (λ it, p it = true) items (List.find p items).
Proof.
  induction items as [|x items IH]; simpl.
  - intros it Hit. by apply elem_of_nil in Hit.
  - destruct (p x) eqn:Hx; simpl.
    + exists 0%nat. split_and!; [done..|]. intros j it' Hj. lia.
    + destruct (List.find p items) as [it|]; simpl in *.
      * destruct IH as (i & Hi & Hp & Hfirst). exists (S i).
        split_and!; [done..|]. intros [|j] it' Hj Hlook; simpl in Hlook.
        -- injection Hlook as <-. congruence.
        -- apply (Hfirst j); [lia|done].
      * intros it [->|Hit]%elem_of_cons; [congruence|by apply IH].
Qed.

Lemma find_app {A} (p : A → bool) (l1 l2 : list A) :
  List.find p (l1 ++ l2)
  = match List.find p l1 with
    | Some x => Some x
    | None => List.find p l2
    end.
Proof. induction l1 as [|x l1 IH]; simpl; [done|]. by destruct (p x). Qed.

(** ** Matching with case ignored *)

Lemma string_app_cons c s t : String c s +:+ t = String c (s +:+ t).
Proof. done. Qed.

Lemma string_app_nil_r s : s +:+ "" = s.
Proof. induction s as [|c s IH]; [done|]. by rewrite string_app_cons, IH. Qed.

Lemma lower_app s t : Py.lower (s +:+ t) = Py.lower s +:+ Py.lower t.
Proof.
  induction s as [|c s IH]; [done|].
  rewrite string_app_cons. simpl. by rewrite IH.
Qed.

Lemma lower_length s : String.length (Py.lower s) = String.length s.
Proof. induction s as [|c s IH]; simpl; [done|]. by rewrite IH. Qed.

Lemma startswith_spec s p :
  Py.startswith s p = true ↔ ∃ rest, s = p +:+ rest.
Proof.
  revert s. induction p as [|a p IH]; intros s; simpl.
  - split; [by exists s|done].
  - destruct s as [|b s]; simpl.
    + split; [done|]. by intros [rest ?].
    + rewrite andb_true_iff, Ascii.eqb_eq, IH. split.
      * intros [-> [rest ->]]. by exists rest.
      * intros [rest Heq]. injection Heq as -> ->. eauto.
Qed.

(** [needle in hay] holds exactly when [hay] splits around [needle]. *)
Lemma contains_spec needle hay :
  Py.contains needle hay = true ↔ ∃ pre post, hay = pre +:+ needle +:+ post.
Proof.
  induction hay as [|c hay IH]; simpl.
  - rewrite orb_false_r, startswith_spec. split.
    + intros [rest Heq]. by exists "", rest.
    + intros (pre & post & Heq). destruct pre; [by exists post|done].
  - rewrite orb_true_iff, startswith_spec, IH. split.
    + intros [[rest Heq]|(pre & post & ->)].
      * by exists "", rest.
      * by exists (String c pre), post.
    + intros (pre & post & Heq). destruct pre as [|c' pre].
      * left. by exists post.
      * right. injection Heq as -> ->. by exists pre, post.
Qed.

Lemma lower_split text a b :
  Py.lower text = a +:+ b →
  ∃ a' b', text = a' +:+ b' ∧ Py.lower a' = a ∧ Py.lower b' = b.
Proof.
  revert text. induction a as [|c a IH]; intros text Heq.
  - by exists "", text.
  - destruct text as [|d text]; [done|]. simpl in Heq.
    injection Heq as <- Heq. destruct (IH _ Heq) as (a' & b' & -> & <- & <-).
    by exists (String d a'), b'.
Qed.

(** The test [kw.lower() in text.lower()] is substring matching with case
    ignored: [text] holds a piece that equals [kw] up to case. *)
Lemma icontains_spec kw text :
  icontains kw text = true ↔
  ∃ pre mid post, text = pre +:+ mid +:+ post ∧ Py.lower mid = Py.lower kw.
Proof.
  unfold icontains. rewrite contains_spec. split.
  - intros (a & c & Heq).
    destruct (lower_split _ _ _ Heq) as (pre & rest & -> & _ & Hrest).
    destruct (lower_split _ _ _ Hrest) as (mid & post & -> & Hmid & _).
    by exists pre, mid, post.
  - intros (pre & mid & post & -> & Hmid).
    exists (Py.lower pre), (Py.lower post).
    by rewrite !lower_app, Hmid.
Qed.

(** ** The API client *)

(** C6.  For every endpoint and headers the client returns (true, parsed
    JSON) on HTTP 200 with a body that parses, and (false, null) on HTTP
    404, on any other status, and on any transport-level exception (any
    instance of [Exception], the decoding error of a 200 body included);
    none of these leaves the client as an exception, and what it logs
    goes to the error stream. *)
Theorem C6_client_results {A} (requests_get : string → headers → get_outcome A)
    (endpoint : string) (hdrs : headers) (org repo : string) :
  let reply := requests_get (api_url org repo endpoint) hdrs in
  let call := _get_github_api requests_get endpoint hdrs org repo in
  (∀ r data, reply = Responds r → status_code r = 200 → json r = Some data →
     call = ([], Val (true, Some data))) ∧
  (∀ r, reply = Responds r → status_code r = 404 →
     call = ([(Stderr, ApiNotFound endpoint)], Val (false, None))) ∧
  (∀ r, reply = Responds r → status_code r ≠ 200 → status_code r ≠ 404 →
     call = ([(Stderr, ApiStatus endpoint (status_code r))], Val (false, None))) ∧
  (∀ r, reply = Responds r → status_code r = 200 → json r = None →
     call = ([(Stderr, ApiException endpoint JSONDecodeError)],
             Val (false, None))) ∧
  (∀ e, reply = Throws e → is_Exception e = true →
     call = ([(Stderr, ApiException endpoint e)], Val (false, None))) ∧
  ((∀ e, reply = Throws e → is_Exception e = true) →
     (∃ v, call.2 = Val v) ∧ Forall (λ ev, ev.1 = Stderr) call.1).
Proof.
  intros reply call. unfold call, _get_github_api. fold reply.
  split_and!.
  - intros r data -> Hs Hj. by rewrite Hs, Hj.
  - intros r -> Hs. by rewrite Hs.
  - intros r -> H200 H404.
    by rewrite (proj2 (Z.eqb_neq _ _) H200), (proj2 (Z.eqb_neq _ _) H404).
  - intros r -> Hs Hj. by rewrite Hs, Hj.
  - intros e -> He. by rewrite He.
  - intros Hexc. destruct reply as [r|e] eqn:Hreply.
    + destruct (status_code r =? 200); [destruct (json r)|];
        [| |destruct (status_code r =? 404)];
        (split; [by eexists|repeat constructor]).
    + rewrite (Hexc e eq_refl). split; [by eexists|repeat constructor].
Qed.

Lemma C6_client_results_witness :
  let get (url : string) (_ : headers) : get_outcome (list item) :=
    if Py.contains "state=open" url then Throws (RequestException "timed out")
    else Responds (Response 200 (Some [])) in
  _get_github_api get "issues?state=open&per_page=30" ∅ "acme" "repo"
  = ([(Stderr, ApiException "issues?state=open&per_page=30"
                 (RequestException "timed out"))], Val (false, None)) ∧
  _get_github_api get "issues?state=closed&per_page=30" ∅ "acme" "repo"
  = ([], Val (true, Some [])).
Proof.
  intros get. split.
  - destruct (C6_client_results get "issues?state=open&per_page=30" ∅
                "acme" "repo") as (_ & _ & _ & _ & Hexc & _).
    by apply Hexc.
  - destruct (C6_client_results get "issues?state=closed&per_page=30" ∅
                "acme" "repo") as (H200 & _).
    by apply (H200 (Response 200 (Some []))).
Defined.

Lemma first_in_order_iff {A} (P Q : A → Prop) items found :
  (∀ it, P it ↔ Q it) →
  first_in_order P items found → first_in_order Q items found.
Proof.
  intros HPQ. destruct found as [it|]; simpl.
  - intros (i & Hi & HP & Hfirst). exists i. split_and!; [done|by apply HPQ|].
    intros j it' Hj Hlook HQ. by apply (Hfirst j it' Hj Hlook), HPQ.
  - intros Hnone it Hit HQ. by apply (Hnone it Hit), HPQ.
Qed.

(** ** The entity finders *)

Section finders.
Variable w : world.
Variable keywords : list string.
Variables (hdrs : headers) (org repo : string).

Lemma lower_of_title (it : item) :
  title it ≠ Null →
  lower_of (dict_get (title it) "") = ret (Py.lower (title_text it)).
Proof. unfold title_text. by destruct (title it). Qed.

Lemma scan_issues_find (items : list item) :
  Forall (λ it, title it ≠ Null) items →
  scan_issues keywords items
  = ret (List.find (λ it, negb (dict_has (pull_request it))
                          && title_matches keywords it) items).
Proof.
  induction 1 as [|it items Hit _ IH]; simpl; [done|].
  destruct (dict_has (pull_request it)); simpl; [done|].
  rewrite lower_of_title, bind_ret_l by done.
  change (all_keywords_in keywords (Py.lower (title_text it)))
    with (title_matches keywords it).
  by destruct (title_matches keywords it).
Qed.

Lemma scan_prs_find (items : list item) :
  Forall (λ it, title it ≠ Null) items →
  scan_prs keywords items = ret (List.find (title_matches keywords) items).
Proof.
  induction 1 as [|it items Hit _ IH]; simpl; [done|].
  rewrite lower_of_title, bind_ret_l by done.
  change (all_keywords_in keywords (Py.lower (title_text it)))
    with (title_matches keywords it).
  by destruct (title_matches keywords it).
Qed.

Lemma client_200 {A} (requests_get : string → headers → get_outcome A)
    endpoint (data : A) :
  requests_get (api_url org repo endpoint) hdrs
  = Responds (Response 200 (Some data)) →
  _get_github_api requests_get endpoint hdrs org repo = ret (true, Some data).
Proof. unfold _get_github_api. by intros ->. Qed.

(** One state of the outer loop whose listing is answered. *)
Lemma find_in_states_answered resource scan state rest items :
  get_listing w (api_url org repo (resource +:+ "?state=" +:+ state
                                     +:+ "&per_page=30")) hdrs
  = Responds (Response 200 (Some items)) →
  find_in_states w resource scan hdrs org repo (state :: rest)
  = match items with
    | [] => find_in_states w resource scan hdrs org repo rest
    | _ => found <- scan items ;;
           match found with
           | Some it => ret (Some it)
           | None => find_in_states w resource scan hdrs org repo rest
           end
    end.
Proof.
  intros Hget. cbn [find_in_states].
  rewrite (client_200 _ _ _ Hget), bind_ret_l. by destruct items.
Qed.

(** Both listings answered: the outer loop scans the open listing, then
    the closed one. *)
Lemma find_in_states_open_closed resource scan p open closed :
  get_listing w (api_url org repo (resource +:+ "?state=" +:+ "open"
                                     +:+ "&per_page=30")) hdrs
  = Responds (Response 200 (Some open)) →
  get_listing w (api_url org repo (resource +:+ "?state=" +:+ "closed"
                                     +:+ "&per_page=30")) hdrs
  = Responds (Response 200 (Some closed)) →
  scan open = ret (List.find p open) →
  scan closed = ret (List.find p closed) →
  find_in_states w resource scan hdrs org repo ["open"; "closed"]
  = ret (List.find p (open ++ closed)).
Proof.
  intros Hopen Hclosed Hso Hsc. rewrite find_app.
  rewrite (find_in_states_answered _ _ _ _ _ Hopen).
  rewrite (find_in_states_answered _ _ _ _ _ Hclosed).
  assert (match closed with
          | [] => find_in_states w resource scan hdrs org repo []
          | _ => found <- scan closed ;;
                 match found with
                 | Some it => ret (Some it)
                 | None => find_in_states w resource scan hdrs org repo []
                 end
          end = ret (List.find p closed)) as ->.
  { destruct closed as [|c cs]; [done|].
    rewrite Hsc, bind_ret_l. by destruct (List.find p (c :: cs)). }
  destruct open as [|o os]; [done|].
  rewrite Hso, bind_ret_l. by destruct (List.find p (o :: os)).
Qed.
End finders.

(** C4.  With both listings of a finder answered, scanned open before
    closed, [find_issue] returns the first entry in listing order that
    carries no "pull_request" field and whose title holds every keyword
    with case ignored, [find_pr] returns the first entry whose title
    holds every keyword with case ignored, and each returns null when no
    entry of either listing matches.  (Titles are strings: none is
    null.) *)
Theorem C4_finders_first_match (w : world) (keywords : list string)
    (hdrs : headers) (org repo : string)
    (issues_open issues_closed prs_open prs_closed : list item) :
  let listing resource state :=
    get_listing w (api_url org repo (resource +:+ "?state=" +:+ state
                                       +:+ "&per_page=30")) hdrs in
  listing "issues" "open" = Responds (Response 200 (Some issues_open)) →
  listing "issues" "closed" = Responds (Response 200 (Some issues_closed)) →
  listing "pulls" "open" = Responds (Response 200 (Some prs_open)) →
  listing "pulls" "closed" = Responds (Response 200 (Some prs_closed)) →
  Forall (λ it, title it ≠ Null)
    (issues_open ++ issues_closed ++ prs_open ++ prs_closed) →
  (∃ found,
     _find_issue_by_keywords w keywords hdrs org repo = ([], Val found) ∧
     first_in_order
       (λ it, pull_request it = Absent ∧ title_matches keywords it = true)
       (issues_open ++ issues_closed) found) ∧
  (∃ found,
     _find_pr_by_keywords w keywords hdrs org repo = ([], Val found) ∧
     first_in_order (λ it, title_matches keywords it = true)
       (prs_open ++ prs_closed) found).
Proof.
  intros listing Hio Hic Hpo Hpc Htitles.
  rewrite !Forall_app in Htitles. destruct Htitles as (Ho & Hc & Hpo' & Hpc').
  split.
  - eexists. split.
    + unfold _find_issue_by_keywords.
      apply (find_in_states_open_closed w hdrs org repo "issues" _
               (λ it, negb (dict_has (pull_request it))
                      && title_matches keywords it) _ _ Hio Hic);
        by apply scan_issues_find.
    + eapply first_in_order_iff; [|apply find_first_in_order].
      intros it. simpl. rewrite andb_true_iff, negb_true_iff.
      destruct (pull_request it); simpl; intuition congruence.
  - eexists. split.
    + unfold _find_pr_by_keywords.
      apply (find_in_states_open_closed w hdrs org repo "pulls" _
               (title_matches keywords) _ _ Hpo Hpc);
        by apply scan_prs_find.
    + apply find_first_in_order.
Qed.

Lemma C4_finders_first_match_witness :
  let bug := Item 3 (Present "Bug: labels") (Present "") (Present []) Absent in
  let pr := Item 5 (Present "LABEL Standard Documentation") Null Absent
              (Present tt) in
  let old := Item 2 (Present "label standard documentation") Absent Absent
               Absent in
  let w := World None None (λ _ _, Throws KeyboardInterrupt)
             (λ _ _, Throws KeyboardInterrupt)
             (λ url _, Responds (Response 200
                (Some (if Py.contains "state=open" url then [bug; pr]
                       else [old]))))
             (λ _ _, Throws KeyboardInterrupt) (λ _, None) in
  _find_issue_by_keywords w ["Label"; "standard"; "documentation"] ∅ "acme" "repo"
  = ([], Val (Some old)) ∧
  _find_pr_by_keywords w ["Label"; "standard"; "documentation"] ∅ "acme" "repo"
  = ([], Val (Some pr)).
Proof.
  intros bug pr old w.
  destruct (C4_finders_first_match w ["Label"; "standard"; "documentation"] ∅
              "acme" "repo" [bug; pr] [old] [bug; pr] [old])
    as [(fi & Hfi & _) (fp & Hfp & _)]; [reflexivity..| |].
  { repeat constructor; discriminate. }
  split.
  - rewrite Hfi. vm_compute in Hfi. by injection Hfi as <-.
  - rewrite Hfp. vm_compute in Hfp. by injection Hfp as <-.
Defined.

(** ** The comment scanner *)

(** The substituted reference is "PR #" followed by the number. *)
Lemma replace_pr_reference d :
  Py.replace CONFIG.comment_requirements.pr_reference_flag "{pr_number}" d
  = "PR #" +:+ d.
Proof.
  cbv -[String.append]. change ("PR #" +:+ d) with
    (String "P" (String "R" (String " " (String "#" d)))).
  by rewrite string_app_nil_r.
Qed.

Section comments.
Variable pr_number : Z.

Lemma lower_of_comment (c : comment) :
  comment_body c ≠ Null →
  lower_of (dict_get (comment_body c) "") = ret (Py.lower (comment_text c)).
Proof. unfold comment_text. by destruct (comment_body c). Qed.

Lemma has_pr_reference_mentions c :
  has_pr_reference pr_number (Py.lower (comment_text c))
  = mentions_pr pr_number c.
Proof. unfold has_pr_reference. by rewrite replace_pr_reference. Qed.

Lemma comment_loop_find (cs : list comment) :
  Forall (λ c, comment_body c ≠ Null) cs →
  comment_loop pr_number cs = ret (List.find (compliant pr_number) cs).
Proof.
  induction 1 as [|c cs Hc _ IH]; simpl; [done|].
  rewrite lower_of_comment, bind_ret_l, has_pr_reference_mentions by done.
  unfold compliant.
  change (has_all_keywords (Py.lower (comment_text c)))
    with (mentions_keywords c).
  change (has_all_flags (Py.lower (comment_text c))) with (mentions_flags c).
  by destruct (mentions_pr pr_number c), (mentions_keywords c),
    (mentions_flags c).
Qed.
End comments.

(** C5.  Over any sequence of comments (with string bodies), the scanner
    accepts the first comment in listing order whose body, case ignored,
    holds the substituted PR reference, every required keyword and every
    required content flag.  A comment that misses one of the three groups
    is never the one selected, wherever it stands; when no comment passes
    all three the result is false. *)
Theorem C5_first_compliant_comment (pr_number : Z) (cs : list comment) :
  Forall (λ c, comment_body c ≠ Null) cs →
  let passes c :=
    mentions_pr pr_number c = true ∧ mentions_keywords c = true ∧
    mentions_flags c = true in
  ∃ selected,
    comment_loop pr_number cs = ([], Val selected) ∧
    valid_comment_found pr_number cs
    = ([], Val (bool_decide (is_Some selected))) ∧
    first_in_order passes cs selected ∧
    (∀ c, mentions_pr pr_number c = false ∨ mentions_keywords c = false
          ∨ mentions_flags c = false → selected ≠ Some c) ∧
    ((∀ c, c ∈ cs → ¬ passes c) →
       valid_comment_found pr_number cs = ([], Val false)).
Proof.
  intros Hcs passes.
  assert (first_in_order passes cs (List.find (compliant pr_number) cs))
    as Hfirst.
  { eapply first_in_order_iff; [|apply find_first_in_order].
    intros c. unfold compliant, passes. rewrite !andb_true_iff. tauto. }
  exists (List.find (compliant pr_number) cs).
  assert (valid_comment_found pr_number cs
          = ([], Val (bool_decide
                        (is_Some (List.find (compliant pr_number) cs)))))
    as Hvalid.
  { unfold valid_comment_found. by rewrite comment_loop_find, bind_ret_l. }
  split_and!; [by apply comment_loop_find|done|done| |].
  - intros c Hmiss Hsel. rewrite Hsel in Hfirst.
    destruct Hfirst as (i & _ & (Hp & Hk & Hf) & _).
    destruct Hmiss as [?|[?|?]]; congruence.
  - intros Hnone. rewrite Hvalid.
    destruct (List.find (compliant pr_number) cs) as [c|] eqn:Hfind; [|done].
    destruct Hfirst as (i & Hi & Hp & _).
    destruct (Hnone c); [|done]. by eapply list_elem_of_lookup_2.
Qed.

Lemma C5_first_compliant_comment_witness :
  let partial := Comment (Present "PR #8: label documentation completed") in
  let full := Comment (Present
    "Label documentation completed in pr #8; labels verified and applied.") in
  let later := Comment (Present
    "PR #8 label documentation completed, labels verified, applied") in
  comment_loop 8 [partial; full; later] = ([], Val (Some full)) ∧
  valid_comment_found 8 [partial; full; later] = ([], Val true) ∧
  valid_comment_found 8 [partial] = ([], Val false).
Proof.
  intros partial full later.
  destruct (C5_first_compliant_comment 8 [partial; full; later])
    as (sel & Hloop & Hvalid & _).
  { repeat constructor; discriminate. }
  destruct (C5_first_compliant_comment 8 [partial])
    as (_ & _ & _ & _ & _ & Hnone).
  { repeat constructor; discriminate. }
  split_and!.
  - rewrite Hloop. vm_compute in Hloop. by injection Hloop as <-.
  - rewrite Hvalid. vm_compute in Hloop. by injection Hloop as <-.
  - apply Hnone. intros c Hc%list_elem_of_singleton. subst c.
    vm_compute. intros (_ & _ & ?). discriminate.
Defined.

(** ** The core labels of check 9/9 *)

Lemma core_present_missing (names : list string) :
  (core_present names + length (missing_pr_core_labels names) = 10)%nat.
Proof.
  unfold core_present, missing_pr_core_labels, missing_labels.
  rewrite List.filter_length. done.
Qed.

(** C7.  Check 9/9 fails exactly when more than half of the 10 core
    labels are missing from the pull request's label names: it passes
    for every label list that holds at least 5 of the 10, and fails for
    every label list that holds 4 or fewer. *)
Theorem C7_core_label_threshold (pr_number : Z) (pr_labels : list label) :
  let names := name <$> pr_labels in
  let run := step9 pr_number (Some pr_labels) in
  length core_expected_labels = 10%nat ∧
  (run.2 = Val (Return false) ↔
     (length core_expected_labels / 2
      < length (missing_pr_core_labels names))%nat) ∧
  (run.2 = Val (Go tt) ↔ (5 ≤ core_present names)%nat) ∧
  (run.2 = Val (Return false) ↔ (core_present names ≤ 4)%nat) ∧
  (run.2 = Val (Return false) →
     last run.1
     = Some (Stderr, ErrPrCoreLabels pr_number
                       (take 3 (missing_pr_core_labels names)))).
Proof.
  intros names run. pose proof (core_present_missing names) as Hsum.
  unfold run, step9. simpl. fold names. unfold too_many_core_missing.
  change (length core_expected_labels / 2)%nat with 5%nat.
  destruct (Nat.ltb_spec 5 (length (missing_pr_core_labels names)));
    simpl; split_and!; try done; split; intros; try done; lia.
Qed.

Lemma C7_core_label_threshold_witness :
  (step9 8 (Some (Label <$> ["bug"; "task"; "question"; "feature"; "help-wanted";
                             "triage"]))).2 = Val (Go tt) ∧
  (step9 8 (Some (Label <$> ["bug"; "task"; "question"; "feature";
                             "triage"]))).2 = Val (Return false).
Proof.
  split.
  - by apply (C7_core_label_threshold 8).
  - by apply (C7_core_label_threshold 8).
Defined.

(** ** Sample runs *)

(** With everything in place the run prints the nine closing lines and
    the summary, and exits with 0. *)
Example passing_run :
  (main Sample.passing).2 = 0 ∧
  last (main Sample.passing).1 = Some (Stdout, SummaryBottom) ∧
  Forall (λ ev, ev.1 = Stdout) (main Sample.passing).1.
Proof. vm_compute. repeat split. repeat constructor. Qed.

(** With 18 well-formed rows the run stops in check 3/9: the rows with
    too few cells are not counted, and no issue or pull request is
    looked up. *)
Example short_document_run :
  _parse_label_table Sample.short_doc CONFIG.doc_parsing.table_header
  = take 18 CONFIG.expected_labels ∧
  (main Sample.short).2 = 1 ∧
  last (main Sample.short).1 = Some (Stderr, ErrDocLabelCount 18 22) ∧
  Forall (λ ev, (step_of ev.2 ≤ 3)%nat) (main Sample.short).1.
Proof. vm_compute. repeat split. repeat (constructor; [lia|]). constructor. Qed.

(** ** Helpers print ordinary lines of their own check *)

Section quiet.
Context {k : nat}.

Lemma quiet_ret {A} (a : A) : quiet k (ret a).
Proof. constructor. Qed.

Lemma quiet_raise {A} e : quiet k (@raise A e).
Proof. constructor. Qed.

Lemma quiet_print s msg :
  step_of msg = k → is_failure msg = false → completes msg = None →
  quiet k (print s msg).
Proof. intros. by repeat constructor. Qed.

Lemma quiet_bind {A B} (m : M A) (f : A → M B) :
  quiet k m → (∀ a, quiet k (f a)) → quiet k (bind m f).
Proof.
  unfold quiet. destruct m as [tr [a|e]]; simpl; [|done].
  intros Hm Hf. specialize (Hf a). destruct (f a) as [tr' r]. simpl in *.
  by apply Forall_app.
Qed.

Lemma quiet_client {A} (requests_get : string → headers → get_outcome A)
    endpoint hdrs org repo :
  step_of_endpoint endpoint = k →
  quiet k (_get_github_api requests_get endpoint hdrs org repo).
Proof.
  intros Hk. unfold _get_github_api.
  destruct (requests_get _ hdrs) as [r|e].
  - destruct (status_code r =? 200); [destruct (json r)|];
      [| |destruct (status_code r =? 404)];
      repeat first [apply quiet_ret | apply quiet_bind; [|intros _]
                   | by apply quiet_print].
  - destruct (is_Exception e);
      repeat first [apply quiet_ret | apply quiet_raise
                   | apply quiet_bind; [|intros _] | by apply quiet_print].
Qed.

Lemma quiet_lower_of s : quiet k (lower_of s).
Proof. destruct s; [apply quiet_ret|apply quiet_raise]. Qed.

Lemma quiet_contains_in needle hay : quiet k (contains_in needle hay).
Proof. destruct hay; [apply quiet_ret|apply quiet_raise]. Qed.

Lemma quiet_comprehension {A} (keep : A → M bool) xs :
  (∀ x, quiet k (keep x)) → quiet k (comprehension keep xs).
Proof.
  intros Hkeep. induction xs as [|x xs IH]; simpl; [apply quiet_ret|].
  apply quiet_bind; [done|intros b].
  apply quiet_bind; [done|intros ys]. apply quiet_ret.
Qed.

Lemma quiet_missing_sections sections text :
  quiet k (missing_sections sections text).
Proof.
  apply quiet_comprehension. intros sec.
  apply quiet_bind; [apply quiet_contains_in|intros b; apply quiet_ret].
Qed.

Lemma quiet_missing_keywords keywords text :
  quiet k (missing_keywords keywords text).
Proof.
  apply quiet_comprehension. intros kw.
  apply quiet_bind; [apply quiet_lower_of|intros b; apply quiet_ret].
Qed.

Lemma quiet_label_names ls : quiet k (label_names ls).
Proof. destruct ls; [apply quiet_ret|apply quiet_raise]. Qed.

Lemma quiet_len_of {A} (ls : option (list A)) : quiet k (len_of ls).
Proof. destruct ls; [apply quiet_ret|apply quiet_raise]. Qed.

Lemma quiet_dict_item {A} (f : field A) : quiet k (dict_item f).
Proof. destruct f; [apply quiet_raise|apply quiet_ret..]. Qed.

Lemma quiet_scan_issues keywords items : quiet k (scan_issues keywords items).
Proof.
  induction items as [|it items IH]; simpl; [apply quiet_ret|].
  destruct (dict_has _); [done|].
  apply quiet_bind; [apply quiet_lower_of|intros t].
  destruct (all_keywords_in _ _); [apply quiet_ret|done].
Qed.

Lemma quiet_scan_prs keywords items : quiet k (scan_prs keywords items).
Proof.
  induction items as [|it items IH]; simpl; [apply quiet_ret|].
  apply quiet_bind; [apply quiet_lower_of|intros t].
  destruct (all_keywords_in _ _); [apply quiet_ret|done].
Qed.

Lemma quiet_find_in_states w resource scan hdrs org repo states :
  (∀ state, step_of_endpoint
              (resource +:+ "?state=" +:+ state +:+ "&per_page=30") = k) →
  (∀ items, quiet k (scan items)) →
  quiet k (find_in_states w resource scan hdrs org repo states).
Proof.
  intros Hep Hscan. induction states as [|state rest IH]; simpl;
    [apply quiet_ret|].
  apply quiet_bind; [by apply quiet_client|intros [success items]].
  destruct (success && truthy_list items); [|done].
  apply quiet_bind; [done|intros [it|]]; [apply quiet_ret|done].
Qed.

Lemma quiet_comment_loop pr_number cs : quiet k (comment_loop pr_number cs).
Proof.
  induction cs as [|c cs IH]; simpl; [apply quiet_ret|].
  apply quiet_bind; [apply quiet_lower_of|intros t].
  repeat case_match; done || apply quiet_ret.
Qed.

Lemma quiet_valid_comment_found pr_number cs :
  quiet k (valid_comment_found pr_number cs).
Proof.
  apply quiet_bind; [apply quiet_comment_loop|intros; apply quiet_ret].
Qed.
End quiet.

Lemma quiet_check_branch_exists w branch hdrs org repo :
  quiet 2 (_check_branch_exists w branch hdrs org repo).
Proof.
  apply quiet_bind; [by apply quiet_client|intros [? ?]; apply quiet_ret].
Qed.

Lemma quiet_get_file_content w hdrs org repo :
  quiet 3 (_get_file_content w CONFIG.feature_branch.name
             CONFIG.feature_branch.doc_file hdrs org repo).
Proof.
  apply quiet_bind; [by apply quiet_client|intros [success result]].
  destruct (negb success || negb (truthy_contents result)); [apply quiet_ret|].
  destruct result as [[content|names]|]; [|apply quiet_raise|apply quiet_ret].
  cbv zeta. destruct (truthy_str (dict_get_none content));
    [|apply quiet_ret].
  destruct (b64decode_utf8 w _); [apply quiet_ret|].
  apply quiet_bind; [by apply quiet_print|intros; apply quiet_ret].
Qed.

Lemma quiet_find_issue w keywords hdrs org repo :
  quiet 4 (_find_issue_by_keywords w keywords hdrs org repo).
Proof.
  apply quiet_find_in_states; [done|]. intros. apply quiet_scan_issues.
Qed.

Lemma quiet_find_pr w keywords hdrs org repo :
  quiet 5 (_find_pr_by_keywords w keywords hdrs org repo).
Proof.
  apply quiet_find_in_states; [done|]. intros. apply quiet_scan_prs.
Qed.

Lemma quiet_get_issue_comments w issue_number hdrs org repo :
  quiet 7 (_get_issue_comments w issue_number hdrs org repo).
Proof.
  apply quiet_bind; [by apply quiet_client|intros [? ?]; apply quiet_ret].
Qed.

(** ** How the statements of a check compose *)

Lemma fails_at_after k tr tr' :
  Forall (plain_at k) tr → fails_at k tr' → fails_at k (tr ++ tr').
Proof.
  intros Htr (tr0 & msg & -> & Hmsg & Hk & Htr0).
  exists (tr ++ tr0), msg. rewrite app_assoc. split_and!; try done.
  by apply Forall_app.
Qed.

Lemma completes_at_after k tr tr' :
  Forall (plain_at k) tr → completes_at k tr' → completes_at k (tr ++ tr').
Proof.
  intros Htr (tr0 & msg & -> & Hmsg & Hk & Hnf & Htr0).
  exists (tr ++ tr0), msg. rewrite app_assoc. split_and!; try done.
  by apply Forall_app.
Qed.

Section body.
Context {k : nat}.

Lemma part_go {A} (a : A) : part_shape k (go a).
Proof. constructor. Qed.

Lemma part_lift {A} (m : M A) : quiet k m → part_shape k (lift m).
Proof.
  unfold quiet, lift, bind. destruct m as [tr [a|e]]; simpl; [|done].
  by rewrite app_nil_r.
Qed.

Lemma part_print s msg :
  step_of msg = k → is_failure msg = false → completes msg = None →
  part_shape k (lift (print s msg)).
Proof. intros. by repeat constructor. Qed.

Lemma part_fail_if failed msg :
  reported_failure msg = true → step_of msg = k →
  part_shape k (fail_if failed msg).
Proof.
  intros Hmsg Hk. destruct failed; simpl; [|constructor].
  split; [done|]. by exists [], msg.
Qed.

Lemma part_bind {A B} (m : Body bool A) (f : A → Body bool B) :
  part_shape k m → (∀ a, part_shape k (f a)) → part_shape k (bindB m f).
Proof.
  unfold bindB, bind. destruct m as [tr [[a|b]|e]]; simpl; [| |done].
  - intros Hm Hf. specialize (Hf a). destruct (f a) as [tr' [[a'|b']|e']];
      simpl in *.
    + by apply Forall_app.
    + destruct Hf as [-> Hf]. split; [done|]. by apply fails_at_after.
    + by apply Forall_app.
  - intros [-> Hm] _. by rewrite app_nil_r.
Qed.

Lemma step_bind {A B} (m : Body bool A) (f : A → Body bool B) :
  part_shape k m → (∀ a, step_shape k (f a)) → step_shape k (bindB m f).
Proof.
  unfold bindB, bind. destruct m as [tr [[a|b]|e]]; simpl; [| |done].
  - intros Hm Hf. specialize (Hf a). destruct (f a) as [tr' [[a'|b']|e']];
      simpl in *.
    + by apply completes_at_after.
    + destruct Hf as [-> Hf]. split; [done|]. by apply fails_at_after.
    + by apply Forall_app.
  - intros [-> Hm] _. by rewrite app_nil_r.
Qed.

Lemma step_close msg :
  completes msg = Some k → step_of msg = k → is_failure msg = false →
  step_shape k (lift (print Stdout msg)).
Proof. intros. by exists [], msg. Qed.

Lemma step_close_go {A} msg (a : A) :
  completes msg = Some k → step_of msg = k → is_failure msg = false →
  step_shape k (lift (print Stdout msg) ;;; go a).
Proof. intros. by exists [], msg. Qed.

Lemma step_fail {A} msg :
  reported_failure msg = true → step_of msg = k →
  step_shape k (A := A) (lift (print Stderr msg) ;;; return_ false).
Proof. intros. split; [done|]. by exists [], msg. Qed.
End body.

(** Breaks the body of a check down along its statements. *)
Ltac shape :=
  repeat first
    [ by apply step_close
    | by apply step_close_go
    | by apply step_fail
    | apply step_bind; [|intros ?]
    | apply part_bind; [|intros ?]
    | by apply part_print
    | by apply part_fail_if
    | apply part_go
    | apply part_lift ].

(** ** The nine checks *)

Lemma headers_check_passes (hdrs : headers) : bool_decide (hdrs ≠ hdrs) = false.
Proof. by apply bool_decide_eq_false_2; intros []. Qed.

Lemma step1_shape w : step_shape 1 (step1 w).
Proof.
  unfold step1. cbv zeta. rewrite headers_check_passes. shape.
Qed.

Lemma step2_shape w org hdrs : step_shape 2 (step2 w org hdrs).
Proof. unfold step2. shape. apply quiet_check_branch_exists. Qed.

Lemma step3_shape w org hdrs : step_shape 3 (step3 w org hdrs).
Proof. unfold step3. cbv zeta. shape. apply quiet_get_file_content. Qed.

Lemma step4_shape w org hdrs : step_shape 4 (step4 w org hdrs).
Proof.
  unfold step4. shape; [apply quiet_find_issue|].
  case_match; cbv zeta; shape;
    auto using @quiet_label_names, @quiet_missing_sections,
      @quiet_missing_keywords, @quiet_dict_item.
Qed.

Lemma step5_shape w org hdrs issue_number :
  step_shape 5 (step5 w org hdrs issue_number).
Proof.
  unfold step5. shape; [apply quiet_find_pr|].
  case_match; cbv zeta; shape;
    auto using @quiet_lower_of, @quiet_missing_sections,
      @quiet_missing_keywords, @quiet_len_of, @quiet_dict_item.
Qed.

Lemma step6_shape issue_number issue_labels :
  step_shape 6 (step6 issue_number issue_labels).
Proof. unfold step6. cbv zeta. shape. Qed.

Lemma step7_shape w org hdrs issue_number pr_number :
  step_shape 7 (step7 w org hdrs issue_number pr_number).
Proof.
  unfold step7. shape;
    auto using quiet_get_issue_comments, @quiet_valid_comment_found.
Qed.

Lemma step8_shape documented_labels : step_shape 8 (step8 documented_labels).
Proof. unfold step8. cbv zeta. shape. case_match; shape. Qed.

Lemma step9_shape pr_number pr_labels : step_shape 9 (step9 pr_number pr_labels).
Proof. unfold step9. shape. apply quiet_label_names. Qed.

(** ** The checks in sequence *)

Lemma tail_summary org i p : tail_shape 10 (summary org i p).
Proof. exists [], org, i, p. by split. Qed.

Lemma tail_step {A} k (m : Body bool A) (f : A → Body bool Empty_set) :
  (k ≤ 9)%nat →
  step_shape k m → (∀ a, tail_shape (S k) (f a)) → tail_shape k (bindB m f).
Proof.
  intros Hk. unfold bindB, bind. destruct m as [tr [[a|b]|e]]; simpl.
  - intros Hm Hf. specialize (Hf a).
    destruct (f a) as [tr' [[[]|[|]]|e']]; simpl in *.
    + destruct Hf as (checks & org & i & p & -> & Hchecks).
      exists (tr ++ checks), org, i, p. rewrite app_assoc. split; [done|].
      replace (10 - k)%nat with (S (9 - k)) by lia. by exists tr, checks.
    + destruct Hf as (n & before & mine & Hn & -> & Hbefore & Hmine).
      exists (S n), (tr ++ before), mine. rewrite app_assoc.
      replace (k + S n)%nat with (S (k + n)) by lia.
      split_and!; [lia|done| |done]. by exists tr, before.
    + destruct Hf as (n & before & mine & Hn & -> & Hbefore & Hmine).
      exists (S n), (tr ++ before), mine. rewrite app_assoc.
      replace (k + S n)%nat with (S (k + n)) by lia.
      split_and!; [lia|done| |done]. by exists tr, before.
  - intros [-> Hm] _. exists 0%nat, [], tr.
    rewrite app_nil_r, Nat.add_0_r. split_and!; [lia|done..].
  - intros Hm _. exists 0%nat, [], tr. rewrite Nat.add_0_r.
    split_and!; [lia|done..].
Qed.

Lemma pipeline_shape w : tail_shape 1 (pipeline w).
Proof.
  unfold pipeline.
  apply tail_step; [lia|apply step1_shape|intros [org hdrs]].
  apply tail_step; [lia|apply step2_shape|intros _].
  apply tail_step; [lia|apply step3_shape|intros documented].
  apply tail_step; [lia|apply step4_shape|intros [issue_number issue_labels]].
  apply tail_step; [lia|apply step5_shape|intros [pr_number pr_labels]].
  apply tail_step; [lia|apply step6_shape|intros _].
  apply tail_step; [lia|apply step7_shape|intros _].
  apply tail_step; [lia|apply step8_shape|intros _].
  apply tail_step; [lia|apply step9_shape|intros _].
  apply tail_summary.
Qed.

(** Every run ends in one of the three ways of [verdict]. *)
Lemma verify_verdict w : verdict (verify_label_standardization w).
Proof.
  pose proof (pipeline_shape w) as Hshape.
  unfold verify_label_standardization, bind.
  destruct (pipeline w) as [tr [[[]|[|]]|e]]; simpl in *;
    rewrite ?app_nil_r.
  - done.
  - destruct Hshape as (n & before & mine & Hn & -> & Hbefore & Hmine).
    exists (S n), before, mine. simpl. rewrite Nat.sub_0_r.
    split_and!; [lia..|done|done|done].
  - destruct Hshape as (n & before & mine & Hn & -> & Hbefore & Hmine).
    exists (S n), before, mine. simpl. rewrite Nat.sub_0_r.
    split_and!; [lia..|done|done|done].
Qed.

(** ** Reading the shapes *)

Lemma step_completed_app j tr tr' :
  step_completed j (tr ++ tr') ↔ step_completed j tr ∨ step_completed j tr'.
Proof.
  unfold step_completed. split.
  - intros (msg & [?|?]%elem_of_app & ?); eauto.
  - intros [(msg & ? & ?)|(msg & ? & ?)]; exists msg;
      (split; [apply elem_of_app; auto|done]).
Qed.

Lemma step_failed_app j tr tr' :
  step_failed j (tr ++ tr') ↔ step_failed j tr ∨ step_failed j tr'.
Proof.
  unfold step_failed. split.
  - intros (s & msg & [?|?]%elem_of_app & ?); eauto.
  - intros [(s & msg & ? & ?)|(s & msg & ? & ?)]; exists s, msg;
      (split; [apply elem_of_app; auto|done]).
Qed.

Lemma reported_failure_facts msg :
  reported_failure msg = true → is_failure msg = true ∧ completes msg = None.
Proof. by destruct msg. Qed.

Lemma calm_no_failure lo hi tr j :
  Forall (calm lo hi) tr → ¬ step_failed j tr.
Proof.
  intros Htr (s & msg & Hin & Hf & _).
  rewrite Forall_forall in Htr. destruct (Htr _ Hin) as [_ Hnf].
  simpl in Hnf. congruence.
Qed.

Lemma plain_facts k tr :
  Forall (plain_at k) tr →
  Forall (calm k (S k)) tr ∧ ∀ j, ¬ step_completed j tr.
Proof.
  intros Htr. split.
  - eapply Forall_impl; [exact Htr|]. intros ev (Hk & Hnf & _).
    split; [lia|done].
  - intros j (msg & Hin & Hc). rewrite Forall_forall in Htr.
    destruct (Htr _ Hin) as (_ & _ & Hnone). simpl in Hnone. congruence.
Qed.

Lemma completes_at_facts k tr :
  completes_at k tr →
  Forall (calm k (S k)) tr ∧ step_completed k tr ∧
  ∀ j, step_completed j tr → j = k.
Proof.
  intros (tr0 & msg & -> & Hc & Hk & Hnf & Htr0).
  destruct (plain_facts _ _ Htr0) as [Hcalm Hnone]. split_and!.
  - apply Forall_app. split; [done|]. apply Forall_singleton.
    split; simpl; [lia|done].
  - exists msg. split; [|done]. apply elem_of_app. right. by left.
  - intros j [Hj|(msg' & Hin & Hc')]%step_completed_app; [by destruct (Hnone j)|].
    apply list_elem_of_singleton in Hin. injection Hin as <-. congruence.
Qed.

Lemma completed_from_facts k n tr :
  completed_from k n tr →
  Forall (calm k (k + n)) tr ∧
  (∀ j, (k ≤ j < k + n)%nat → step_completed j tr) ∧
  (∀ j, step_completed j tr → (k ≤ j < k + n)%nat).
Proof.
  revert k tr. induction n as [|n IH]; intros k tr; simpl.
  - intros ->. split_and!; [constructor|lia|].
    intros j (msg & Hin & _). by apply elem_of_nil in Hin.
  - intros (mine & rest & -> & Hmine & Hrest).
    destruct (completes_at_facts _ _ Hmine) as (Hm1 & Hm2 & Hm3).
    destruct (IH _ _ Hrest) as (Hr1 & Hr2 & Hr3). split_and!.
    + apply Forall_app. split; (eapply Forall_impl; [eassumption|]);
        intros ev [? ?]; (split; [lia|done]).
    + intros j Hj. apply step_completed_app.
      destruct (decide (j = k)) as [->|]; [by left|right]. apply Hr2. lia.
    + intros j [Hj|Hj]%step_completed_app.
      * apply Hm3 in Hj. lia.
      * apply Hr3 in Hj. lia.
Qed.

Lemma fails_at_facts k tr :
  fails_at k tr →
  ∃ tr0 msg, tr = tr0 ++ [(Stderr, msg)] ∧ is_failure msg = true ∧
    step_of msg = k ∧ Forall (calm k (S k)) tr0 ∧
    (∀ j, ¬ step_completed j tr) ∧ step_failed k tr ∧
    (∀ j, step_failed j tr → j = k).
Proof.
  intros (tr0 & msg & -> & Hmsg & Hk & Htr0).
  destruct (reported_failure_facts _ Hmsg) as [Hf Hc].
  destruct (plain_facts _ _ Htr0) as [Hcalm Hnone].
  exists tr0, msg. split_and!; try done.
  - intros j [Hj|(msg' & Hin & Hc')]%step_completed_app; [by destruct (Hnone j)|].
    apply list_elem_of_singleton in Hin. discriminate.
  - exists Stderr, msg. split; [|done]. apply elem_of_app. right. by left.
  - intros j [Hj|(s & msg' & Hin & _ & Hj)]%step_failed_app.
    + by destruct (calm_no_failure _ _ _ j Hcalm).
    + apply list_elem_of_singleton in Hin. injection Hin as -> ->. congruence.
Qed.

Lemma summary_lines_calm org i p : Forall (calm 10 11) (summary_lines org i p).
Proof.
  unfold summary_lines.
  repeat (apply Forall_cons_2; [split; simpl; [lia|done]|]). constructor.
Qed.

Lemma summary_lines_no_completion org i p j :
  ¬ step_completed j (summary_lines org i p).
Proof.
  intros (msg & Hin & Hc). unfold summary_lines in Hin.
  repeat (apply elem_of_cons in Hin as [Hin|Hin];
          [injection Hin as ->; discriminate|]).
  by apply elem_of_nil in Hin.
Qed.

Lemma calm_weaken lo hi lo' hi' tr :
  (lo' ≤ lo)%nat → (hi ≤ hi')%nat →
  Forall (calm lo hi) tr → Forall (calm lo' hi') tr.
Proof.
  intros ?? Htr. eapply Forall_impl; [exact Htr|].
  intros ev [? ?]. split; [lia|done].
Qed.

(** ** The run as a whole *)

#[local] Arguments completed_from : simpl never.

(** What the three verdicts say about the lines of the output. *)
Lemma run_facts w :
  let run := verify_label_standardization w in
  match run.2 with
  | Val true =>
      Forall (calm 1 11) run.1 ∧
      ∀ j, step_completed j run.1 ↔ (1 ≤ j ≤ 9)%nat
  | Val false =>
      ∃ k before msg, (1 ≤ k ≤ 9)%nat ∧ run.1 = before ++ [(Stderr, msg)] ∧
        reported_failure msg = true ∧ step_of msg = k ∧
        Forall (calm 1 (S k)) before ∧
        ∀ j, step_completed j run.1 ↔ (1 ≤ j < k)%nat
  | Exn _ =>
      ∃ k, (1 ≤ k ≤ 9)%nat ∧ Forall (calm 1 (S k)) run.1 ∧
        ∀ j, step_completed j run.1 ↔ (1 ≤ j < k)%nat
  end.
Proof.
  intros run. pose proof (verify_verdict w) as Hv. fold run in Hv.
  destruct run as [tr [[|]|e]]; simpl in *.
  - destruct Hv as (checks & org & i & p & -> & Hchecks).
    destruct (completed_from_facts _ _ _ Hchecks) as (Hcalm & Hall & Honly).
    split.
    + apply Forall_app. split.
      * eapply calm_weaken; [| |exact Hcalm]; lia.
      * eapply calm_weaken; [| |apply summary_lines_calm]; lia.
    + intros j. rewrite step_completed_app. split.
      * intros [Hj|Hj]; [apply Honly in Hj; lia|].
        by destruct (summary_lines_no_completion _ _ _ _ Hj).
      * intros Hj. left. apply Hall. lia.
  - destruct Hv as (k & before & mine & Hk & -> & Hbefore & Hmine).
    destruct (completed_from_facts _ _ _ Hbefore) as (Hcalm & Hall & Honly).
    destruct Hmine as (tr0 & msg & -> & Hmsg & Hstep & Htr0).
    destruct (plain_facts _ _ Htr0) as [Hcalm0 Hnone0].
    destruct (reported_failure_facts _ Hmsg) as [Hf Hc].
    exists k, (before ++ tr0), msg. rewrite app_assoc.
    split_and!; try done; try lia.
    + apply Forall_app. split; (eapply calm_weaken; [| |eassumption]); lia.
    + intros j. rewrite !step_completed_app. split.
      * intros [[Hj|Hj]|(m & Hin & Hm)].
        -- apply Honly in Hj. lia.
        -- by destruct (Hnone0 j).
        -- apply list_elem_of_singleton in Hin. discriminate.
      * intros Hj. left. left. apply Hall. lia.
  - destruct Hv as (k & before & mine & Hk & -> & Hbefore & Hmine).
    destruct (completed_from_facts _ _ _ Hbefore) as (Hcalm & Hall & Honly).
    destruct (plain_facts _ _ Hmine) as [Hcalm0 Hnone0].
    exists k. split_and!; try done; try lia.
    + apply Forall_app. split; (eapply calm_weaken; [| |eassumption]); lia.
    + intros j. rewrite step_completed_app. split.
      * intros [Hj|Hj]; [apply Honly in Hj; lia|by destruct (Hnone0 j)].
      * intros Hj. left. apply Hall. lia.
Qed.

(** Splits the conjunctions of a goal, leaving equivalences whole. *)
Ltac conjs := repeat lazymatch goal with |- _ ∧ _ => split end.

Lemma calm_steps lo hi tr s msg :
  Forall (calm lo hi) tr → (s, msg) ∈ tr → (lo ≤ step_of msg < hi)%nat.
Proof.
  intros Htr Hin. rewrite Forall_forall in Htr. by destruct (Htr _ Hin).
Qed.

(** C3, amended.  In every run of the pipeline, if check k fails then
    no line of checks k+1 onward is printed, the run stops right at the
    failure line, the pipeline returns false and the process exits with
    code 1.  A run ends in one of three ways.  It completes all nine
    checks exactly when it returns true (exit code 0, no check failed).
    A run that returns false has halted at its first failing check, with
    the checks before it completed.  A run left by an exception exits
    with code 1; no check has failed in it, and it has completed the
    checks before the one that raised and no other, so not all nine. *)
Theorem C3_fail_fast (w : world) :
  let run := verify_label_standardization w in
  (∀ k, step_failed k run.1 →
     run.2 = Val false ∧ main w = (run.1, 1) ∧
     (∀ s msg, (s, msg) ∈ run.1 → (step_of msg ≤ k)%nat) ∧
     (∃ before msg, run.1 = before ++ [(Stderr, msg)] ∧
        is_failure msg = true ∧ step_of msg = k ∧
        Forall (λ ev, is_failure ev.2 = false) before) ∧
     (∀ j, step_completed j run.1 ↔ (1 ≤ j < k)%nat)) ∧
  (run.2 = Val true ↔ ∀ k, (1 ≤ k ≤ 9)%nat → step_completed k run.1) ∧
  (run.2 = Val true → main w = (run.1, 0) ∧ ∀ k, ¬ step_failed k run.1) ∧
  (run.2 = Val false → ∃ k, (1 ≤ k ≤ 9)%nat ∧ step_failed k run.1) ∧
  (∀ e, run.2 = Exn e →
     (main w).2 = 1 ∧ (∀ k, ¬ step_failed k run.1) ∧
     ∃ k, (1 ≤ k ≤ 9)%nat ∧ ∀ j, step_completed j run.1 ↔ (1 ≤ j < k)%nat).
Proof.
  intros run. pose proof (run_facts w) as Hrun. fold run in Hrun.
  unfold main. fold run. destruct run as [tr [[|]|e]]; simpl in *.
  - destruct Hrun as [Hcalm Hdone]. conjs.
    + intros k Hk. by destruct (calm_no_failure _ _ _ k Hcalm).
    + split; [|done]. intros _ k Hk. by apply Hdone.
    + intros _. split; [done|]. intros k.
      by apply calm_no_failure with 1%nat 11%nat.
    + done.
    + done.
  - destruct Hrun as (k & before & msg & Hk & -> & Hmsg & Hstep & Hcalm & Hdone).
    destruct (reported_failure_facts _ Hmsg) as [Hf _].
    assert (step_failed k (before ++ [(Stderr, msg)])) as Hfailed.
    { exists Stderr, msg. split; [|done]. apply elem_of_app. right. by left. }
    conjs.
    + intros k' [Hk'|(s & msg' & Hin & _ & Hk')]%step_failed_app.
      { by destruct (calm_no_failure _ _ _ k' Hcalm). }
      apply list_elem_of_singleton in Hin. injection Hin as -> ->.
      assert (k' = k) as -> by congruence.
      conjs; try done.
      * intros s msg' [Hin|Hin]%elem_of_app.
        -- pose proof (calm_steps _ _ _ _ _ Hcalm Hin). lia.
        -- apply list_elem_of_singleton in Hin. injection Hin as -> ->. lia.
      * exists before, msg. conjs; try done.
        eapply Forall_impl; [exact Hcalm|]. by intros ev [_ ?].
    + split; [done|]. intros Hall.
      assert (step_completed k (before ++ [(Stderr, msg)])) as Hc
        by (apply Hall; lia).
      apply Hdone in Hc. lia.
    + done.
    + intros _. by exists k.
    + done.
  - destruct Hrun as (k & Hk & Hcalm & Hdone). conjs.
    + intros k' Hk'. by destruct (calm_no_failure _ _ _ k' Hcalm).
    + split; [done|]. intros Hall.
      assert (step_completed k tr) as Hc by (apply Hall; lia).
      apply Hdone in Hc. lia.
    + done.
    + done.
    + intros e' _. split; [by destruct e|]. split; [|by exists k].
      intros k'. by apply calm_no_failure with 1%nat (S k).
Qed.

Lemma C3_fail_fast_witness :
  (verify_label_standardization Sample.no_branch).2 = Val false ∧
  main Sample.no_branch
  = ((verify_label_standardization Sample.no_branch).1, 1) ∧
  (∀ s msg, (s, msg) ∈ (verify_label_standardization Sample.no_branch).1 →
            (step_of msg ≤ 2)%nat) ∧
  main Sample.passing = ((verify_label_standardization Sample.passing).1, 0).
Proof.
  destruct (C3_fail_fast Sample.no_branch) as (Hfail & _).
  destruct (Hfail 2%nat) as (Hres & Hmain & Hlines & _).
  { exists Stderr, (ErrBranchNotFound CONFIG.feature_branch.name).
    split; [|done]. vm_compute. repeat constructor. }
  destruct (C3_fail_fast Sample.passing) as (_ & _ & Hpass & _).
  destruct Hpass as [Hmain' _]; [by vm_compute|].
  repeat split; assumption.
Defined.

(** C3 as stated fails: when the platform sends the tracking issue's
    body as null, the run is left by the TypeError that check 4/9
    raises.  It has completed checks 1 to 3 only and no check has
    failed, so it has neither completed all nine checks nor halted at a
    failing one; the process exits with code 1. *)
Lemma C3_counterexample :
  let run := verify_label_standardization Sample.null_body in
  run.2 = Exn TypeError ∧
  (∀ k, ¬ step_failed k run.1) ∧
  ¬ (∀ k, (1 ≤ k ≤ 9)%nat → step_completed k run.1) ∧
  (∀ j, step_completed j run.1 ↔ (1 ≤ j < 4)%nat) ∧
  (main Sample.null_body).2 = 1.
Proof.
  intros run. pose proof (run_facts Sample.null_body) as Hrun.
  cbv zeta in Hrun. unfold main. fold run in Hrun |- *.
  let v := eval vm_compute in (verify_label_standardization Sample.null_body)
  in assert (run = v) as Hv by (vm_compute; reflexivity).
  clearbody run. subst run. cbn [fst snd] in *.
  destruct Hrun as (k & Hk & Hcalm & Hdone).
  match type of Hdone with
  | ∀ j, step_completed j ?tr ↔ _ =>
      assert (step_completed 3 tr) as H3;
      [|assert (¬ step_completed 4 tr) as H4]
  end.
  { exists (OkDoc 22). split; [|done]. repeat constructor. }
  { intros (msg & Hin & Hmsg).
    repeat (apply elem_of_cons in Hin as [Heq|Hin];
            [by inversion Heq; subst|]).
    by apply elem_of_nil in Hin. }
  assert (k = 4%nat) as -> by (apply Hdone in H3; rewrite Hdone in H4; lia).
  split_and!; try done.
  - intros k'. by apply calm_no_failure with 1%nat 5%nat.
  - intros Hall. apply H4, Hall. lia.
Qed.

(** C8.  The header self-check never fails: whatever the two environment
    variables hold, once both pass the presence test the constructed
    headers equal the expected pair, check 1/9 completes and hands them
    on, and no run ever prints the header-mismatch line. *)
Theorem C8_header_check_never_fails (w : world) :
  (truthy_str (environ_GITHUB_TOKEN w) = true →
   truthy_str (environ_GITHUB_ORG w) = true →
   let expected_headers : headers :=
     {[ "Authorization" := "token " +:+ Py.fmt (environ_GITHUB_TOKEN w);
        "Accept" := "application/vnd.github.v3+json" ]} in
   (step1 w).2 = Val (Go (Py.fmt (environ_GITHUB_ORG w), expected_headers)) ∧
   last (step1 w).1 = Some (Stdout, OkHeaders)) ∧
  (∀ s, (s, ErrHeaderFormat) ∉ (step1 w).1) ∧
  (∀ s, (s, ErrHeaderFormat) ∉ (main w).1).
Proof.
  split_and!.
  - intros Htoken Horg expected_headers. unfold step1. cbv zeta.
    rewrite Htoken, Horg, headers_check_passes. done.
  - intros s. unfold step1. cbv zeta. rewrite headers_check_passes.
    destruct (truthy_str (environ_GITHUB_TOKEN w));
      destruct (truthy_str (environ_GITHUB_ORG w)); simpl;
      intros Hin; repeat (apply elem_of_cons in Hin as [Hin|Hin]; [done|]);
      by apply elem_of_nil in Hin.
  - intros s Hin. pose proof (run_facts w) as Hrun. unfold main in Hin.
    destruct (verify_label_standardization w) as [tr [[|]|e]]; simpl in *.
    + destruct Hrun as [Hcalm _]. rewrite Forall_forall in Hcalm.
      by destruct (Hcalm _ Hin).
    + destruct Hrun as (k & before & msg & _ & -> & Hmsg & _ & Hcalm & _).
      apply elem_of_app in Hin as [Hin|Hin].
      * rewrite Forall_forall in Hcalm. by destruct (Hcalm _ Hin).
      * apply list_elem_of_singleton in Hin. injection Hin as -> <-. done.
    + destruct Hrun as (k & _ & Hcalm & _).
      assert ((s, ErrHeaderFormat) ∈ tr) as Hin'.
      { destruct e; apply elem_of_app in Hin as [Hin|Hin]; try done;
          apply list_elem_of_singleton in Hin; discriminate. }
      rewrite Forall_forall in Hcalm. by destruct (Hcalm _ Hin').
Qed.

Lemma C8_header_check_never_fails_witness :
  (step1 Sample.passing).2
  = Val (Go ("acme", {[ "Authorization" := "token ghp_token";
                        "Accept" := "application/vnd.github.v3+json" ]})).
Proof.
  destruct (C8_header_check_never_fails Sample.passing) as (Hstep & _).
  by destruct Hstep as [-> _].
Defined.

(** C9, as the code has it.  A run left by an exception exits with code
    1 and its failure message, the last line of the output, is written
    to standard output; nothing on the error stream reports it. *)
Theorem C9_top_level_failure_on_stdout (w : world) (e : exn) :
  (verify_label_standardization w).2 = Exn e →
  (main w).2 = 1 ∧
  (main w).1
  = (verify_label_standardization w).1
    ++ [(Stdout, if is_Exception e then UnexpectedError e else UserInterrupt)] ∧
  Forall (λ ev, ev.1 = Stderr → is_failure ev.2 = false) (main w).1.
Proof.
  intros He. pose proof (run_facts w) as Hrun. unfold main.
  destruct (verify_label_standardization w) as [tr [b|e']]; simpl in *;
    [done|]. injection He as ->.
  destruct Hrun as (k & _ & Hcalm & _).
  assert (Forall (λ ev : event, ev.1 = Stderr → is_failure ev.2 = false) tr)
    as Htr.
  { eapply Forall_impl; [exact Hcalm|]. by intros ev [_ ?] _. }
  destruct e; simpl; (conjs; [done|done|]);
    apply Forall_app; split; try done; by apply Forall_singleton.
Qed.

Lemma C9_top_level_failure_on_stdout_witness :
  last (main Sample.interrupted).1 = Some (Stdout, UserInterrupt) ∧
  (main Sample.interrupted).2 = 1 ∧
  last (main Sample.null_body).1 = Some (Stdout, UnexpectedError TypeError) ∧
  (main Sample.null_body).2 = 1.
Proof.
  destruct (C9_top_level_failure_on_stdout Sample.interrupted KeyboardInterrupt)
    as (Hcode & Hout & _); [by vm_compute|].
  destruct (C9_top_level_failure_on_stdout Sample.null_body TypeError)
    as (Hcode' & Hout' & _); [by vm_compute|].
  rewrite Hout, Hout', !last_snoc. repeat split; assumption.
Defined.

(** * Further properties *)
(** ** More on the table parser *)

Lemma contains_empty s : Py.contains "" s = true.
Proof. by destruct s. Qed.

Lemma parse_lines_all_headers st lines :
  documented_labels (parse_lines "" st lines).1 = documented_labels st.
Proof.
  revert st. induction lines as [|l lines IH]; intros st; simpl; [done|].
  rewrite parse_line_header by apply contains_empty. by rewrite IH.
Qed.

(** X1.  A document in which no line holds the header marker yields no
    labels, whatever rows it has. *)
Theorem X1_no_marker_no_labels (content table_header : string) :
  Forall (λ l, Py.contains table_header l = false) (Py.split "010" content) →
  _parse_label_table content table_header = [].
Proof.
  intros Hlines. unfold _parse_label_table.
  by rewrite parse_lines_before_header.
Qed.

Lemma X1_no_marker_no_labels_witness :
  _parse_label_table
    (unlines ["| Name | Color |"; "|---|---|"; "| bug | d73a4a | Type |"])
    CONFIG.doc_parsing.table_header = [].
Proof.
  apply X1_no_marker_no_labels. vm_compute. repeat constructor.
Defined.

(** X2.  With an empty header marker every line counts as a header line
    and is skipped: the parser returns no labels for any document. *)
Theorem X2_empty_marker_no_labels (content : string) :
  _parse_label_table content "" = [].
Proof. unfold _parse_label_table. by rewrite parse_lines_all_headers. Qed.

(** Splitting and trimming *)

Lemma split_nonempty sep s : Py.split sep s ≠ [].
Proof.
  destruct s as [|c s]; simpl; [done|].
  destruct (Ascii.eqb c sep); [done|]. by destruct (Py.split sep s).
Qed.

Lemma split_length sep s : length (Py.split sep s) = S (count_char sep s).
Proof.
  induction s as [|c s IH]; simpl; [done|].
  destruct (Ascii.eqb c sep); simpl; [by rewrite IH|].
  pose proof (split_nonempty sep s). by destruct (Py.split sep s).
Qed.
















(** X4.  A row has one cell more than the line has "|" characters, so a
    line with fewer than three of them adds no label. *)
Theorem X4_cells_count_pipes (labels : list string) (line : string) :
  length (row_cells line) = S (count_char "|" line) ∧
  ((count_char "|" line < 3)%nat → parse_row labels line = labels).
Proof.
  assert (length (row_cells line) = S (count_char "|" line)) as Hlen.
  { unfold row_cells. by rewrite length_fmap, split_length. }
  split; [done|]. intros Hfew. unfold parse_row. rewrite Hlen.
  by destruct (Nat.leb_spec 4 (S (count_char "|" line))); [lia|].
Qed.

Lemma X4_cells_count_pipes_witness :
  parse_row ["bug"] "| task | ffffff" = ["bug"].
Proof. apply (X4_cells_count_pipes ["bug"] "| task | ffffff"). vm_compute. lia. Defined.

Lemma parse_row_app labels line :
  parse_row labels line = labels ++ parse_row [] line.
Proof.
  unfold parse_row. repeat case_match; simpl; by rewrite ?app_nil_r.
Qed.

(** Inside the table a line that does not stop it adds its labels. *)
Lemma parse_line_inside table_header st line :
  in_table st = true →
  stops_table table_header line = false →
  parse_line table_header st line
  = (ParseState true (documented_labels st ++ row_labels table_header line),
     Next).
Proof.
  intros Hin Hstop. unfold stops_table in Hstop. unfold row_labels.
  destruct (Py.contains table_header line) eqn:Hhdr.
  { rewrite parse_line_header by done. by rewrite app_nil_r. }
  destruct (Py.startswith line "|---") eqn:Hsep.
  { rewrite parse_line_separator by done. destruct st; simpl in *.
    by rewrite app_nil_r, Hin. }
  destruct (Py.startswith line "|") eqn:Hbar.
  { rewrite parse_line_row by done. by rewrite parse_row_app. }
  simpl in Hstop. rewrite andb_true_r in Hstop.
  destruct line; [|done]. rewrite parse_line_blank by done.
  destruct st; simpl in *. by rewrite app_nil_r, Hin.
Qed.

Lemma parse_lines_inside table_header st body :
  in_table st = true →
  Forall (λ l, stops_table table_header l = false) body →
  parse_lines table_header st body
  = (ParseState true
       (documented_labels st ++ concat (row_labels table_header <$> body)),
     Next).
Proof.
  intros Hin Hbody. revert st Hin.
  induction Hbody as [|l body Hl _ IH]; intros st Hin; simpl.
  - destruct st; simpl in *. by rewrite app_nil_r, Hin.
  - rewrite parse_line_inside by done. rewrite IH by done. simpl.
    by rewrite app_assoc.
Qed.

(** X5.  The parser reads exactly the table that follows the first
    header line: the lines from there up to the first line that stops
    the table (or the end of the document), each adding the label of its
    row; lines before the header and after the stopping line add
    nothing. *)
Theorem X5_parser_reads_first_table (content table_header : string)
    (pre : list string) (marker : string) (body rest : list string) :
  Py.split "010" content = pre ++ marker :: body ++ rest →
  Forall (λ l, Py.contains table_header l = false) pre →
  Py.contains table_header marker = true →
  Forall (λ l, stops_table table_header l = false) body →
  (rest = [] ∨ ∃ l rest', rest = l :: rest' ∧ stops_table table_header l = true) →
  _parse_label_table content table_header
  = concat (row_labels table_header <$> body).
Proof.
  intros Hsplit Hpre Hmarker Hbody Hrest. unfold _parse_label_table.
  rewrite Hsplit, parse_lines_app, parse_lines_before_header by done.
  change (marker :: body ++ rest) with ([marker] ++ body ++ rest).
  rewrite parse_lines_app. simpl. rewrite parse_line_header by done.
  rewrite parse_lines_app, parse_lines_inside by done. simpl.
  destruct Hrest as [->|(l & rest' & -> & Hstop)]; [done|]. simpl.
  unfold stops_table in Hstop.
  apply andb_true_iff in Hstop as [[Hhdr Hne]%andb_true_iff Hbar].
  rewrite parse_line_stop; try done.
  - by apply negb_true_iff.
  - by destruct l.
  - by apply negb_true_iff.
Qed.

Lemma X5_parser_reads_first_table_witness :
  let hdr := CONFIG.doc_parsing.table_header in
  _parse_label_table
    (unlines ["# Labels"; hdr; "|---|---|---|"; "| bug | d73a4a | Type |"; "";
              "| task | ffffff | Type |"; "Notes"; "| late | 000000 | Type |"])
    hdr
  = concat (row_labels hdr <$> ["|---|---|---|"; "| bug | d73a4a | Type |"; "";
                               "| task | ffffff | Type |"]).
Proof.
  intros hdr.
  apply (X5_parser_reads_first_table _ hdr ["# Labels"] hdr
           ["|---|---|---|"; "| bug | d73a4a | Type |"; "";
            "| task | ffffff | Type |"]
           ["Notes"; "| late | 000000 | Type |"]);
    [by vm_compute|repeat constructor|by vm_compute|repeat constructor|].
  right. by exists "Notes", ["| late | 000000 | Type |"].
Defined.

(** X6.  Lines added at the end of a document never change the labels
    already collected: the labels of the shorter document are a prefix
    of the labels of the longer one. *)
Theorem X6_labels_grow_with_document (table_header : string)
    (lines more : list string) :
  documented_labels (parse_lines table_header parse_init lines).1
  `prefix_of`
  documented_labels (parse_lines table_header parse_init (lines ++ more)).1.
Proof.
  rewrite parse_lines_app.
  destruct (parse_lines table_header parse_init lines) as [st []]; simpl;
    [apply parse_lines_grows|done].
Qed.

(** Lines and documents *)

Lemma unlines_cons l rest :
  rest ≠ [] → unlines (l :: rest) = l +:+ String "010" (unlines rest).
Proof. by destruct rest. Qed.

Lemma unlines_cons_char c w ws :
  unlines (String c w :: ws) = String c (unlines (w :: ws)).
Proof. by destruct ws. Qed.

Lemma split_app_sep sep l s :
  count_char sep l = 0%nat →
  Py.split sep (l +:+ String sep s) = l :: Py.split sep s.
Proof.
  induction l as [|c l IH]; intros Hl.
  - change ("" +:+ String sep s) with (String sep s). simpl.
    by rewrite Ascii.eqb_refl.
  - change (String c l +:+ String sep s) with (String c (l +:+ String sep s)).
    simpl in *. destruct (Ascii.eqb c sep); [done|]. by rewrite IH.
Qed.

Lemma split_no_sep sep l : count_char sep l = 0%nat → Py.split sep l = [l].
Proof.
  induction l as [|c l IH]; simpl; [done|].
  destruct (Ascii.eqb c sep); [done|]. intros Hl. by rewrite IH.
Qed.

(** X7.  Splitting a document into lines loses nothing: joining the
    lines with line breaks gives the document back, and a non-empty list
    of lines without line breaks is what its joined text splits into. *)
Theorem X7_lines_round_trip :
  (∀ text, unlines (Py.split "010" text) = text) ∧
  (∀ lines, lines ≠ [] →
     Forall (λ l, count_char "010" l = 0%nat) lines →
     Py.split "010" (unlines lines) = lines).
Proof.
  split.
  - intros text. induction text as [|c s IH]; simpl; [done|].
    pose proof (split_nonempty "010" s) as Hne.
    destruct (Ascii.eqb_spec c "010") as [->|Hc].
    + rewrite unlines_cons by done. by rewrite IH.
    + destruct (Py.split "010" s) as [|w ws]; [done|].
      by rewrite unlines_cons_char, IH.
  - intros lines Hne Hlines.
    induction Hlines as [|l lines Hl Hrest IH]; [done|].
    destruct lines as [|l' lines]; [by apply split_no_sep|].
    rewrite unlines_cons by done. rewrite split_app_sep by done.
    by rewrite IH.
Qed.

Lemma X7_lines_round_trip_witness :
  Py.split "010" (unlines ["# Labels"; ""; "| bug |"]) = ["# Labels"; ""; "| bug |"].
Proof.
  apply X7_lines_round_trip; [done|]. repeat constructor.
Defined.

(** ** The helpers built on the client *)

Lemma client_failed {A} (requests_get : string → headers → get_outcome A)
    endpoint hdrs org repo :
  failed_reply (requests_get (api_url org repo endpoint) hdrs) →
  ∃ msg, _get_github_api requests_get endpoint hdrs org repo
         = ([(Stderr, msg)], Val (false, None)).
Proof.
  unfold _get_github_api, failed_reply.
  destruct (requests_get _ hdrs) as [r|e].
  - intros [Hs|Hj].
    + rewrite (proj2 (Z.eqb_neq _ _) Hs).
      destruct (status_code r =? 404); by eexists.
    + rewrite Hj. destruct (status_code r =? 200); [by eexists|].
      destruct (status_code r =? 404); by eexists.
  - intros ->. by eexists.
Qed.

(** A reply is the user's interrupt, a failed reply, or a 200 with a
    decoded body. *)
Lemma reply_cases {A} (reply : get_outcome A) :
  not_interrupted reply →
  failed_reply reply ∨ ∃ data, reply = Responds (Response 200 (Some data)).
Proof.
  intros Hint. destruct reply as [[s [d|]]|e]; simpl.
  - destruct (decide (s = 200)) as [->|]; [right; by exists d|left; by left].
  - left. by right.
  - left. by destruct e.
Qed.

Lemma failed_not_200 {A} (reply : get_outcome A) data :
  failed_reply reply → reply ≠ Responds (Response 200 (Some data)).
Proof. intros Hf ->. simpl in Hf. by destruct Hf. Qed.

(** X8.  Unless the user interrupts it, the branch test returns a
    boolean and never raises: true, with nothing printed, exactly when
    the request is answered with HTTP 200 and a body that decodes;
    false, with one line on the error stream, in every other case. *)
Theorem X8_branch_exists_iff_200 (w : world) (branch : string)
    (hdrs : headers) (org repo : string) :
  let reply := get_branch w (api_url org repo ("branches/" +:+ branch)) hdrs in
  not_interrupted reply →
  ∃ tr found,
    _check_branch_exists w branch hdrs org repo = (tr, Val found) ∧
    (found = true ↔ ∃ data, reply = Responds (Response 200 (Some data))) ∧
    (found = true → tr = []) ∧
    (found = false → ∃ msg, tr = [(Stderr, msg)]).
Proof.
  intros reply Hint. unfold _check_branch_exists.
  destruct (reply_cases reply Hint) as [Hfail|[data Hok]].
  - destruct (client_failed (get_branch w) ("branches/" +:+ branch)
                hdrs org repo Hfail) as [msg ->].
    exists [(Stderr, msg)], false. split_and!; try done.
    + split; [done|]. intros [data Hok]. by destruct (failed_not_200 _ data Hfail).
    + intros _. by exists msg.
  - rewrite (client_200 hdrs org repo _ _ _ Hok).
    exists [], true. split_and!; try done. split; [|done]. intros _. by exists data.
Qed.

Lemma X8_branch_exists_iff_200_witness :
  _check_branch_exists Sample.no_branch "feat/label-color-standard" ∅
    "acme" "team-project-management"
  = ([(Stderr, ApiNotFound "branches/feat/label-color-standard")], Val false).
Proof.
  destruct (X8_branch_exists_iff_200 Sample.no_branch
              "feat/label-color-standard" ∅ "acme" "team-project-management")
    as (tr & found & Hrun & _); [done|].
  rewrite Hrun. vm_compute in Hrun. by injection Hrun as <- <-.
Defined.

(** Settles a goal by taking its hypotheses apart and comparing the
    constructors they equate. *)
Ltac settle :=
  repeat first
    [ progress intros
    | match goal with
      | H : ∃ _, _ |- _ => destruct H
      | H : _ ∧ _ |- _ => destruct H
      | H : _ ∨ _ |- _ => destruct H
      | H : Responds _ = Responds _ |- _ => injection H as H
      | H : Some _ = Some _ |- _ => injection H as H
      | H : Present _ = Present _ |- _ => injection H as H
      | H : String _ _ = String _ _ |- _ => injection H as ? H
      | |- _ ↔ _ => split
      end
    | progress subst
    | discriminate
    | congruence ];
  eauto 6.

(** The decoder of the sample worlds on the encoded text of a one-line
    file, and on what the sample platform sends for its documents. *)
Lemma sample_decoder_decodes :
  Base64.encode "# Label colors" = "IyBMYWJlbCBjb2xvcnM=" ∧
  Base64.decode "IyBMYWJlbCBjb2xvcnM=" = Some "# Label colors" ∧
  Base64.decode (Base64.encode Sample.doc) = Some Sample.doc ∧
  Base64.decode (Base64.encode Sample.short_doc) = Some Sample.short_doc.
Proof. by vm_compute. Qed.

(** X9.  Unless the user interrupts the request, the file fetch raises
    in one case only: a reply of HTTP 200 with a non-empty array, which
    the platform sends for a directory, makes it raise AttributeError
    with nothing printed.  In every other case it returns, and prints to
    the error stream only.  It returns text exactly when the request is
    answered with HTTP 200, the payload is a mapping with a non-empty
    "content" and that content decodes; a missing, null or empty
    "content" and an empty array give None without a word, a content
    that does not decode gives None after the decoding-error line. *)
Theorem X9_file_content (w : world) (branch file_path : string)
    (hdrs : headers) (org repo : string) :
  let reply := get_contents w
    (api_url org repo ("contents/" +:+ file_path +:+ "?ref=" +:+ branch)) hdrs in
  let call := _get_file_content w branch file_path hdrs org repo in
  not_interrupted reply →
  (directory_reply reply → call = ([], Exn AttributeError)) ∧
  (¬ directory_reply reply →
   ∃ tr result,
     call = (tr, Val result) ∧
     Forall (λ ev, ev.1 = Stderr) tr ∧
     (∀ text, result = Some text ↔
        ∃ c, reply = Responds (Response 200 (Some (Contents (Present c)))) ∧
             c ≠ "" ∧ b64decode_utf8 w c = Some text) ∧
     (∀ f, reply = Responds (Response 200 (Some (Contents f))) →
           f = Absent ∨ f = Null ∨ f = Present "" →
           call = ([], Val None)) ∧
     (reply = Responds (Response 200 (Some (Entries []))) →
      call = ([], Val None)) ∧
     (∀ c, reply = Responds (Response 200 (Some (Contents (Present c)))) →
           c ≠ "" → b64decode_utf8 w c = None →
           call = ([(Stderr, FileDecodeError file_path)], Val None))).
Proof.
  intros reply call Hint. unfold call, _get_file_content.
  destruct (reply_cases reply Hint) as [Hfail|[data Hok]].
  - destruct (client_failed (get_contents w)
                ("contents/" +:+ file_path +:+ "?ref=" +:+ branch)
                hdrs org repo Hfail) as [msg ->].
    split.
    { intros (name & names & Hok). by destruct (failed_not_200 _ _ Hfail Hok). }
    intros _. exists [(Stderr, msg)], None. split_and!; try done.
    + by repeat constructor.
    + intros text. split; [done|]. intros (c & Hok & _).
      by destruct (failed_not_200 _ _ Hfail Hok).
    + intros f Hok. by destruct (failed_not_200 _ _ Hfail Hok).
    + intros Hok. by destruct (failed_not_200 _ _ Hfail Hok).
    + intros c Hok. by destruct (failed_not_200 _ _ Hfail Hok).
  - rewrite (client_200 hdrs org repo _ _ _ Hok), bind_ret_l. fold reply.
    rewrite Hok. unfold directory_reply.
    destruct data as [f|[|name names]]; cbn [negb orb truthy_contents];
      cbv zeta.
    + split; [by intros (? & ? & ?)|]. intros _.
      destruct f as [| |[|a c]]; cbn [dict_get_none truthy_str Py.nonempty].
      1,2,3: exists [], None; split_and!; [done..| | | |]; settle.
      change (Py.narrowed (Some (String a c))) with (String a c).
      destruct (b64decode_utf8 w (String a c)) as [text|] eqn:Hdec.
      * exists [], (Some text). split_and!; [done..| | | |]; settle.
      * exists [(Stderr, FileDecodeError file_path)], None.
        split_and!; [done|by repeat constructor| | | |]; settle.
    + split; [by intros (? & ? & ?)|]. intros _.
      exists [], None. split_and!; [done..| | | |]; settle.
    + split; [done|]. intros Hdir. destruct Hdir. by exists name, names.
Qed.

Lemma X9_file_content_witness :
  let w := World (Some "t") (Some "acme") (get_branch Sample.passing)
             (λ url _,
                if Py.contains "contents/docs?" url
                then Sample.ok (Entries ["label-color-standardization.md"])
                else get_contents Sample.passing url ∅)
             (get_listing Sample.passing) (get_comments Sample.passing)
             (b64decode_utf8 Sample.passing) in
  _get_file_content w "feat/label-color-standard" "docs" ∅ "acme"
    "team-project-management" = ([], Exn AttributeError) ∧
  _get_file_content w "feat/label-color-standard"
    "docs/label-color-standardization.md" ∅ "acme" "team-project-management"
  = ([], Val (Some Sample.doc)).
Proof.
  intros w. split.
  - apply (X9_file_content w "feat/label-color-standard" "docs" ∅ "acme"
             "team-project-management"); [done|].
    by exists "label-color-standardization.md", [].
  - destruct (X9_file_content w "feat/label-color-standard"
                "docs/label-color-standardization.md" ∅ "acme"
                "team-project-management") as [_ Hfile]; [done|].
    destruct Hfile as (tr & result & Hrun & _ & Htext & _).
    { intros (name & names & Hreply). vm_compute in Hreply. discriminate. }
    assert (result = Some Sample.doc) as ->.
    { apply Htext. exists (Base64.encode Sample.doc).
      split_and!; [done|by vm_compute|by vm_compute]. }
    rewrite Hrun. vm_compute in Hrun. by injection Hrun as <-.
Defined.

(** X10.  Unless the user interrupts it, the comment fetch never raises
    and always returns a list: the comments of an HTTP 200 reply, with
    nothing printed, and the empty list, after one line on the error
    stream, when the request fails in any way. *)
Theorem X10_comments_always_a_list (w : world) (issue_number : Z)
    (hdrs : headers) (org repo : string) :
  let reply := get_comments w
    (api_url org repo ("issues/" +:+ Py.str issue_number +:+ "/comments")) hdrs in
  not_interrupted reply →
  ∃ tr comments,
    _get_issue_comments w issue_number hdrs org repo = (tr, Val comments) ∧
    (∀ data, reply = Responds (Response 200 (Some data)) →
             comments = data ∧ tr = []) ∧
    (failed_reply reply → comments = [] ∧ ∃ msg, tr = [(Stderr, msg)]).
Proof.
  intros reply Hint. unfold _get_issue_comments.
  destruct (reply_cases reply Hint) as [Hfail|[data Hok]].
  - destruct (client_failed (get_comments w)
                ("issues/" +:+ Py.str issue_number +:+ "/comments")
                hdrs org repo Hfail) as [msg ->].
    exists [(Stderr, msg)], []. split_and!; try done.
    + intros data Hok. by destruct (failed_not_200 _ _ Hfail Hok).
    + intros _. split; [done|]. by exists msg.
  - rewrite (client_200 hdrs org repo _ _ _ Hok), bind_ret_l.
    exists [], data. split_and!.
    + by destruct data.
    + fold reply. rewrite Hok. intros data' [= <-]. done.
    + intros Hfail. by destruct (failed_not_200 _ _ Hfail Hok).
Qed.

Lemma X10_comments_always_a_list_witness :
  _get_issue_comments Sample.passing 7 ∅ "acme" "team-project-management"
  = ([], Val [Sample.note]).
Proof.
  destruct (X10_comments_always_a_list Sample.passing 7 ∅ "acme"
              "team-project-management") as (tr & cs & Hrun & Hok & _); [done|].
  destruct (Hok [Sample.note]) as [-> ->]; [done|]. exact Hrun.
Defined.

(** ** The finders when a listing fails or the open one matches *)

Lemma find_in_states_failed w resource scan hdrs org repo state rest :
  failed_reply (get_listing w (api_url org repo
                  (resource +:+ "?state=" +:+ state +:+ "&per_page=30")) hdrs) →
  ∃ msg, find_in_states w resource scan hdrs org repo (state :: rest)
         = (print Stderr msg ;; find_in_states w resource scan hdrs org repo rest)%py.
Proof.
  intros Hfail. cbn [find_in_states].
  destruct (client_failed (get_listing w)
              (resource +:+ "?state=" +:+ state +:+ "&per_page=30")
              hdrs org repo Hfail) as [msg ->].
  exists msg. unfold bind, print. simpl.
  by destruct (find_in_states w resource scan hdrs org repo rest).
Qed.

Lemma find_in_states_closed_only w resource scan p hdrs org repo closed :
  failed_reply (get_listing w (api_url org repo
                  (resource +:+ "?state=" +:+ "open" +:+ "&per_page=30")) hdrs) →
  get_listing w (api_url org repo
    (resource +:+ "?state=" +:+ "closed" +:+ "&per_page=30")) hdrs
  = Responds (Response 200 (Some closed)) →
  scan closed = ret (List.find p closed) →
  ∃ msg, find_in_states w resource scan hdrs org repo ["open"; "closed"]
         = ([(Stderr, msg)], Val (List.find p closed)).
Proof.
  intros Hopen Hclosed Hscan.
  destruct (find_in_states_failed w resource scan hdrs org repo "open"
              ["closed"] Hopen) as [msg ->].
  exists msg. rewrite (find_in_states_answered w hdrs org repo _ _ _ _ _ Hclosed).
  destruct closed as [|c cs]; [done|].
  rewrite Hscan, bind_ret_l. by destruct (List.find p (c :: cs)).
Qed.

Lemma find_in_states_both_failed w resource scan hdrs org repo :
  failed_reply (get_listing w (api_url org repo
                  (resource +:+ "?state=" +:+ "open" +:+ "&per_page=30")) hdrs) →
  failed_reply (get_listing w (api_url org repo
                  (resource +:+ "?state=" +:+ "closed" +:+ "&per_page=30")) hdrs) →
  ∃ m1 m2, find_in_states w resource scan hdrs org repo ["open"; "closed"]
           = ([(Stderr, m1); (Stderr, m2)], Val None).
Proof.
  intros Hopen Hclosed.
  destruct (find_in_states_failed w resource scan hdrs org repo "open"
              ["closed"] Hopen) as [m1 ->].
  destruct (find_in_states_failed w resource scan hdrs org repo "closed"
              [] Hclosed) as [m2 ->].
  by exists m1, m2.
Qed.

Lemma find_in_states_open_match w resource scan hdrs org repo open it :
  get_listing w (api_url org repo
    (resource +:+ "?state=" +:+ "open" +:+ "&per_page=30")) hdrs
  = Responds (Response 200 (Some open)) →
  open ≠ [] →
  scan open = ret (Some it) →
  find_in_states w resource scan hdrs org repo ["open"; "closed"]
  = ([], Val (Some it)).
Proof.
  intros Hopen Hne Hscan.
  rewrite (find_in_states_answered w hdrs org repo _ _ _ _ _ Hopen).
  destruct open as [|o os]; [done|]. by rewrite Hscan, bind_ret_l.
Qed.

(** X11.  A listing request that fails does not stop a finder: it logs
    one line on the error stream and goes on.  With the open listing
    failed and the closed one answered, the result is the first match of
    the closed listing; with both failed, the result is null, as when
    nothing matches. *)
Theorem X11_finder_survives_failed_listing (w : world)
    (keywords : list string) (hdrs : headers) (org repo : string)
    (closed : list item) :
  let listing resource state :=
    get_listing w (api_url org repo (resource +:+ "?state=" +:+ state
                                       +:+ "&per_page=30")) hdrs in
  let is_issue it :=
    negb (dict_has (pull_request it)) && title_matches keywords it in
  Forall (λ it, title it ≠ Null) closed →
  (failed_reply (listing "issues" "open") →
   listing "issues" "closed" = Responds (Response 200 (Some closed)) →
   ∃ msg, _find_issue_by_keywords w keywords hdrs org repo
          = ([(Stderr, msg)], Val (List.find is_issue closed))) ∧
  (failed_reply (listing "issues" "open") →
   failed_reply (listing "issues" "closed") →
   ∃ m1 m2, _find_issue_by_keywords w keywords hdrs org repo
            = ([(Stderr, m1); (Stderr, m2)], Val None)) ∧
  (failed_reply (listing "pulls" "open") →
   listing "pulls" "closed" = Responds (Response 200 (Some closed)) →
   ∃ msg, _find_pr_by_keywords w keywords hdrs org repo
          = ([(Stderr, msg)], Val (List.find (title_matches keywords) closed))) ∧
  (failed_reply (listing "pulls" "open") →
   failed_reply (listing "pulls" "closed") →
   ∃ m1 m2, _find_pr_by_keywords w keywords hdrs org repo
            = ([(Stderr, m1); (Stderr, m2)], Val None)).
Proof.
  intros listing is_issue Htitles. split_and!.
  - intros Hopen Hclosed.
    apply (find_in_states_closed_only w "issues" _ is_issue hdrs org repo
             closed Hopen Hclosed).
    by apply scan_issues_find.
  - intros Hopen Hclosed. by apply find_in_states_both_failed.
  - intros Hopen Hclosed.
    apply (find_in_states_closed_only w "pulls" _ (title_matches keywords)
             hdrs org repo closed Hopen Hclosed).
    by apply scan_prs_find.
  - intros Hopen Hclosed. by apply find_in_states_both_failed.
Qed.

Lemma X11_finder_survives_failed_listing_witness :
  let w := World None None (λ _ _, Throws KeyboardInterrupt)
             (λ _ _, Throws KeyboardInterrupt)
             (λ url _, if Py.contains "state=open" url
                       then Responds (Response 500 None)
                       else Responds (Response 200 (Some [Sample.issue])))
             (λ _ _, Throws KeyboardInterrupt) (λ _, None) in
  _find_issue_by_keywords w ["label"] ∅ "acme" "repo"
  = ([(Stderr, ApiStatus "issues?state=open&per_page=30" 500)],
     Val (Some Sample.issue)).
Proof.
  intros w.
  destruct (X11_finder_survives_failed_listing w ["label"] ∅ "acme" "repo"
              [Sample.issue]) as (Hclosed & _).
  { repeat constructor. discriminate. }
  destruct Hclosed as [msg Hrun]; [by left|done|].
  rewrite Hrun. vm_compute in Hrun. by injection Hrun as <-.
Defined.

(** X12.  A match in the open listing ends the search at once: the
    finder returns it without a line printed, whatever the request for
    the closed listing would have done. *)
Theorem X12_open_match_skips_closed (w : world) (keywords : list string)
    (hdrs : headers) (org repo : string) (open : list item) (it : item) :
  let listing resource :=
    get_listing w (api_url org repo (resource +:+ "?state=" +:+ "open"
                                       +:+ "&per_page=30")) hdrs in
  let is_issue it :=
    negb (dict_has (pull_request it)) && title_matches keywords it in
  Forall (λ it, title it ≠ Null) open →
  (listing "issues" = Responds (Response 200 (Some open)) →
   List.find is_issue open = Some it →
   _find_issue_by_keywords w keywords hdrs org repo = ([], Val (Some it))) ∧
  (listing "pulls" = Responds (Response 200 (Some open)) →
   List.find (title_matches keywords) open = Some it →
   _find_pr_by_keywords w keywords hdrs org repo = ([], Val (Some it))).
Proof.
  intros listing is_issue Htitles. split.
  - intros Hopen Hfind. apply (find_in_states_open_match _ _ _ _ _ _ open).
    + exact Hopen.
    + by intros ->.
    + rewrite scan_issues_find by done. subst is_issue. by rewrite Hfind.
  - intros Hopen Hfind. apply (find_in_states_open_match _ _ _ _ _ _ open).
    + exact Hopen.
    + by intros ->.
    + rewrite scan_prs_find by done. by rewrite Hfind.
Qed.

Lemma X12_open_match_skips_closed_witness :
  let w := World None None (λ _ _, Throws KeyboardInterrupt)
             (λ _ _, Throws KeyboardInterrupt)
             (λ url _, if Py.contains "state=open" url
                       then Responds (Response 200 (Some [Sample.pr]))
                       else Throws KeyboardInterrupt)
             (λ _ _, Throws KeyboardInterrupt) (λ _, None) in
  _find_pr_by_keywords w ["LABEL"; "documentation"] ∅ "acme" "repo"
  = ([], Val (Some Sample.pr)).
Proof.
  intros w.
  apply (X12_open_match_skips_closed w ["LABEL"; "documentation"] ∅ "acme"
           "repo" [Sample.pr] Sample.pr); [|done..].
  repeat constructor. discriminate.
Defined.

(** ** What a finder returns, and where it gives up *)

Lemma bind_val_inv {A B} (m : M A) (k : A → M B) tr b :
  bind m k = (tr, Val b) →
  ∃ tr1 a tr2, m = (tr1, Val a) ∧ k a = (tr2, Val b) ∧ tr = tr1 ++ tr2.
Proof.
  destruct m as [tr1 [a|e]]; simpl; [|done].
  destruct (k a) as [tr2 r] eqn:Hk. intros [= <- ->]. by exists tr1, a, tr2.
Qed.

Lemma client_val_inv {A} (requests_get : string → headers → get_outcome A)
    endpoint hdrs org repo tr success data :
  _get_github_api requests_get endpoint hdrs org repo = (tr, Val (success, data)) →
  (success = true ∧ tr = [] ∧ ∃ d, data = Some d ∧
     requests_get (api_url org repo endpoint) hdrs = Responds (Response 200 (Some d)))
  ∨ (success = false ∧ data = None).
Proof.
  unfold _get_github_api.
  destruct (requests_get _ hdrs) as [[s [d|]]|e]; simpl.
  - destruct (Z.eqb_spec s 200) as [->|_].
    + intros [= <- <- <-]. left. split_and!; try done. by exists d.
    + destruct (s =? 404); intros [= <- <- <-]; by right.
  - destruct (s =? 200); [|destruct (s =? 404)]; intros [= <- <- <-]; by right.
  - destruct (is_Exception e); [|done]. intros [= <- <- <-]. by right.
Qed.

Lemma scan_issues_sound keywords items tr it :
  scan_issues keywords items = (tr, Val (Some it)) →
  it ∈ items ∧ dict_has (pull_request it) = false ∧ title it ≠ Null ∧
  title_matches keywords it = true.
Proof.
  induction items as [|x items IH]; cbn [scan_issues]; [done|].
  destruct (dict_has (pull_request x)) eqn:Hpr.
  { intros H. destruct (IH H) as (? & ? & ? & ?). split_and!; try done. by right. }
  assert (title x = Null ∨ title x ≠ Null) as [Hn|Hn]
    by (destruct (title x); auto).
  { by rewrite Hn. }
  rewrite lower_of_title, bind_ret_l by done.
  change (all_keywords_in keywords (Py.lower (title_text x)))
    with (title_matches keywords x).
  destruct (title_matches keywords x) eqn:Hm.
  - intros [= <- <-]. split_and!; try done. by left.
  - intros H. destruct (IH H) as (? & ? & ? & ?). split_and!; try done. by right.
Qed.

Lemma scan_prs_sound keywords items tr it :
  scan_prs keywords items = (tr, Val (Some it)) →
  it ∈ items ∧ title it ≠ Null ∧ title_matches keywords it = true.
Proof.
  induction items as [|x items IH]; cbn [scan_prs]; [done|].
  assert (title x = Null ∨ title x ≠ Null) as [Hn|Hn]
    by (destruct (title x); auto).
  { by rewrite Hn. }
  rewrite lower_of_title, bind_ret_l by done.
  change (all_keywords_in keywords (Py.lower (title_text x)))
    with (title_matches keywords x).
  destruct (title_matches keywords x) eqn:Hm.
  - intros [= <- <-]. split_and!; try done. by left.
  - intros H. destruct (IH H) as (? & ? & ?). split_and!; try done. by right.
Qed.

Lemma find_in_states_sound (P : item → Prop) w resource scan hdrs org repo
    states tr it :
  (∀ items tr it, scan items = (tr, Val (Some it)) → it ∈ items ∧ P it) →
  find_in_states w resource scan hdrs org repo states = (tr, Val (Some it)) →
  P it ∧ ∃ state items,
    state ∈ states ∧ it ∈ items ∧
    get_listing w (api_url org repo (resource +:+ "?state=" +:+ state
                                       +:+ "&per_page=30")) hdrs
    = Responds (Response 200 (Some items)).
Proof.
  intros Hscan. revert tr.
  induction states as [|state rest IH]; intros tr; cbn [find_in_states]; [done|].
  intros (tr1 & [success data] & tr2 & Hget & Hrest & ->)%bind_val_inv.
  assert (∀ tr', find_in_states w resource scan hdrs org repo rest
                 = (tr', Val (Some it)) →
          P it ∧ ∃ state' items, state' ∈ state :: rest ∧ it ∈ items ∧
            get_listing w (api_url org repo (resource +:+ "?state=" +:+ state'
                                               +:+ "&per_page=30")) hdrs
            = Responds (Response 200 (Some items))) as Hlater.
  { intros tr' H. destruct (IH _ H) as (? & state' & items & ? & ? & ?).
    split; [done|]. exists state', items. split_and!; try done. by right. }
  destruct (client_val_inv _ _ _ _ _ _ _ _ Hget)
    as [(-> & -> & d & -> & Hreply)|[-> ->]]; simpl in Hrest.
  - destruct d as [|x d]; simpl in Hrest; [by eapply Hlater|].
    apply bind_val_inv in Hrest as (tr3 & found & tr4 & Hfound & Hk & ->).
    destruct found as [it'|]; [|by eapply Hlater].
    injection Hk as <- <-. destruct (Hscan _ _ _ Hfound) as [Hin HP].
    split; [done|]. exists state, (x :: d). split_and!; try done. by left.
  - by eapply Hlater.
Qed.







(** ** The label tests of checks 6, 8 and 9 *)

Lemma elem_spec x xs : Py.elem x xs = true ↔ x ∈ xs.
Proof.
  unfold Py.elem. rewrite existsb_exists. split.
  - intros (y & Hin & Heq). apply String.eqb_eq in Heq as ->.
    by apply list_elem_of_In.
  - intros Hin. exists x. split; [by apply list_elem_of_In|apply String.eqb_refl].
Qed.

Lemma missing_labels_spec l wanted have :
  l ∈ missing_labels wanted have ↔ l ∈ wanted ∧ l ∉ have.
Proof.
  unfold missing_labels. split.
  - intros [Hin Hf]%list_elem_of_In%filter_In.
    split; [by apply list_elem_of_In|]. intros He%elem_spec. by rewrite He in Hf.
  - intros [Hin Hn]. apply list_elem_of_In, filter_In.
    split; [by apply list_elem_of_In|].
    destruct (Py.elem l have) eqn:He; [|done]. by apply elem_spec in He.
Qed.

Lemma missing_labels_nil wanted have :
  missing_labels wanted have = [] ↔ ∀ l, l ∈ wanted → l ∈ have.
Proof.
  split.
  - intros Hnil l Hl. destruct (Py.elem l have) eqn:He; [by apply elem_spec|].
    assert (l ∈ missing_labels wanted have) as Hin.
    { apply missing_labels_spec. split; [done|]. by rewrite <- elem_spec, He. }
    rewrite Hnil in Hin. by apply elem_of_nil in Hin.
  - intros Hall. destruct (missing_labels wanted have) as [|l ls] eqn:Hm; [done|].
    assert (l ∈ missing_labels wanted have) as [Hl Hn]%missing_labels_spec
      by (rewrite Hm; left).
    destruct Hn. by apply Hall.
Qed.

Lemma covered_length wanted have :
  NoDup wanted → missing_labels wanted have = [] →
  (length wanted ≤ length have)%nat.
Proof.
  intros Hnd Hnil. apply submseteq_length, NoDup_submseteq; [done|].
  by apply missing_labels_nil.
Qed.

Lemma expected_labels_NoDup : NoDup CONFIG.expected_labels.
Proof. apply (bool_decide_unpack _). by vm_compute. Qed.

Lemma initial_labels_expected l :
  l ∈ CONFIG.issue_requirements.initial_labels → l ∈ CONFIG.expected_labels.
Proof.
  intros Hl. apply elem_spec. apply elem_spec in Hl.
  unfold CONFIG.issue_requirements.initial_labels in Hl. simpl in Hl.
  apply orb_prop in Hl as [->%String.eqb_eq|Hl]; [done|].
  apply orb_prop in Hl as [->%String.eqb_eq|Hl]; done.
Qed.

(** X15.  Check 6/9 passes exactly when each of the 22 expected labels
    is among the issue's label names; order and repeats do not matter.
    A passing issue therefore carries at least 22 labels, the two
    initial labels of check 4/9 among them.  A failing one is reported
    on the error stream with the number of expected labels it lacks and
    the first five of them, and the function returns false. *)
Theorem X15_issue_needs_every_label (issue_number : Z)
    (issue_labels : list string) :
  let run := step6 issue_number issue_labels in
  let lacking := missing_labels CONFIG.expected_labels issue_labels in
  (run.2 = Val (Go tt) ↔ ∀ l, l ∈ CONFIG.expected_labels → l ∈ issue_labels) ∧
  (run.2 = Val (Go tt) →
     run.1 = [(Stdout, Step6Start 22); (Stdout, OkIssueAllLabels issue_number)] ∧
     (22 ≤ length issue_labels)%nat ∧
     missing_labels CONFIG.issue_requirements.initial_labels issue_labels = []) ∧
  (run.2 ≠ Val (Go tt) →
     run = ([(Stdout, Step6Start 22);
             (Stderr, ErrIssueExpectedLabels (length lacking) (take 5 lacking))],
            Val (Return false)) ∧
     lacking ≠ [] ∧
     ∀ l, l ∈ lacking ↔ l ∈ CONFIG.expected_labels ∧ l ∉ issue_labels).
Proof.
  intros run lacking.
  pose proof (missing_labels_nil CONFIG.expected_labels issue_labels) as Hnil.
  pose proof (covered_length CONFIG.expected_labels issue_labels
                expected_labels_NoDup) as Hlen.
  pose proof (λ l, missing_labels_spec l CONFIG.expected_labels issue_labels)
    as Hspec.
  assert (run = if nonempty_list lacking
                then ([(Stdout, Step6Start 22);
                       (Stderr, ErrIssueExpectedLabels (length lacking)
                                  (take 5 lacking))], Val (Return false))
                else ([(Stdout, Step6Start 22);
                       (Stdout, OkIssueAllLabels issue_number)], Val (Go tt)))
    as ->.
  { unfold run, step6. fold lacking. clearbody lacking. by destruct lacking. }
  fold lacking in Hnil, Hlen, Hspec. clearbody lacking.
  destruct lacking as [|l ls]; cbn [nonempty_list fst snd].
  - split_and!; try done.
    + split; [intros _; by apply Hnil|done].
    + intros _. split_and!; [done|by apply Hlen|].
      apply missing_labels_nil. intros l Hl.
      by apply Hnil, initial_labels_expected.
  - split_and!; try done.
    split; [done|]. intros Hall. by apply Hnil in Hall.
Qed.

Lemma X15_issue_needs_every_label_witness :
  (step6 7 (reverse CONFIG.expected_labels ++ ["triage"; "bug"])).2 = Val (Go tt) ∧
  (step6 7 ["bug"; "documentation"]).1
  = [(Stdout, Step6Start 22);
     (Stderr, ErrIssueExpectedLabels 20
                ["enhancement"; "feature"; "bug-critical"; "bug-major";
                 "bug-minor"])].
Proof.
  split.
  - apply (X15_issue_needs_every_label 7
             (reverse CONFIG.expected_labels ++ ["triage"; "bug"])).
    intros l Hl. apply elem_of_app. left. by apply elem_of_reverse.
  - destruct (X15_issue_needs_every_label 7 ["bug"; "documentation"])
      as (_ & _ & Hfail).
    destruct Hfail as [-> _]; [by vm_compute|by vm_compute].
Defined.

(** X16.  Check 8/9 passes exactly when each of the 22 expected labels
    is documented.  Labels the document adds to them never fail it: they
    are named (the first three) in a warning on the standard stream and
    the check still closes.  A document that passes holds at least 22
    labels, so it has met the count of check 3/9.  A document that does
    not pass is reported on the error stream with the first five
    expected labels it lacks and their number. *)
Theorem X16_document_covers_expected (documented_labels : list string) :
  let run := step8 documented_labels in
  let lacking := missing_labels CONFIG.expected_labels documented_labels in
  let added := missing_labels documented_labels CONFIG.expected_labels in
  (run.2 = Val (Go tt) ↔
     ∀ l, l ∈ CONFIG.expected_labels → l ∈ documented_labels) ∧
  (run.2 = Val (Go tt) →
     run.1 = (Stdout, Step8Start)
             :: (if nonempty_list added
                 then [(Stdout, WarnUnexpectedInDoc (take 3 added))] else [])
             ++ [(Stdout, OkDocConsistent 22)] ∧
     (CONFIG.doc_parsing.min_label_count ≤ length documented_labels)%nat ∧
     (added = [] ↔ ∀ l, l ∈ documented_labels → l ∈ CONFIG.expected_labels)) ∧
  (run.2 ≠ Val (Go tt) →
     run = ([(Stdout, Step8Start);
             (Stderr, ErrMissingInDoc (take 5 lacking) (length lacking))],
            Val (Return false)) ∧
     lacking ≠ [] ∧
     ∀ l, l ∈ lacking ↔ l ∈ CONFIG.expected_labels ∧ l ∉ documented_labels).
Proof.
  intros run lacking added.
  pose proof (missing_labels_nil CONFIG.expected_labels documented_labels)
    as Hnil.
  pose proof (covered_length CONFIG.expected_labels documented_labels
                expected_labels_NoDup) as Hlen.
  pose proof (λ l, missing_labels_spec l CONFIG.expected_labels
                     documented_labels) as Hspec.
  pose proof (missing_labels_nil documented_labels CONFIG.expected_labels)
    as Hadded.
  assert (run = if nonempty_list lacking
                then ([(Stdout, Step8Start);
                       (Stderr, ErrMissingInDoc (take 5 lacking)
                                  (length lacking))], Val (Return false))
                else ((Stdout, Step8Start)
                      :: (if nonempty_list added
                          then [(Stdout, WarnUnexpectedInDoc (take 3 added))]
                          else [])
                      ++ [(Stdout, OkDocConsistent 22)], Val (Go tt)))
    as ->.
  { unfold run, step8. fold lacking added. clearbody lacking added.
    destruct lacking; [|done]. by destruct added. }
  fold lacking in Hnil, Hlen, Hspec. fold added in Hadded.
  clearbody lacking added.
  destruct lacking as [|l ls]; cbn [nonempty_list fst snd].
  - split_and!; try done.
    split; [intros _; by apply Hnil|done].
    intros _. split_and!; [done|by apply Hlen|done].
  - split_and!; try done.
    split; [done|]. intros Hall. by apply Hnil in Hall.
Qed.

Lemma X16_document_covers_expected_witness :
  step8 (["Triage"] ++ CONFIG.expected_labels ++ ["bug"; "stale"])
  = ([(Stdout, Step8Start); (Stdout, WarnUnexpectedInDoc ["Triage"; "stale"]);
      (Stdout, OkDocConsistent 22)], Val (Go tt)).
Proof.
  destruct (X16_document_covers_expected
              (["Triage"] ++ CONFIG.expected_labels ++ ["bug"; "stale"]))
    as (Hiff & Hpass & _).
  assert ((step8 (["Triage"] ++ CONFIG.expected_labels ++ ["bug"; "stale"])).2
          = Val (Go tt)) as Hgo.
  { apply Hiff. intros l Hl. apply elem_of_app. right.
    apply elem_of_app. by left. }
  destruct (Hpass Hgo) as (Htrace & _).
  destruct (step8 _) as [tr r]. simpl in Hgo, Htrace. by subst.
Defined.

(** X17.  A pull request that passes check 9/9 carries at least five
    labels, so it also meets the minimum of three labels that check 5/9
    asks for. *)
Theorem X17_core_pass_needs_five_labels (pr_number : Z)
    (pr_labels : list label) :
  (step9 pr_number (Some pr_labels)).2 = Val (Go tt) →
  (5 ≤ length pr_labels)%nat ∧
  (length pr_labels <? CONFIG.pr_requirements.min_labels_count)%nat = false.
Proof.
  intros Hpass.
  assert (5 ≤ length pr_labels)%nat as Hfive; [|split; [done|]].
  - pose proof (core_present_missing (name <$> pr_labels)) as Hsum.
    assert (too_many_core_missing (name <$> pr_labels) = false) as Hfew.
    { assert ((step9 pr_number (Some pr_labels)).2
              = if too_many_core_missing (name <$> pr_labels)
                then Val (Return false) else Val (Go tt)) as Hrun.
      { unfold step9. cbn -[too_many_core_missing missing_pr_core_labels].
        by destruct (too_many_core_missing (name <$> pr_labels)). }
      rewrite Hrun in Hpass.
      by destruct (too_many_core_missing (name <$> pr_labels)). }
    unfold too_many_core_missing in Hfew. apply Nat.ltb_ge in Hfew.
    change (length core_expected_labels / 2)%nat with 5%nat in Hfew.
    assert (core_present (name <$> pr_labels) ≤ length (name <$> pr_labels))%nat
      as Hle.
    { unfold core_present. apply submseteq_length, NoDup_submseteq.
      - apply NoDup_ListNoDup, List.NoDup_filter, NoDup_ListNoDup.
        apply (bool_decide_unpack _). by vm_compute.
      - intros l [_ Hl]%list_elem_of_In%filter_In. by apply elem_spec. }
    rewrite length_fmap in Hle. lia.
  - apply Nat.ltb_ge. unfold CONFIG.pr_requirements.min_labels_count. lia.
Qed.

Lemma X17_core_pass_needs_five_labels_witness :
  let pr_labels :=
    Label <$> ["bug"; "task"; "feature"; "question"; "bug-minor"] in
  (step9 8 (Some pr_labels)).2 = Val (Go tt) ∧ (5 ≤ length pr_labels)%nat.
Proof.
  intros pr_labels.
  assert ((step9 8 (Some pr_labels)).2 = Val (Go tt)) as Hpass by by vm_compute.
  split; [done|]. by apply (X17_core_pass_needs_five_labels 8 pr_labels).
Defined.

(** ** The checks on the environment, the document, the issue and the
    pull request *)

Lemma bindB_lift_val {R A B} tr (a : A) (k : A → Body R B) :
  bindB (lift (tr, Val a)) k = (tr ++ (k a).1, (k a).2).
Proof.
  unfold bindB, lift, go, bind, ret. simpl.
  destruct (k a) as [tr' r]. simpl. by rewrite ?app_nil_r.
Qed.

Lemma bindB_print {R B} s msg (k : unit → Body R B) :
  bindB (lift (print s msg)) k = ((s, msg) :: (k tt).1, (k tt).2).
Proof. apply (bindB_lift_val [(s, msg)]). Qed.

Lemma bindB_lift_exn {R A B} tr e (k : A → Body R B) :
  bindB (lift (tr, Exn e)) k = (tr, Exn e).
Proof. done. Qed.

(** X18.  Without a token in the environment (unset or empty) the
    script prints the token line on the error stream and exits with
    status 1; with a token but no organisation it prints the
    organisation line.  In both cases that line is the whole output: no
    banner is printed and no request is sent, whatever the platform
    would have answered.  The token is tested first. *)
Theorem X18_environment_is_checked_first (w : world) :
  let unset (value : option string) := value = None ∨ value = Some "" in
  (unset (environ_GITHUB_TOKEN w) →
   verify_label_standardization w = ([(Stderr, EnvMissingToken)], Val false) ∧
   main w = ([(Stderr, EnvMissingToken)], 1)) ∧
  (¬ unset (environ_GITHUB_TOKEN w) → unset (environ_GITHUB_ORG w) →
   verify_label_standardization w = ([(Stderr, EnvMissingOrg)], Val false) ∧
   main w = ([(Stderr, EnvMissingOrg)], 1)).
Proof.
  intros unset.
  assert (∀ value, unset value → truthy_str value = false) as Hunset.
  { by intros value [->| ->]. }
  assert (∀ value, ¬ unset value → truthy_str value = true) as Hset.
  { intros [[|c s]|] Hvalue; try done; destruct Hvalue; [by right|by left]. }
  assert (∀ msg, step1 w = ([(Stderr, msg)], Val (Return false)) →
          verify_label_standardization w = ([(Stderr, msg)], Val false) ∧
          main w = ([(Stderr, msg)], 1)) as Hstop.
  { intros msg Hstep.
    assert (verify_label_standardization w = ([(Stderr, msg)], Val false)) as Hrun.
    { unfold verify_label_standardization, pipeline. by rewrite Hstep. }
    split; [done|]. unfold main. by rewrite Hrun. }
  split.
  - intros Htoken. apply Hstop. unfold step1. by rewrite (Hunset _ Htoken).
  - intros Htoken Horg. apply Hstop. unfold step1.
    by rewrite (Hset _ Htoken), (Hunset _ Horg).
Qed.

Lemma X18_environment_is_checked_first_witness :
  let w := World (Some "") None (get_branch Sample.passing)
             (get_contents Sample.passing) (get_listing Sample.passing)
             (get_comments Sample.passing) (b64decode_utf8 Sample.passing) in
  main w = ([(Stderr, EnvMissingToken)], 1).
Proof.
  intros w. apply (X18_environment_is_checked_first w). by right.
Defined.

Lemma file_content_decoded w branch file_path hdrs org repo c text :
  get_contents w
    (api_url org repo ("contents/" +:+ file_path +:+ "?ref=" +:+ branch)) hdrs
  = Responds (Response 200 (Some (Contents (Present c)))) →
  c ≠ "" → b64decode_utf8 w c = Some text →
  _get_file_content w branch file_path hdrs org repo = ([], Val (Some text)).
Proof.
  intros Hreply Hc Htext. unfold _get_file_content.
  rewrite (client_200 hdrs org repo _ _ _ Hreply), bind_ret_l.
  destruct c as [|a c]; [done|]. simpl.
  change (Py.narrowed (Some (String a c))) with (String a c).
  by rewrite Htext.
Qed.

(** X19.  When the label document is fetched and decoded, check 3/9
    depends on its text alone.  An empty text is reported as a missing
    file; a text whose table gives fewer than 22 labels is reported with
    the number found; any other text passes and hands on the labels in
    the order of the table.  Labels are counted as rows: the count is
    the length of the parsed list, repeats included. *)
Theorem X19_document_check (w : world) (github_org : string)
    (hdrs : headers) (c text : string) :
  let doc_file := CONFIG.feature_branch.doc_file in
  let documented_labels :=
    _parse_label_table text CONFIG.doc_parsing.table_header in
  get_contents w
    (api_url github_org CONFIG.target_repo
       ("contents/" +:+ doc_file +:+ "?ref=" +:+ CONFIG.feature_branch.name))
    hdrs
  = Responds (Response 200 (Some (Contents (Present c)))) →
  c ≠ "" → b64decode_utf8 w c = Some text →
  step3 w github_org hdrs
  = if decide (text = "") then
      ([(Stdout, Step3Start doc_file); (Stderr, ErrDocNotFound doc_file)],
       Val (Return false))
    else if decide (length documented_labels < 22)%nat then
      ([(Stdout, Step3Start doc_file);
        (Stderr, ErrDocLabelCount (length documented_labels) 22)],
       Val (Return false))
    else
      ([(Stdout, Step3Start doc_file);
        (Stdout, OkDoc (length documented_labels))],
       Val (Go documented_labels)).
Proof.
  intros doc_file documented_labels Hreply Hc Htext. subst doc_file.
  unfold step3.
  rewrite (file_content_decoded w _ _ hdrs github_org _ c text Hreply Hc Htext).
  rewrite bindB_print, (bindB_lift_val []).
  destruct (decide (text = "")) as [->|Hne]; [done|].
  assert (truthy_str (Some text) = true) as -> by by destruct text.
  change (Py.narrowed (Some text)) with text. fold documented_labels.
  cbn [negb fail_if]. unfold CONFIG.doc_parsing.min_label_count.
  destruct (decide (length documented_labels < 22)%nat) as [Hlt|Hge].
  - apply Nat.ltb_lt in Hlt. by rewrite Hlt.
  - apply Nat.nlt_ge, Nat.ltb_ge in Hge. by rewrite Hge.
Qed.

Lemma X19_document_check_witness :
  step3 Sample.short "acme" ∅
  = ([(Stdout, Step3Start CONFIG.feature_branch.doc_file);
      (Stderr, ErrDocLabelCount 18 22)], Val (Return false)).
Proof.
  rewrite (X19_document_check Sample.short "acme" ∅
             (Base64.encode Sample.short_doc) Sample.short_doc)
    by by vm_compute.
  by vm_compute.
Defined.

(** ** Checks 4/9 and 5/9 on the entry found *)

Lemma bindB_lift_ret {R A B} (a : A) (k : A → Body R B) :
  bindB (lift (ret a)) k = k a.
Proof. unfold bindB, lift, go, bind, ret. simpl. by destruct (k a). Qed.

Lemma comprehension_pure {A} (keep : A → M bool) (f : A → bool) xs :
  (∀ x, keep x = ret (f x)) → comprehension keep xs = ret (List.filter f xs).
Proof.
  intros Hkeep. induction xs as [|x xs IH]; [done|].
  cbn [comprehension List.filter]. by rewrite Hkeep, bind_ret_l, IH, bind_ret_l.
Qed.

Lemma missing_sections_some sections b :
  missing_sections sections (Some b)
  = ret (List.filter (λ sec, negb (Py.contains sec b)) sections).
Proof. by apply comprehension_pure. Qed.

Lemma missing_keywords_some keywords b :
  missing_keywords keywords (Some b)
  = ret (List.filter (λ kw, negb (icontains kw b)) keywords).
Proof. by apply comprehension_pure. Qed.

Lemma replace_issue_reference d :
  Py.replace CONFIG.pr_requirements.issue_reference_pattern "{issue_number}" d
  = "Fixes #" +:+ d.
Proof.
  cbv -[String.append]. change ("Fixes #" +:+ d) with
    (String "F" (String "i" (String "x" (String "e" (String "s"
       (String " " (String "#" d))))))).
  by rewrite string_app_nil_r.
Qed.

Lemma found_issue_has_title w hdrs org repo tr issue :
  _find_issue_by_keywords w CONFIG.issue_requirements.title_keywords hdrs
    org repo = (tr, Val (Some issue)) →
  title issue = Present (title_text issue).
Proof.
  intros Hfound.
  apply (find_in_states_sound
           (λ it, title it ≠ Null ∧
                  title_matches CONFIG.issue_requirements.title_keywords it
                  = true)) in Hfound as [[Hnull Hmatch] _].
  - unfold title_matches, title_text in *.
    by destruct (title issue).
  - intros items tr' it H. by apply scan_issues_sound in H as (? & ? & ? & ?).
Qed.

Lemma found_pr_has_title w hdrs org repo tr pr :
  _find_pr_by_keywords w CONFIG.pr_requirements.title_keywords hdrs
    org repo = (tr, Val (Some pr)) →
  title pr = Present (title_text pr).
Proof.
  intros Hfound.
  apply (find_in_states_sound
           (λ it, title it ≠ Null ∧
                  title_matches CONFIG.pr_requirements.title_keywords it
                  = true)) in Hfound as [[Hnull Hmatch] _].
  - unfold title_matches, title_text in *.
    by destruct (title pr).
  - intros items tr' it H. by apply scan_prs_sound in H as (? & ? & ?).
Qed.

(** X20.  For the issue the finder returns, with a body that is a
    string (or no body key, read as the empty string) and a label list,
    check 4/9 never raises and adds one line to the finder's output.  It
    tests the sections first (each must occur in the body as written),
    then the keywords (case ignored), then the two initial labels, and
    reports the first test that fails with everything that test lacks.
    It passes when none fails, handing on the issue number and the label
    names. *)
Theorem X20_issue_checks_in_order (w : world) (github_org : string)
    (hdrs : headers) (tr : list event) (issue : item) (b : string) :
  _find_issue_by_keywords w CONFIG.issue_requirements.title_keywords hdrs
    github_org CONFIG.target_repo = (tr, Val (Some issue)) →
  dict_get (body issue) "" = Some b →
  labels issue ≠ Null →
  let names := name <$> default [] (dict_get (labels issue) []) in
  let sections :=
    List.filter (λ sec, negb (Py.contains sec b))
      CONFIG.issue_requirements.required_sections in
  let keywords :=
    List.filter (λ kw, negb (icontains kw b))
      CONFIG.issue_requirements.body_keywords in
  let initial :=
    missing_labels CONFIG.issue_requirements.initial_labels names in
  step4 w github_org hdrs
  = ((Stdout, Step4Start CONFIG.issue_requirements.title_keywords)
     :: tr ++
     [ if nonempty_list sections then (Stderr, ErrIssueSections sections)
       else if nonempty_list keywords then (Stderr, ErrIssueKeywords keywords)
       else if nonempty_list initial then (Stderr, ErrIssueLabels initial)
       else (Stdout, OkIssue (number issue) (Some (title_text issue))) ],
     Val (if nonempty_list (sections ++ keywords ++ initial)
          then Return false else Go (number issue, names))).
Proof.
  intros Hfound Hbody Hlabels names sections keywords initial.
  pose proof (found_issue_has_title _ _ _ _ _ _ Hfound) as Htitle.
  assert (label_names (dict_get (labels issue) []) = ret names) as Hnames.
  { subst names. by destruct (labels issue). }
  unfold step4. rewrite Hfound, bindB_print, bindB_lift_val.
  cbv beta match. rewrite Hbody, Hnames, Htitle, bindB_lift_ret.
  rewrite missing_sections_some, bindB_lift_ret. fold sections.
  rewrite missing_keywords_some. fold initial.
  clearbody sections initial. destruct sections as [|? ?]; [|done].
  rewrite bindB_lift_ret. fold keywords. clearbody keywords.
  destruct keywords as [|? ?]; [|done].
  by destruct initial as [|? ?].
Qed.

Lemma X20_issue_checks_in_order_witness :
  let issue :=
    Item 7 (Present "Label standard documentation")
      (Present "## background and ## Required Label List, in COLOR")
      (Present [Label "bug"]) Absent in
  let w := World (Some "t") (Some "acme") (get_branch Sample.passing)
             (get_contents Sample.passing)
             (λ _ _, Responds (Response 200 (Some [issue])))
             (get_comments Sample.passing) (b64decode_utf8 Sample.passing) in
  step4 w "acme" ∅
  = ([(Stdout, Step4Start CONFIG.issue_requirements.title_keywords);
      (Stderr, ErrIssueSections ["## Background"])], Val (Return false)).
Proof.
  intros issue w.
  by rewrite (X20_issue_checks_in_order w "acme" ∅ [] issue
                "## background and ## Required Label List, in COLOR").
Defined.

(** X21.  For the pull request the finder returns, with a body that is
    a string (or no body key) and a label list, check 5/9 never raises
    and adds one line to the finder's output.  It tests, in this order,
    that the body holds the text Fixes #n for the issue number n (case
    ignored, anywhere in the body), the sections (as written), the
    keywords (case ignored) and that there are at least three labels,
    and reports the first test that fails.  It passes when none fails,
    handing on the pull request's number and labels. *)
Theorem X21_pr_checks_in_order (w : world) (github_org : string)
    (hdrs : headers) (issue_number : Z) (tr : list event) (pr : item)
    (b : string) (pr_labels : list label) :
  _find_pr_by_keywords w CONFIG.pr_requirements.title_keywords hdrs
    github_org CONFIG.target_repo = (tr, Val (Some pr)) →
  dict_get (body pr) "" = Some b →
  dict_get (labels pr) [] = Some pr_labels →
  let reference := "Fixes #" +:+ Py.str issue_number in
  let sections :=
    List.filter (λ sec, negb (Py.contains sec b))
      CONFIG.pr_requirements.required_sections in
  let keywords :=
    List.filter (λ kw, negb (icontains kw b))
      CONFIG.pr_requirements.body_keywords in
  let passes :=
    icontains reference b && negb (nonempty_list sections)
    && negb (nonempty_list keywords) && (3 <=? length pr_labels)%nat in
  step5 w github_org hdrs issue_number
  = ((Stdout, Step5Start CONFIG.pr_requirements.title_keywords)
     :: tr ++
     [ if negb (icontains reference b) then (Stderr, ErrPrIssueRef reference)
       else if nonempty_list sections then (Stderr, ErrPrSections sections)
       else if nonempty_list keywords then (Stderr, ErrPrKeywords keywords)
       else if (length pr_labels <? 3)%nat
       then (Stderr, ErrPrLabelCount (length pr_labels) 3)
       else (Stdout, OkPr (number pr) (Some (title_text pr))) ],
     Val (if passes then Go (number pr, Some pr_labels) else Return false)).
Proof.
  intros Hfound Hbody Hlabels reference sections keywords passes.
  pose proof (found_pr_has_title _ _ _ _ _ _ Hfound) as Htitle.
  unfold step5. rewrite Hfound, bindB_print, bindB_lift_val.
  cbv beta match. rewrite Hbody, Hlabels, Htitle, replace_issue_reference.
  fold reference. cbn [lower_of len_of]. rewrite bindB_lift_ret.
  change (Py.contains (Py.lower reference) (Py.lower b))
    with (icontains reference b).
  subst passes. clearbody reference.
  destruct (icontains reference b); [|done]. cbn [negb fail_if andb].
  rewrite missing_sections_some, missing_keywords_some. fold sections keywords.
  rewrite bindB_lift_ret.
  clearbody sections. destruct sections as [|? ?]; [|done].
  rewrite bindB_lift_ret. clearbody keywords.
  destruct keywords as [|? ?]; [|done].
  rewrite bindB_lift_ret. unfold CONFIG.pr_requirements.min_labels_count.
  cbn [nonempty_list negb andb].
  rewrite (Nat.leb_antisym (length pr_labels) 3).
  by destruct (length pr_labels <? 3)%nat.
Qed.

Lemma X21_pr_checks_in_order_witness :
  let pr :=
    Item 8 (Present "Label standard documentation")
      (Present "## Summary ## Changes: label DOCUMENTATION standard, fixes #71.")
      (Present [Label "a"; Label "b"]) Absent in
  let w := World (Some "t") (Some "acme") (get_branch Sample.passing)
             (get_contents Sample.passing)
             (λ _ _, Responds (Response 200 (Some [pr])))
             (get_comments Sample.passing) (b64decode_utf8 Sample.passing) in
  step5 w "acme" ∅ 7
  = ([(Stdout, Step5Start CONFIG.pr_requirements.title_keywords);
      (Stderr, ErrPrLabelCount 2 3)], Val (Return false)).
Proof.
  intros pr w.
  by rewrite (X21_pr_checks_in_order w "acme" ∅ 7 [] pr
                "## Summary ## Changes: label DOCUMENTATION standard, fixes #71."
                [Label "a"; Label "b"]).
Defined.

(** X22.  A null body on the entry found is not read as an empty text:
    check 4/9 raises TypeError at its first membership test, check 5/9
    raises AttributeError when it lower-cases the body.  Neither prints
    a failure line; the output so far is the check's opening line and
    what the finder printed. *)
Theorem X22_null_body_raises (w : world) (github_org : string)
    (hdrs : headers) (issue_number : Z) (tr : list event) (it : item) :
  body it = Null →
  (_find_issue_by_keywords w CONFIG.issue_requirements.title_keywords hdrs
     github_org CONFIG.target_repo = (tr, Val (Some it)) →
   step4 w github_org hdrs
   = ((Stdout, Step4Start CONFIG.issue_requirements.title_keywords) :: tr,
      Exn TypeError)) ∧
  (_find_pr_by_keywords w CONFIG.pr_requirements.title_keywords hdrs
     github_org CONFIG.target_repo = (tr, Val (Some it)) →
   step5 w github_org hdrs issue_number
   = ((Stdout, Step5Start CONFIG.pr_requirements.title_keywords) :: tr,
      Exn AttributeError)).
Proof.
  intros Hbody. split; intros Hfound.
  - unfold step4. rewrite Hfound, bindB_print, bindB_lift_val.
    cbv beta match. rewrite Hbody. cbn [dict_get].
    destruct (labels it) as [| |ls]; cbn [dict_get label_names].
    + rewrite bindB_lift_ret. simpl. by rewrite app_nil_r.
    + simpl. by rewrite app_nil_r.
    + rewrite bindB_lift_ret. simpl. by rewrite app_nil_r.
  - unfold step5. rewrite Hfound, bindB_print, bindB_lift_val.
    cbv beta match. rewrite Hbody. simpl. by rewrite app_nil_r.
Qed.

Lemma X22_null_body_raises_witness :
  step4 Sample.null_body "acme" ∅
  = ([(Stdout, Step4Start CONFIG.issue_requirements.title_keywords)],
     Exn TypeError).
Proof.
  by apply (proj1 (X22_null_body_raises Sample.null_body "acme" ∅ 0 []
                     (Item 7 (title Sample.issue) Null (labels Sample.issue)
                        Absent) eq_refl)).
Defined.

(** X23.  Check 7/9 cannot tell a comment request that failed from an
    issue without comments: in both cases it reports that no compliant
    comment was found and the function returns false.  After a failed
    request the client's line comes first, also on the error stream. *)
Theorem X23_no_comments_no_pass (w : world) (github_org : string)
    (hdrs : headers) (issue_number pr_number : Z) :
  let reply :=
    get_comments w
      (api_url github_org CONFIG.target_repo
         ("issues/" +:+ Py.str issue_number +:+ "/comments")) hdrs in
  (failed_reply reply →
   ∃ msg, step7 w github_org hdrs issue_number pr_number
          = ([(Stdout, Step7Start pr_number); (Stderr, msg);
              (Stderr, ErrNoCompliantComment issue_number pr_number)],
             Val (Return false))) ∧
  (reply = Responds (Response 200 (Some [])) →
   step7 w github_org hdrs issue_number pr_number
   = ([(Stdout, Step7Start pr_number);
       (Stderr, ErrNoCompliantComment issue_number pr_number)],
      Val (Return false))).
Proof.
  intros reply. split.
  - intros Hfail. unfold step7, _get_issue_comments.
    destruct (client_failed (get_comments w)
                ("issues/" +:+ Py.str issue_number +:+ "/comments")
                hdrs github_org CONFIG.target_repo Hfail) as [msg ->].
    by exists msg.
  - intros Hok. unfold step7, _get_issue_comments.
    by rewrite (client_200 hdrs github_org CONFIG.target_repo _ _ _ Hok).
Qed.

Lemma X23_no_comments_no_pass_witness :
  let w := World (Some "t") (Some "acme") (get_branch Sample.passing)
             (get_contents Sample.passing) (get_listing Sample.passing)
             (λ _ _, Throws (RequestException "timeout"))
             (b64decode_utf8 Sample.passing) in
  step7 w "acme" ∅ 7 8
  = ([(Stdout, Step7Start 8);
      (Stderr, ApiException "issues/7/comments" (RequestException "timeout"));
      (Stderr, ErrNoCompliantComment 7 8)], Val (Return false)).
Proof.
  intros w.
  destruct (proj1 (X23_no_comments_no_pass w "acme" ∅ 7 8)) as [msg Hrun];
    [done|].
  rewrite Hrun. vm_compute in Hrun. by injection Hrun as <-.
Defined.

(** ** The text tests are substring tests *)

Lemma string_app_assoc (s t u : string) : (s +:+ t) +:+ u = s +:+ t +:+ u.
Proof.
  induction s as [|c s IH]; [done|]. by rewrite !string_app_cons, IH.
Qed.

Lemma contains_wrap needle hay before after :
  Py.contains needle hay = true →
  Py.contains needle (before +:+ hay +:+ after) = true.
Proof.
  rewrite !contains_spec. intros (pre & post & ->).
  exists (before +:+ pre), (post +:+ after). by rewrite !string_app_assoc.
Qed.

Lemma contains_prefix needle rest hay :
  Py.contains (needle +:+ rest) hay = true → Py.contains needle hay = true.
Proof.
  rewrite !contains_spec. intros (pre & post & ->).
  exists pre, (rest +:+ post). by rewrite !string_app_assoc.
Qed.

Lemma all_keywords_wrap keywords text before after :
  all_keywords_in keywords text = true →
  all_keywords_in keywords (before +:+ text +:+ after) = true.
Proof.
  unfold all_keywords_in. rewrite !forallb_forall.
  intros Hall kw Hkw. by apply contains_wrap, Hall.
Qed.

(** X24.  The reference tests do not delimit the number.  A comment body
    that passes the PR-reference test for pull request q passes it for
    every pull request p whose number, written out, is a prefix of q's;
    in the same way a pull request body that holds the issue reference
    for issue q holds it for every such p.  So the text PR #80 serves
    pull request 8 as well. *)
Theorem X24_reference_matches_longer_numbers (p q : Z) (text : string) :
  Py.startswith (Py.str q) (Py.str p) = true →
  (has_pr_reference q text = true → has_pr_reference p text = true) ∧
  (Py.contains
     (Py.lower (Py.replace CONFIG.pr_requirements.issue_reference_pattern
                  "{issue_number}" (Py.str q))) text = true →
   Py.contains
     (Py.lower (Py.replace CONFIG.pr_requirements.issue_reference_pattern
                  "{issue_number}" (Py.str p))) text = true).
Proof.
  intros [rest Hrest]%startswith_spec. unfold has_pr_reference.
  rewrite !replace_pr_reference, !replace_issue_reference, Hrest.
  rewrite <- !string_app_assoc, !(lower_app _ rest).
  split; apply contains_prefix.
Qed.

Lemma X24_reference_matches_longer_numbers_witness :
  has_pr_reference 80 "see pr #80" = true ∧
  has_pr_reference 8 "see pr #80" = true.
Proof.
  assert (has_pr_reference 80 "see pr #80" = true) as Hq by by vm_compute.
  split; [done|].
  apply (proj1 (X24_reference_matches_longer_numbers 8 80 "see pr #80"
                  ltac:(by vm_compute)) Hq).
Defined.

(** X25.  Every test of the comment loop asks for a piece of text to be
    present, none for one to be absent: a comment that the loop accepts
    is still accepted with any text put before or after its body. *)
Theorem X25_comment_tests_only_ask_for_text (pr_number : Z)
    (text before after : string) :
  let c := Comment (Present text) in
  let c' := Comment (Present (before +:+ text +:+ after)) in
  comment_loop pr_number [c] = ([], Val (Some c)) →
  comment_loop pr_number [c'] = ([], Val (Some c')).
Proof.
  intros c c'. cbn [comment_loop].
  change (lower_of (dict_get (comment_body c) "")) with (ret (Py.lower text)).
  change (lower_of (dict_get (comment_body c') ""))
    with (ret (Py.lower (before +:+ text +:+ after))).
  rewrite !bind_ret_l, !lower_app.
  destruct (has_pr_reference pr_number (Py.lower text)) eqn:Href; [|done].
  destruct (has_all_keywords (Py.lower text)) eqn:Hkw; [|done].
  destruct (has_all_flags (Py.lower text)) eqn:Hflags; [|done].
  intros _. unfold has_pr_reference in *.
  rewrite (contains_wrap _ _ _ _ Href).
  unfold has_all_keywords, has_all_flags in *.
  by rewrite (all_keywords_wrap _ _ _ _ Hkw), (all_keywords_wrap _ _ _ _ Hflags).
Qed.

Lemma X25_comment_tests_only_ask_for_text_witness :
  let c' :=
    Comment (Present ("Note: " +:+ comment_text Sample.note +:+ " Thanks!")) in
  comment_loop 8 [c'] = ([], Val (Some c')).
Proof.
  intros c'.
  apply (X25_comment_tests_only_ask_for_text 8 (comment_text Sample.note)
           "Note: " " Thanks!").
  by vm_compute.
Defined.
